(** * SSO handoff worker: a shallow embedding and its verified properties

    The development follows the layout of [worker/sso]:
    - [Js]       : the few JavaScript string operations the worker relies on;
    - [Base64]   : [atob], [btoa] and the two base64url helpers of [jose.ts];
    - the data model of [types.ts], the host built-ins ([JSON],
      [crypto.subtle], ...) as an interface, the network and the D1 database;
    - the effect monad: clock, key-set cache, database, exceptions and a
      trace of the calls made to collaborators;
    - [db.ts], [jose.ts], [cookies.ts] and the worker entry point, function
      by function, asynchronous calls run to completion in source order;
    - [Demo]     : an executable instance of the host, for worked examples;
    - the properties of the design document, numbered as in its claim list
      (C1, C2, ...);
    - further properties of the code, numbered X1, X2, ...: the codec, the
      directory and the cleanup of nonces, cookies, the session from the
      exchange to [/auth/me], the key-set cache, routing and the protected
      routes.

    Conventions.  JSON values are read through the TypeScript types of
    [types.ts]: a property is a string or a number of the declared type, or
    is missing.  The clock is read from the world and stands still while one
    request is served.  [console] output is not modelled.

    Limits of the model.  A statement sent to the D1 database executes: the
    one database failure that is followed is the conflicting insert that
    older D1 versions report as an error.  [Headers.append], [new Response]
    and [new URL] are taken to succeed.  Strings are sequences of bytes, and
    [trim] removes the white space of ASCII only, so what is proved of
    [parseCookies] through [trim] is stated for ASCII text.  A cookie jar is
    read by own property: the configured cookie name is taken not to be the
    name of a property of [Object.prototype]. *)

From Stdlib Require Import ZArith NArith Lia List Bool.
From Stdlib.Strings Require Import Ascii String Byte.
From stdpp Require Import base option gmap strings pretty.

Import ListNotations.
Local Open Scope string_scope.
Local Open Scope list_scope.


(* ===================================================================== *)
(** * JavaScript string helpers *)
(* ===================================================================== *)

Module Js.

(** A JavaScript string is modelled by its UTF-8 bytes, a [Uint8Array] by
    [list byte]; [new TextEncoder().encode] is then the identity on the
    underlying bytes. *)
Definition TextEncoder_encode (s : string) : list byte :=
  list_byte_of_string s.

(** Truthiness of a string: only the empty string is falsy. *)
Definition truthy (s : string) : bool :=
  match s with EmptyString => false | String _ _ => true end.

(** Truthiness of an optional string property ([undefined] is falsy). *)
Definition truthy_opt (o : option string) : bool :=
  match o with Some s => truthy s | None => false end.

(** Truthiness of an optional number: [undefined] and [0] are falsy. *)
Definition truthy_num (o : option Z) : bool :=
  match o with Some z => negb (z =? 0)%Z | None => false end.

(** [x < n] for an optional number: a comparison with [undefined] is
    false. *)
Definition less_than (o : option Z) (n : Z) : bool :=
  match o with Some z => (z <? n)%Z | None => false end.

(** Rendering of an optional string inside a template literal. *)
Definition show_opt (o : option string) : string :=
  match o with Some s => s | None => "undefined" end.

(** [split_acc sep cur s] scans [s]; [cur] is the current piece, reversed. *)
Fixpoint split_acc (sep : ascii) (cur : list ascii) (s : list ascii)
  : list (list ascii) :=
  match s with
  | [] => [rev cur]
  | c :: s' =>
      if Ascii.eqb c sep then rev cur :: split_acc sep [] s'
      else split_acc sep (c :: cur) s'
  end.

(** [s.split(sep)] for a one-character separator. *)
Definition split (sep : ascii) (s : string) : list string :=
  map string_of_list_ascii (split_acc sep [] (list_ascii_of_string s)).

(** [s.startsWith(p)]. *)
Definition startsWith (p s : string) : bool := String.prefix p s.

(** [s.includes(p)]: [p] occurs somewhere in [s]. *)
Fixpoint includes (p s : string) : bool :=
  String.prefix p s ||
  match s with
  | EmptyString => false
  | String _ s' => includes p s'
  end.

(** ASCII white space of the HTML standard: TAB, LF, FF, CR and SPACE. *)
Definition is_ascii_whitespace (c : ascii) : bool :=
  let n := N_of_ascii c in
  (n =? 32)%N || (n =? 9)%N || (n =? 10)%N || (n =? 12)%N || (n =? 13)%N.

(** White space removed by [trim], restricted to ASCII (adds VT). *)
Definition is_space (c : ascii) : bool :=
  is_ascii_whitespace c || (N_of_ascii c =? 11)%N.

Fixpoint drop_space (l : list ascii) : list ascii :=
  match l with
  | c :: l' => if is_space c then drop_space l' else l
  | [] => []
  end.

(** [s.trim()] restricted to the ASCII white space. *)
Definition trim (s : string) : string :=
  string_of_list_ascii
    (rev (drop_space (rev (drop_space (list_ascii_of_string s))))).

(** [parts.join(sep)]. *)
Fixpoint join (sep : string) (l : list string) : string :=
  match l with
  | [] => ""
  | [x] => x
  | x :: l' => String.append x (String.append sep (join sep l'))
  end.

(** [o[k] = v] on a plain object that holds strings.  The assignment to
    [__proto__] stores nothing: the setter inherited from [Object.prototype]
    ignores a string.  Every other name becomes, or overwrites, an own
    property. *)
Definition assign (k v : string) (o : gmap string string)
  : gmap string string :=
  if String.eqb k "__proto__" then o else <[k := v]> o.

(** A string free of the separator [sep]. *)
Definition no_sep (sep : ascii) (s : string) : Prop :=
  Forall (fun c => Ascii.eqb c sep = false) (list_ascii_of_string s).

End Js.

(* ===================================================================== *)
(** * Base64 and base64url ([jose.ts], lines 35-58) *)
(* ===================================================================== *)

Module Base64.

Definition alphabet : list ascii :=
  list_ascii_of_string
    "ABCDEFGHIJKLMNOPQRSTUVWXYZabcdefghijklmnopqrstuvwxyz0123456789+/".

Definition pad : ascii := "="%char.

(** The character of a sextet. *)
Definition char_of (n : N) : ascii := nth (N.to_nat n) alphabet pad.

Fixpoint index_from (i : N) (c : ascii) (l : list ascii) : option N :=
  match l with
  | [] => None
  | d :: l' => if Ascii.eqb c d then Some i else index_from (N.succ i) c l'
  end.

(** The sextet of a character, when it is in the alphabet. *)
Definition index_of (c : ascii) : option N := index_from 0%N c alphabet.

Definition byte_of_N (n : N) : byte :=
  match Byte.of_N n with Some b => b | None => x00 end.

Definition enc3 (a b c : byte) : list ascii :=
  let x := Byte.to_N a in
  let y := Byte.to_N b in
  let z := Byte.to_N c in
  [ char_of (x / 4);
    char_of ((x mod 4) * 16 + y / 16);
    char_of ((y mod 16) * 4 + z / 64);
    char_of (z mod 64) ]%N.

Definition enc2 (a b : byte) : list ascii :=
  let x := Byte.to_N a in
  let y := Byte.to_N b in
  [ char_of (x / 4);
    char_of ((x mod 4) * 16 + y / 16);
    char_of ((y mod 16) * 4) ]%N.

Definition enc1 (a : byte) : list ascii :=
  let x := Byte.to_N a in
  [ char_of (x / 4); char_of ((x mod 4) * 16) ]%N.

(** [btoa(String.fromCharCode(...data))]: standard base64 with padding. *)
Fixpoint btoa (data : list byte) : list ascii :=
  match data with
  | [] => []
  | [a] => enc1 a ++ [pad; pad]
  | [a; b] => enc2 a b ++ [pad]
  | a :: b :: c :: rest => enc3 a b c ++ btoa rest
  end.

(** The bytes of a run of sextets; a final group of two or three sextets
    yields one or two bytes, the left-over bits being dropped. *)
Fixpoint bytes_of_sextets (l : list N) : list byte :=
  match l with
  | s1 :: s2 :: s3 :: s4 :: rest =>
      [ byte_of_N ((s1 * 4 + s2 / 16) mod 256);
        byte_of_N (((s2 mod 16) * 16 + s3 / 4) mod 256);
        byte_of_N (((s3 mod 4) * 64 + s4) mod 256) ]%N
      ++ bytes_of_sextets rest
  | [s1; s2; s3] =>
      [ byte_of_N ((s1 * 4 + s2 / 16) mod 256);
        byte_of_N (((s2 mod 16) * 16 + s3 / 4) mod 256) ]%N
  | [s1; s2] => [ byte_of_N ((s1 * 4 + s2 / 16) mod 256) ]%N
  | _ => []
  end.

Fixpoint sextets (l : list ascii) : option (list N) :=
  match l with
  | [] => Some []
  | c :: l' =>
      match index_of c, sextets l' with
      | Some n, Some r => Some (n :: r)
      | _, _ => None
      end
  end.

(** Removal of one or two trailing padding characters. *)
Definition strip_padding (l : list ascii) : list ascii :=
  match rev l with
  | p1 :: p2 :: r =>
      if Ascii.eqb p1 pad then
        if Ascii.eqb p2 pad then rev r else rev (p2 :: r)
      else l
  | [p1] => if Ascii.eqb p1 pad then [] else l
  | [] => l
  end.

(** [atob(s)] followed by the [charCodeAt] loop: the forgiving base64
    decoding of the HTML standard; [None] is the [InvalidCharacterError]. *)
Definition atob (s : list ascii) : option (list byte) :=
  let d := List.filter (fun c => negb (Js.is_ascii_whitespace c)) s in
  let d := if (length d mod 4 =? 0)%nat then strip_padding d else d in
  if (length d mod 4 =? 1)%nat then None
  else option_map bytes_of_sextets (sextets d).

(** [str.replace(/x/g, 'y')] for single characters. *)
Definition replace_char (x y : ascii) (l : list ascii) : list ascii :=
  map (fun c => if Ascii.eqb c x then y else c) l.

(** [str.replace(/x/g, '')]. *)
Definition remove_char (x : ascii) (l : list ascii) : list ascii :=
  List.filter (fun c => negb (Ascii.eqb c x)) l.

(** [str.padEnd(n, '=')]. *)
Definition padEnd (n : nat) (l : list ascii) : list ascii :=
  l ++ repeat pad (n - length l).

(** [base64UrlDecode] *)
Definition base64UrlDecode (str : string) : option (list byte) :=
  let base64 :=
    replace_char "_" "/" (replace_char "-" "+" (list_ascii_of_string str)) in
  let padded :=
    padEnd (length base64 + ((4 - (length base64 mod 4)) mod 4)) base64 in
  atob padded.

(** [base64UrlEncode] *)
Definition base64UrlEncode (data : list byte) : string :=
  let base64 := btoa data in
  string_of_list_ascii
    (remove_char "=" (replace_char "/" "_" (replace_char "+" "-" base64))).

(** The two URL-safe substitutions on one character. *)
Definition url_char (c : ascii) : ascii :=
  let c1 := if Ascii.eqb c "+" then "-"%char else c in
  if Ascii.eqb c1 "/" then "_"%char else c1.

Definition unurl_char (c : ascii) : ascii :=
  let c1 := if Ascii.eqb c "-" then "+"%char else c in
  if Ascii.eqb c1 "_" then "/"%char else c1.

(** What is checked of each of the 64 sextets. *)
Definition sextet_ok (n : N) : bool :=
  let c := char_of n in
  match index_of c with Some m => (m =? n)%N | None => false end
  && Ascii.eqb (unurl_char (url_char c)) c
  && negb (Ascii.eqb (url_char c) pad)
  && negb (Ascii.eqb c pad)
  && negb (Ascii.eqb (url_char c) ".")
  && negb (Js.is_ascii_whitespace c).

(** The unpadded standard encoding, group by group. *)
Fixpoint raw (data : list byte) : list ascii :=
  match data with
  | [] => []
  | [a] => enc1 a
  | [a; b] => enc2 a b
  | a :: b :: c :: rest => enc3 a b c ++ raw rest
  end.

(** A character of the standard alphabet. *)
Definition clean (c : ascii) : Prop := exists n, (n < 64)%N /\ c = char_of n.

End Base64.

(* ===================================================================== *)
(** * Data model ([types.ts]) *)
(* ===================================================================== *)

(** Claims of the external assertion.  Every property may be missing from
    the decoded JSON, so each field is optional. *)
Record FlexiJWTPayload := {
  fj_iss : option string;
  fj_aud : option string;
  fj_sub : option string;
  fj_email : option string;
  fj_exp : option Z;
  fj_nbf : option Z;
  fj_iat : option Z;
  fj_jti : option string
}.

(** The payload of the session token.  The issuer writes every property; a
    decoded payload may lack [exp], the one property the verifier reads
    ([None]: missing, or not a number). *)
Record VibeAccessPayload := {
  va_iss : string;
  va_aud : string;
  va_sub : string;
  va_email : string;
  va_roles : string;
  va_exp : option Z;
  va_iat : Z
}.

Record UserRow := {
  user_id : string;
  email : string;
  status : string;
  roles : string;
  updated_at : Z
}.

Record JWK := {
  jwk_kty : string;
  jwk_use : option string;
  jwk_kid : option string;
  jwk_alg : option string;
  jwk_n : string;
  jwk_e : string
}.

Record JWKS := { keys : list JWK }.

Record ErrorResponse := {
  error : string;
  code : string;
  message : option string
}.

(** The bindings of the worker ([SSOEnv]); the [VIBE_DB] binding is part of
    the mutable world below. *)
Record SSOEnv := {
  FLEXI_JWKS_URL : string;
  FLEXI_ISS : string;
  FLEXI_AUD : string;
  VIBE_ISS : string;
  VIBE_AUD : string;
  VIBE_ACCESS_SECRET : string;
  VIBE_COOKIE_NAME : string;
  VIBE_COOKIE_DOMAIN : string;
  PROTECTED_PREFIX : string;
  VIBE_ORIGIN : string;
  ALLOW_MIGRATE : option string
}.

(** The decoded protected header of a compact token. *)
Record JoseHeader := {
  h_alg : option string;
  h_kid : option string
}.

(** The key data handed to [crypto.subtle.importKey] by [importRSAKey]. *)
Record RsaKeyData := {
  kd_kty : string;
  kd_n : string;
  kd_e : string;
  kd_alg : string;
  kd_ext : bool
}.

(** The JSON body of a request, as [request.json()] and the destructuring
    [const { jwt, email } = body] see it. *)
Inductive ReqBody :=
| BodyNotJson (raw : string)          (* [request.json()] rejects *)
| BodyJsonNull                        (* the JSON text [null] *)
| BodyJsonObject (jwt email : option string).

Record Request := {
  req_method : string;
  req_pathname : string;              (* [new URL(request.url).pathname] *)
  req_search : string;                (* [new URL(request.url).search] *)
  req_headers : gmap string string;   (* keyed by lower-case header name *)
  req_body : ReqBody
}.

Inductive Body :=
| NoBody
| ErrorBody (err : ErrorResponse)
| MeBody (uid mail rls : string)      (* [{user_id, email, roles}] *)
| SuccessBody (msg : string)          (* [{success: true, message}] *)
| OkBody                              (* [{ok: true}] *)
| TextBody (text : string)
| UpstreamBody (raw : string).

Record Response := {
  resp_status : Z;
  resp_headers : list (string * string);
  resp_body : Body
}.

(** The machine-readable code of a response, when it is an error body. *)
Definition resp_code (r : Response) : option string :=
  match resp_body r with ErrorBody err => Some (code err) | _ => None end.

(* ===================================================================== *)
(** * Host primitives and collaborators *)
(* ===================================================================== *)

(** The built-ins of the JavaScript host the worker calls: [JSON],
    [crypto.subtle], [String.prototype.toLowerCase] and the URI coders.
    A parser returns [None] where the built-in throws. *)
Record Host := {
  JSON_parse_header : list byte -> option JoseHeader;
  JSON_parse_flexi : list byte -> option FlexiJWTPayload;
  JSON_parse_vibe : list byte -> option VibeAccessPayload;
  JSON_stringify_header : string -> string -> string;
  JSON_stringify_vibe : VibeAccessPayload -> string;
  rsa_importKey : RsaKeyData -> bool;
  rsa_verify : RsaKeyData -> list byte -> list byte -> bool;
  hmac_importKey : list byte -> bool;
  hmac_sha256 : list byte -> list byte -> list byte;
  toLowerCase : string -> string;
  encodeURIComponent : string -> string;
  decodeURIComponent : string -> option string;
  formUrlEncode : string -> string
}.

(** What a [fetch] may produce: a rejected promise or a response with a
    status and a JSON body ([None] where [response.json()] rejects). *)
Inductive Reply (A : Type) :=
| NetworkError (msg : string)
| HttpReply (st : Z) (json : option A).
Arguments NetworkError {A} msg.
Arguments HttpReply {A} st json.

Record HandoffSession := { hs_accessToken : string }.
Record HandoffData := { hd_success : bool; hd_data : option HandoffSession }.

Record ProxyRequest := {
  px_url : string;
  px_method : string;
  px_headers : gmap string string;
  px_body : ReqBody
}.

(** The network as the worker sees it: the key-set endpoint, the hand-off
    endpoint of the upstream application and the upstream itself. *)
Record Network := {
  net_jwks : string -> Reply JWKS;
  net_handoff : string -> list (string * string) -> Reply HandoffData;
  net_proxy : ProxyRequest -> string + Response
}.

(** The two tables of the D1 database.  [sso_users] is keyed by its primary
    key [email], [jwt_seen] by [jti] with the [seen_at] column as value.
    [conflict_throws] selects the behaviour of older D1 versions, which
    report a conflicting insert as a UNIQUE constraint failure. *)
Record UserColumns := {
  col_user_id : string;
  col_status : string;
  col_roles : string;
  col_updated_at : Z
}.

Record D1Database := {
  sso_users : gmap string UserColumns;
  jwt_seen : gmap string Z;
  conflict_throws : bool
}.

(** Calls to collaborators, in the order they are made. *)
Inductive Event :=
| EvFetchJWKS (url : string)
| EvRsaVerify (key : RsaKeyData)
| EvSelectUser (mail : string)
| EvInsertJti (jti : string)
| EvBatch
| EvUpstream (method url : string).

Record World := {
  now : Z;                            (* [Date.now()], milliseconds *)
  jwksCache : option (JWKS * Z);      (* the module variable of [jose.ts] *)
  VIBE_DB : D1Database;
  trace : list Event
}.

(** ** The effect monad: state, exceptions and a trace *)

Inductive Outcome (A : Type) :=
| Ok (a : A)
| Throw (msg : string).               (* [throw new Error(msg)] *)
Arguments Ok {A} a.
Arguments Throw {A} msg.

Definition M (A : Type) : Type := World -> Outcome A * World.

Definition ret {A} (a : A) : M A := fun w => (Ok a, w).

Definition throw {A} (msg : string) : M A := fun w => (Throw msg, w).

Definition bind {A B} (m : M A) (k : A -> M B) : M B :=
  fun w => match m w with
           | (Ok a, w') => k a w'
           | (Throw msg, w') => (Throw msg, w')
           end.

(** [try { m } catch (error) { h error.message }] *)
Definition try_catch {A} (m : M A) (h : string -> M A) : M A :=
  fun w => match m w with
           | (Ok a, w') => (Ok a, w')
           | (Throw msg, w') => h msg w'
           end.

Notation "x <- m ;; k" := (bind m (fun x => k))
  (at level 100, m at next level, right associativity).
Notation "m ;;; k" := (bind m (fun _ => k))
  (at level 100, right associativity).

Definition Date_now : M Z := fun w => (Ok (now w), w).

Definition emit (ev : Event) : M unit :=
  fun w => (Ok tt, {| now := now w; jwksCache := jwksCache w;
                      VIBE_DB := VIBE_DB w; trace := trace w ++ [ev] |}).

Definition get_jwksCache : M (option (JWKS * Z)) :=
  fun w => (Ok (jwksCache w), w).

Definition set_jwksCache (c : option (JWKS * Z)) : M unit :=
  fun w => (Ok tt, {| now := now w; jwksCache := c;
                      VIBE_DB := VIBE_DB w; trace := trace w |}).

Definition get_db : M D1Database := fun w => (Ok (VIBE_DB w), w).

Definition set_db (db : D1Database) : M unit :=
  fun w => (Ok tt, {| now := now w; jwksCache := jwksCache w;
                      VIBE_DB := db; trace := trace w |}).

(** The same world at another reading of the clock. *)
Definition at_time (t : Z) (w : World) : World :=
  {| now := t; jwksCache := jwksCache w; VIBE_DB := VIBE_DB w;
     trace := trace w |}.

(** The world after a call to a collaborator has been logged. *)
Definition logged (ev : Event) (w : World) : World :=
  {| now := now w; jwksCache := jwksCache w; VIBE_DB := VIBE_DB w;
     trace := trace w ++ [ev] |}.

(** The world after [jti] has been recorded by the replay guard. *)
Definition recorded (jti : string) (w : World) : World :=
  {| now := now w; jwksCache := jwksCache w;
     VIBE_DB := {| sso_users := sso_users (VIBE_DB w);
                   jwt_seen := <[jti := (now w / 1000)%Z]> (jwt_seen (VIBE_DB w));
                   conflict_throws := conflict_throws (VIBE_DB w) |};
     trace := trace w ++ [EvInsertJti jti] |}.

(** Lifting of a host primitive that may throw. *)
Definition or_throw {A} (o : option A) (msg : string) : M A :=
  match o with Some a => ret a | None => throw msg end.

#[global] Instance byte_eq_decision : EqDecision byte := Byte.byte_eq_dec.

(** The payload handed to [signVibeAccessHS256]:
    [Omit<VibeAccessPayload, 'exp' | 'iat'>]. *)
Record VibeAccessInput := {
  in_iss : string;
  in_aud : string;
  in_sub : string;
  in_email : string;
  in_roles : string
}.

Section Worker.

Context (host : Host) (net : Network).

(* =================================================================== *)
(** ** [db.ts] *)
(* =================================================================== *)

(** [SELECT user_id, email, status, roles, updated_at FROM sso_users
    WHERE email = ?], [.first()]. *)
Definition d1_first_user (db : D1Database) (mail : string) : option UserRow :=
  match sso_users db !! mail with
  | Some c => Some {| user_id := col_user_id c; email := mail;
                      status := col_status c; roles := col_roles c;
                      updated_at := col_updated_at c |}
  | None => None
  end.

(** [INSERT INTO jwt_seen (jti, seen_at) VALUES (?, unixepoch())
    ON CONFLICT(jti) DO NOTHING], [.run()]; the result is
    [result.meta.changes]. *)
Definition d1_run_insert_jti (jti : string) : M (option Z) :=
  emit (EvInsertJti jti) ;;;
  t <- Date_now ;;
  db <- get_db ;;
  match jwt_seen db !! jti with
  | Some _ =>
      if conflict_throws db
      then throw "D1_ERROR: UNIQUE constraint failed: jwt_seen.jti"
      else ret (Some 0%Z)
  | None =>
      set_db {| sso_users := sso_users db;
                jwt_seen := <[jti := (t / 1000)%Z]> (jwt_seen db);
                conflict_throws := conflict_throws db |} ;;;
      ret (Some 1%Z)
  end.

(** [getUserByEmail] *)
Definition getUserByEmail (mail : string) : M (option UserRow) :=
  emit (EvSelectUser mail) ;;;
  db <- get_db ;;
  ret (d1_first_user db mail).

(** [markJtiSeen] *)
Definition markJtiSeen (jti : string) : M bool :=
  try_catch
    (changes <- d1_run_insert_jti jti ;;
     ret (0 <? default 0 changes)%Z)
    (fun msg =>
       if Js.includes "UNIQUE constraint" msg then ret false
       else throw msg).

(** [INSERT INTO sso_users (email, user_id, status, roles, updated_at)
    VALUES (?, ?, ?, ?, unixepoch()) ON CONFLICT(email) DO UPDATE SET ...],
    [.run()]: the row keyed by [mail] is written, whether it is new or not. *)
Definition d1_run_upsert_user (mail userId status' roles' : string) : M unit :=
  t <- Date_now ;;
  db <- get_db ;;
  set_db {| sso_users :=
              <[mail := {| col_user_id := userId; col_status := status';
                           col_roles := roles';
                           col_updated_at := (t / 1000)%Z |}]> (sso_users db);
            jwt_seen := jwt_seen db;
            conflict_throws := conflict_throws db |}.

(** [upsertUser]; its two optional parameters default to ['active'] and
    ['viewer']. *)
Definition upsertUser (mail userId : string) (status' roles' : option string)
  : M unit :=
  d1_run_upsert_user mail userId
    (default "active" status') (default "viewer" roles').

(** [DELETE FROM jwt_seen WHERE seen_at < ?], [.run()]; the result is
    [result.meta.changes], the number of rows deleted. *)
Definition d1_run_delete_jtis (cutoff : Z) : M (option Z) :=
  db <- get_db ;;
  let deleted :=
    filter (fun row : string * Z => (snd row < cutoff)%Z) (jwt_seen db) in
  let kept :=
    filter (fun row : string * Z => ~ (snd row < cutoff)%Z) (jwt_seen db) in
  set_db {| sso_users := sso_users db;
            jwt_seen := kept;
            conflict_throws := conflict_throws db |} ;;;
  ret (Some (Z.of_nat (size deleted))).

(** [cleanupOldJtis]; [olderThanSeconds] defaults to one day. *)
Definition cleanupOldJtis (olderThanSeconds : option Z) : M Z :=
  t <- Date_now ;;
  let cutoff := (t / 1000 - default 86400 olderThanSeconds)%Z in
  changes <- d1_run_delete_jtis cutoff ;;
  ret (default 0%Z changes).

(* =================================================================== *)
(** ** [jose.ts] *)
(* =================================================================== *)

Definition response_ok (st : Z) : bool := ((200 <=? st) && (st <=? 299))%Z.

(** [getFlexiJWKS] *)
Definition getFlexiJWKS (jwksUrl : string) : M JWKS :=
  t <- Date_now ;;
  cache <- get_jwksCache ;;
  let refresh : M JWKS :=
    emit (EvFetchJWKS jwksUrl) ;;;
    match net_jwks net jwksUrl with
    | NetworkError msg => throw msg
    | HttpReply st json =>
        if negb (response_ok st)
        then throw (String.append "Failed to fetch JWKS: " (pretty st))
        else
          jwks <- or_throw json "SyntaxError" ;;
          set_jwksCache (Some (jwks, t + 10 * 60 * 1000)%Z) ;;;
          ret jwks
    end in
  match cache with
  | Some (data, expires) =>
      if (t <? expires)%Z then ret data else refresh
  | None => refresh
  end.

(** [base64UrlDecode], with the exception of [atob]. *)
Definition base64UrlDecode (str : string) : M (list byte) :=
  or_throw (Base64.base64UrlDecode str) "InvalidCharacterError".

(** The [keyData] object of [importRSAKey]. *)
Definition key_data (jwk : JWK) : RsaKeyData :=
  {| kd_kty := jwk_kty jwk; kd_n := jwk_n jwk; kd_e := jwk_e jwk;
     kd_alg := if Js.truthy_opt (jwk_alg jwk)
               then Js.show_opt (jwk_alg jwk) else "RS256";
     kd_ext := true |}.

(** [importRSAKey] *)
Definition importRSAKey (jwk : JWK) : M RsaKeyData :=
  let keyData := key_data jwk in
  if rsa_importKey host keyData then ret keyData else throw "DataError".

(** The key selection of [verifyFlexiJWT_RS256]. *)
Definition select_key (header : JoseHeader) (jwks : JWKS) : option JWK :=
  if Js.truthy_opt (h_kid header)
  then List.find (fun k => bool_decide (jwk_kid k = h_kid header)) (keys jwks)
  else head (keys jwks).

(** The claim checks of [verifyFlexiJWT_RS256], in source order. *)
Definition check_claims (payload : FlexiJWTPayload)
    (expectedIss expectedAud : string) (nowSec : Z) : M unit :=
  if negb (bool_decide (fj_iss payload = Some expectedIss))
  then throw (String.append "Invalid issuer: " (Js.show_opt (fj_iss payload)))
  else if negb (bool_decide (fj_aud payload = Some expectedAud))
  then throw (String.append "Invalid audience: " (Js.show_opt (fj_aud payload)))
  else if Js.truthy_num (fj_exp payload)
          && (default 0 (fj_exp payload) <? nowSec)%Z
  then throw "Token expired"
  else if Js.truthy_num (fj_nbf payload)
          && (nowSec <? default 0 (fj_nbf payload))%Z
  then throw "Token not yet valid"
  else if negb (Js.truthy_opt (fj_email payload))
  then throw "Missing email claim"
  else ret tt.

(** [verifyFlexiJWT_RS256] *)
Definition verifyFlexiJWT_RS256 (token jwksUrl expectedIss expectedAud : string)
  : M FlexiJWTPayload :=
  match Js.split "." token with
  | [headerB64; payloadB64; signatureB64] =>
      (* Decode header *)
      headerJson <- base64UrlDecode headerB64 ;;
      header <- or_throw (JSON_parse_header host headerJson) "SyntaxError" ;;
      if negb (bool_decide (h_alg header = Some "RS256"))
      then throw (String.append "Unsupported algorithm: "
                                (Js.show_opt (h_alg header)))
      else
        (* Decode payload *)
        payloadJson <- base64UrlDecode payloadB64 ;;
        payload <- or_throw (JSON_parse_flexi host payloadJson) "SyntaxError" ;;
        (* Verify claims *)
        t <- Date_now ;;
        check_claims payload expectedIss expectedAud (t / 1000)%Z ;;;
        (* Get JWKS and find matching key *)
        jwks <- getFlexiJWKS jwksUrl ;;
        match select_key header jwks with
        | None => throw "No matching key found in JWKS"
        | Some jwk =>
            (* Import public key *)
            publicKey <- importRSAKey jwk ;;
            (* Verify signature *)
            signatureData <- base64UrlDecode signatureB64 ;;
            let messageData :=
              Js.TextEncoder_encode
                (String.append headerB64 (String "." payloadB64)) in
            emit (EvRsaVerify publicKey) ;;;
            if rsa_verify host publicKey signatureData messageData
            then ret payload
            else throw "Invalid signature"
        end
  | _ => throw "Invalid JWT format"
  end.

(** The three parts of a compact token, when it has exactly three. *)
Definition parts (token : string) : option (string * string * string) :=
  match Js.split "." token with
  | [a; b; c] => Some (a, b, c)
  | _ => None
  end.

(** The header and the claims a compact token decodes to, as
    [verifyFlexiJWT_RS256] reads them. *)
Definition decode_header (token : string) : option JoseHeader :=
  match Js.split "." token with
  | [headerB64; _; _] =>
      match Base64.base64UrlDecode headerB64 with
      | Some bytes => JSON_parse_header host bytes
      | None => None
      end
  | _ => None
  end.

Definition decode_claims (token : string) : option FlexiJWTPayload :=
  match Js.split "." token with
  | [_; payloadB64; _] =>
      match Base64.base64UrlDecode payloadB64 with
      | Some bytes => JSON_parse_flexi host bytes
      | None => None
      end
  | _ => None
  end.

Definition full_payload (payload : VibeAccessInput) (nowSec ttl : Z)
  : VibeAccessPayload :=
  {| va_iss := in_iss payload; va_aud := in_aud payload;
     va_sub := in_sub payload; va_email := in_email payload;
     va_roles := in_roles payload;
     va_exp := Some (nowSec + ttl)%Z; va_iat := nowSec |}.

(** [crypto.subtle.importKey('raw', ..., { name: 'HMAC', ... })] *)
Definition importHmacKey (secret : string) : M (list byte) :=
  let raw := Js.TextEncoder_encode secret in
  if hmac_importKey host raw then ret raw else throw "DataError".

(** [signVibeAccessHS256] *)
Definition signVibeAccessHS256 (payload : VibeAccessInput) (secret : string)
    (ttlSeconds : Z) : M string :=
  t <- Date_now ;;
  let nowSec := (t / 1000)%Z in
  let fullPayload := full_payload payload nowSec ttlSeconds in
  let headerB64 :=
    Base64.base64UrlEncode
      (Js.TextEncoder_encode (JSON_stringify_header host "HS256" "JWT")) in
  let payloadB64 :=
    Base64.base64UrlEncode
      (Js.TextEncoder_encode (JSON_stringify_vibe host fullPayload)) in
  let message := String.append headerB64 (String "." payloadB64) in
  key <- importHmacKey secret ;;
  let signature := hmac_sha256 host key (Js.TextEncoder_encode message) in
  let signatureB64 := Base64.base64UrlEncode signature in
  ret (String.append message (String "." signatureB64)).

(** [verifyVibeAccessHS256] *)
Definition verifyVibeAccessHS256 (token secret : string)
  : M VibeAccessPayload :=
  match Js.split "." token with
  | [headerB64; payloadB64; signatureB64] =>
      (* Decode and verify header *)
      headerJson <- base64UrlDecode headerB64 ;;
      header <- or_throw (JSON_parse_header host headerJson) "SyntaxError" ;;
      if negb (bool_decide (h_alg header = Some "HS256"))
      then throw (String.append "Unsupported algorithm: "
                                (Js.show_opt (h_alg header)))
      else
        key <- importHmacKey secret ;;
        (* Verify signature *)
        signatureData <- base64UrlDecode signatureB64 ;;
        let message := String.append headerB64 (String "." payloadB64) in
        let isValid :=
          bool_decide (signatureData
                       = hmac_sha256 host key (Js.TextEncoder_encode message)) in
        if negb isValid then throw "Invalid signature"
        else
          (* Decode payload *)
          payloadJson <- base64UrlDecode payloadB64 ;;
          payload <- or_throw (JSON_parse_vibe host payloadJson) "SyntaxError" ;;
          (* Verify expiration *)
          t <- Date_now ;;
          if Js.less_than (va_exp payload) (t / 1000)%Z
          then throw "Token expired"
          else ret payload
  | _ => throw "Invalid JWT format"
  end.

(* =================================================================== *)
(** ** [cookies.ts] *)
(* =================================================================== *)

Record CookieOptions := {
  domain : option string;
  maxAge : option Z;
  path : option string;
  httpOnly : option bool;
  secure : option bool;
  sameSite : option string
}.

(** [setCookie]: the header list with the new [Set-Cookie] appended. *)
Definition setCookie (headers : list (string * string))
    (name value : string) (options : CookieOptions)
  : list (string * string) :=
  let path' := default "/" (path options) in
  let httpOnly' := default true (httpOnly options) in
  let secure' := default true (secure options) in
  let sameSite' := default "Lax" (sameSite options) in
  let cookie :=
    String.append (encodeURIComponent host name)
      (String.append "=" (encodeURIComponent host value)) in
  let cookie :=
    if Js.truthy_opt (domain options)
    then String.append cookie
           (String.append "; Domain=" (Js.show_opt (domain options)))
    else cookie in
  let cookie :=
    match maxAge options with
    | Some age => String.append cookie (String.append "; Max-Age=" (pretty age))
    | None => cookie
    end in
  let cookie := String.append cookie (String.append "; Path=" path') in
  let cookie := if httpOnly' then String.append cookie "; HttpOnly" else cookie in
  let cookie := if secure' then String.append cookie "; Secure" else cookie in
  let cookie :=
    if Js.truthy sameSite'
    then String.append cookie (String.append "; SameSite=" sameSite')
    else cookie in
  headers ++ [("Set-Cookie", cookie)].

(** One iteration of the loop of [parseCookies]; the object [cookies] is
    represented by its own properties. *)
Definition parse_pair (cookies : gmap string string) (pair : string)
  : gmap string string :=
  match Js.split "=" pair with
  | name :: valueParts =>
      if Js.truthy name && (0 <? length valueParts)%nat then
        let value := Js.join "=" valueParts in
        match decodeURIComponent host (Js.trim name),
              decodeURIComponent host (Js.trim value) with
        | Some k, Some v => Js.assign k v cookies
        | _, _ => cookies           (* skip malformed cookies *)
        end
      else cookies
  | [] => cookies
  end.

(** [parseCookies] *)
Definition parseCookies (headers : gmap string string) : gmap string string :=
  match headers !! "cookie" with
  | Some cookieHeader =>
      if negb (Js.truthy cookieHeader) then ∅
      else
        let pairs := map Js.trim (Js.split ";" cookieHeader) in
        fold_left parse_pair pairs ∅
  | None => ∅
  end.

(** [clearCookie] *)
Definition clearCookie (headers : list (string * string)) (name : string)
    (dom pth : option string) : list (string * string) :=
  setCookie headers name ""
    {| domain := dom; path := pth; maxAge := Some 0%Z;
       httpOnly := Some true; secure := Some true; sameSite := Some "Lax" |}.

(* =================================================================== *)
(** ** The worker *)
(* =================================================================== *)

Definition ALLOWED_ORIGINS : list string :=
  [ "https://flexifunnels.com";
    "https://www.flexifunnels.com";
    "https://dev-app.flexifunnels.com";
    "https://app.flexifunnels.com";
    "http://flexifunnels.local.com" ].

(** [ALLOWED_ORIGINS.includes(origin)] *)
Definition origin_allowed (origin : string) : bool :=
  existsb (String.eqb origin) ALLOWED_ORIGINS.

(** The CORS headers added for an allowed origin. *)
Definition cors_headers (origin : option string) : list (string * string) :=
  match origin with
  | Some o =>
      if Js.truthy o && origin_allowed o
      then [("Access-Control-Allow-Origin", o);
            ("Access-Control-Allow-Credentials", "true")]
      else []
  | None => []
  end.

(** [errorResponse] *)
Definition errorResponse (code' error' : string) (status' : Z)
    (message' : option string) (origin : option string) : Response :=
  {| resp_status := status';
     resp_headers := ("Content-Type", "application/json") :: cors_headers origin;
     resp_body := ErrorBody {| error := error'; code := code';
                               message := message' |} |}.

(** [request.headers.get('Origin')] *)
Definition header_origin (request : Request) : option string :=
  req_headers request !! "origin".

(** [handleCORS] *)
Definition handleCORS (request : Request) : option Response :=
  match header_origin request with
  | None => None
  | Some origin =>
      if negb (Js.truthy origin) then None
      else if negb (origin_allowed origin)
      then Some (errorResponse "FORBIDDEN" "Invalid origin" 403 None None)
      else if String.eqb (req_method request) "OPTIONS"
      then Some {| resp_status := 204;
                   resp_headers :=
                     [("Access-Control-Allow-Origin", origin);
                      ("Access-Control-Allow-Methods", "POST, GET, OPTIONS");
                      ("Access-Control-Allow-Headers",
                       "Content-Type, X-Requested-With, Authorization");
                      ("Access-Control-Allow-Credentials", "true");
                      ("Access-Control-Max-Age", "86400")];
                   resp_body := NoBody |}
      else None
  end.

(** The last part of [handleVibeAccess]: user lookup, session token and
    cookie. *)
Definition issue_session (env : SSOEnv) (origin : option string)
    (email' : string) : M Response :=
  (* Get user from database *)
  user <- getUserByEmail email' ;;
  match user with
  | None =>
      ret (errorResponse "USER_NOT_ALLOWED" "User not allowed" 403
             (Some "User not found in allowed users list") origin)
  | Some user =>
      if String.eqb (status user) "suspended"
      then ret (errorResponse "USER_SUSPENDED" "User suspended" 403
                  (Some "User account is suspended") origin)
      else
        (* Create Vibe access token *)
        vibeToken <-
          signVibeAccessHS256
            {| in_iss := VIBE_ISS env; in_aud := VIBE_AUD env;
               in_sub := user_id user; in_email := email user;
               in_roles := roles user |}
            (VIBE_ACCESS_SECRET env) 600 ;;
        (* Set cookie *)
        let headers := cors_headers origin in
        let headers :=
          setCookie headers (VIBE_COOKIE_NAME env) vibeToken
            {| domain := Some (VIBE_COOKIE_DOMAIN env);
               maxAge := Some 600%Z; path := Some "/";
               httpOnly := Some true; secure := Some true;
               sameSite := Some "None" |} in
        ret {| resp_status := 204; resp_headers := headers;
               resp_body := NoBody |}
  end.

(** The part of [handleVibeAccess] that follows a verified assertion: the
    email comparison, the replay guard, then [issue_session]. *)
Definition exchange (env : SSOEnv) (origin : option string)
    (email' : string) (payload : FlexiJWTPayload) : M Response :=
  (* Verify email matches JWT claim *)
  if negb (String.eqb (toLowerCase host (Js.show_opt (fj_email payload)))
                      (toLowerCase host email'))
  then ret (errorResponse "EMAIL_MISMATCH" "Email mismatch" 401
              (Some "Email in body does not match JWT email claim") origin)
  else
    (* Replay prevention *)
    isNew <- (if Js.truthy_opt (fj_jti payload)
              then markJtiSeen (Js.show_opt (fj_jti payload))
              else ret true) ;;
    if negb isNew
    then ret (errorResponse "REPLAYED_JTI" "JWT replay detected" 409
                (Some "This JWT has already been used") origin)
    else issue_session env origin email'.

(** [request.headers.get('Origin') || undefined] *)
Definition origin_of (request : Request) : option string :=
  match header_origin request with
  | Some o => if Js.truthy o then Some o else None
  | None => None
  end.

(** [handleVibeAccess] *)
Definition handleVibeAccess (request : Request) (env : SSOEnv) : M Response :=
  let origin := origin_of request in
  try_catch
    ((* Parse request body *)
     match req_body request with
     | BodyNotJson _ =>
         ret (errorResponse "INVALID_BODY" "Invalid JSON body" 400
                (Some "Request body must be valid JSON") origin)
     | BodyJsonNull => throw "TypeError"
     | BodyJsonObject jwt email' =>
         if negb (Js.truthy_opt jwt) || negb (Js.truthy_opt email')
         then ret (errorResponse "INVALID_BODY" "Missing jwt or email" 400
                     (Some "Both jwt and email fields are required") origin)
         else
           (* Verify Flexi JWT *)
           verified <-
             try_catch
               (payload <- verifyFlexiJWT_RS256 (Js.show_opt jwt)
                             (FLEXI_JWKS_URL env) (FLEXI_ISS env)
                             (FLEXI_AUD env) ;;
                ret (inr payload))
               (fun msg =>
                  ret (inl (errorResponse "JWT_INVALID" "Invalid JWT" 401
                              (Some msg) origin))) ;;
           match verified with
           | inl response => ret response
           | inr payload => exchange env origin (Js.show_opt email') payload
           end
     end)
    (fun msg =>
       ret (errorResponse "INTERNAL_ERROR" "Internal server error" 500
              (Some msg) origin)).

(** [cookies[env.VIBE_COOKIE_NAME]], with its truthiness test. *)
Definition session_cookie (request : Request) (env : SSOEnv) : option string :=
  match parseCookies (req_headers request) !! VIBE_COOKIE_NAME env with
  | Some token => if Js.truthy token then Some token else None
  | None => None
  end.

(** [handleMe] *)
Definition handleMe (request : Request) (env : SSOEnv) : M Response :=
  try_catch
    (match session_cookie request env with
     | None =>
         ret (errorResponse "NO_SESSION" "No session found" 401
                (Some "Vibe access cookie not found") None)
     | Some token =>
         payload <- verifyVibeAccessHS256 token (VIBE_ACCESS_SECRET env) ;;
         ret {| resp_status := 200;
                resp_headers := [("Content-Type", "application/json")];
                resp_body := MeBody (va_sub payload) (va_email payload)
                                    (va_roles payload) |}
     end)
    (fun msg =>
       ret (errorResponse "NO_SESSION" "Invalid session" 401 (Some msg) None)).

(** [handleLogout] *)
Definition handleLogout (request : Request) (env : SSOEnv) : Response :=
  {| resp_status := 200;
     resp_headers :=
       clearCookie [] (VIBE_COOKIE_NAME env)
         (Some (VIBE_COOKIE_DOMAIN env)) (Some "/");
     resp_body := SuccessBody "Logged out" |}.

(** [handleHealth] *)
Definition handleHealth : Response :=
  {| resp_status := 200;
     resp_headers := [("Content-Type", "application/json")];
     resp_body := OkBody |}.

(** [handleMigrate]; every statement of [MIGRATION_STATEMENTS] is an
    [IF NOT EXISTS] creation, so the batch leaves existing tables alone.
    The batch is taken to execute, so the handler of the [try] block is
    written out but never entered here. *)
Definition handleMigrate (env : SSOEnv) : M Response :=
  if negb (bool_decide (ALLOW_MIGRATE env = Some "true"))
  then ret (errorResponse "FORBIDDEN" "Migrations disabled" 403
              (Some "Set ALLOW_MIGRATE=true to enable") None)
  else
    try_catch
      (emit EvBatch ;;;
       ret {| resp_status := 200;
              resp_headers := [("Content-Type", "application/json")];
              resp_body := SuccessBody "Migrations applied" |})
      (fun msg =>
         ret (errorResponse "MIGRATION_FAILED" "Migration failed" 500
                (Some msg) None)).

(** The hand-off branch of [handleProtected]. *)
Definition handoff (request : Request) (env : SSOEnv)
    (payload : VibeAccessPayload) : M Response :=
  let handoffUrl := String.append (VIBE_ORIGIN env) "/api/auth/sso-handoff" in
  emit (EvUpstream "POST" handoffUrl) ;;;
  match net_handoff net handoffUrl
          [("X-User-Id", va_sub payload);
           ("X-User-Email", va_email payload);
           ("X-User-Roles", va_roles payload);
           ("Content-Type", "application/json")] with
  | NetworkError msg => throw msg
  | HttpReply st json =>
      if response_ok st then
        handoffData <- or_throw json "SyntaxError" ;;
        match hd_data handoffData with
        | Some data =>
            if negb (hd_success handoffData)
               || negb (Js.truthy (hs_accessToken data))
            then ret (errorResponse "SSO_HANDOFF_FAILED"
                        "Invalid handoff response" 500
                        (Some "Handoff succeeded but returned invalid data")
                        None)
            else
              let completeUrl :=
                String.append (VIBE_ORIGIN env)
                  (String.append "/api/auth/sso-complete?token="
                     (String.append (formUrlEncode host (hs_accessToken data))
                        (String.append "&redirect="
                           (formUrlEncode host (req_pathname request))))) in
              ret {| resp_status := 302;
                     resp_headers := [("Location", completeUrl)];
                     resp_body := NoBody |}
        | None =>
            ret (errorResponse "SSO_HANDOFF_FAILED" "Invalid handoff response"
                   500 (Some "Handoff succeeded but returned invalid data")
                   None)
        end
      else
        ret (errorResponse "SSO_HANDOFF_FAILED" "Authentication handoff failed"
               500 (Some "Failed to create session in main application") None)
  end.

(** The proxy branch of [handleProtected]. *)
Definition proxy (request : Request) (env : SSOEnv)
    (payload : VibeAccessPayload) : M Response :=
  let proxyUrl :=
    String.append (VIBE_ORIGIN env)
      (String.append (req_pathname request) (req_search request)) in
  let proxyHeaders :=
    <["x-user-roles" := va_roles payload]>
      (<["x-user-email" := va_email payload]>
         (<["x-user-id" := va_sub payload]> (req_headers request))) in
  let proxyRequest :=
    {| px_url := proxyUrl; px_method := req_method request;
       px_headers := proxyHeaders; px_body := req_body request |} in
  emit (EvUpstream (req_method request) proxyUrl) ;;;
  match net_proxy net proxyRequest with
  | inl msg => throw msg
  | inr response => ret response
  end.

(** [handleProtected] *)
Definition handleProtected (request : Request) (env : SSOEnv) : M Response :=
  match session_cookie request env with
  | None =>
      ret (errorResponse "NO_SESSION" "Unauthorized" 401
             (Some "No session cookie found") None)
  | Some token =>
      try_catch
        (payload <- verifyVibeAccessHS256 token (VIBE_ACCESS_SECRET env) ;;
         let isInitialAppsRequest :=
           String.eqb (req_pathname request) (PROTECTED_PREFIX env)
           || String.eqb (req_pathname request)
                (String.append (PROTECTED_PREFIX env) "/") in
         if isInitialAppsRequest && String.eqb (req_method request) "GET"
         then handoff request env payload
         else proxy request env payload)
        (fun msg =>
           ret (errorResponse "NO_SESSION" "Unauthorized" 401 (Some msg) None))
  end.

(** [request.headers.get('Content-Type')?.includes('application/json')] *)
Definition content_type_json (request : Request) : bool :=
  match req_headers request !! "content-type" with
  | Some contentType => Js.includes "application/json" contentType
  | None => false
  end.

(** The [fetch] entry point of the worker. *)
Definition fetch (request : Request) (env : SSOEnv) : M Response :=
  let path' := req_pathname request in
  let method := req_method request in
  let routes : M Response :=
    (* Auth routes *)
    if String.eqb path' "/auth/vibe-access" && String.eqb method "POST" then
      if negb (content_type_json request)
      then ret (errorResponse "INVALID_CONTENT_TYPE" "Invalid Content-Type" 400
                  (Some "Content-Type must be application/json") None)
      else handleVibeAccess request env
    else if String.eqb path' "/auth/me" && String.eqb method "GET"
    then handleMe request env
    else if String.eqb path' "/auth/logout" && String.eqb method "POST"
    then ret (handleLogout request env)
    else if String.eqb path' "/auth/health" && String.eqb method "GET"
    then ret handleHealth
    else if String.eqb path' "/migrate" && String.eqb method "GET"
    then handleMigrate env
    else
      (* Protected routes *)
      let protectedPrefix :=
        if Js.truthy (PROTECTED_PREFIX env) then PROTECTED_PREFIX env
        else "/app/" in
      if Js.startsWith protectedPrefix path'
      then handleProtected request env
      else ret {| resp_status := 404; resp_headers := [];
                  resp_body := TextBody "Not Found" |} in
  (* Skip CORS for /migrate and /auth/health endpoints *)
  if negb (String.eqb path' "/migrate") && negb (String.eqb path' "/auth/health")
  then match handleCORS request with
       | Some corsResponse => ret corsResponse
       | None => routes
       end
  else routes.

(** Further traffic: requests served one after the other, each at its own
    reading of the clock. *)
Definition serve (requests : list (Z * Request * SSOEnv)) (w : World) : World :=
  fold_left
    (fun w r => snd (fetch (snd (fst r)) (snd r) (at_time (fst (fst r)) w)))
    requests w.

End Worker.

(* ===================================================================== *)
(** * A reference host

    An executable instance of the host primitives, used to run the worker on
    concrete requests: a JSON reader and writer for flat objects, percent
    coding, ASCII lower-casing, and a 32-bit polynomial checksum standing in
    for the two signature schemes.  Every general theorem below quantifies
    over an arbitrary host; this instance only serves the worked examples. *)
(* ===================================================================== *)

Module Demo.

Definition dq : ascii := "034"%char.
Definition backslash : ascii := "092"%char.

Definition ascii_of_bytes (l : list byte) : list ascii := map ascii_of_byte l.
Definition bytes_of_ascii (l : list ascii) : list byte := map byte_of_ascii l.

Inductive JValue :=
| JString (s : string)
| JNumber (z : Z)
| JLiteral (name : string).

(** The characters of a string literal, after its opening quote. *)
Fixpoint read_string (l : list ascii) : option (list ascii * list ascii) :=
  match l with
  | [] => None
  | c :: l' =>
      if Ascii.eqb c dq then Some ([], l')
      else if Ascii.eqb c backslash then
        match l' with
        | esc :: l'' =>
            match read_string l'' with
            | Some (s, r) => Some (esc :: s, r)
            | None => None
            end
        | [] => None
        end
      else
        match read_string l' with
        | Some (s, r) => Some (c :: s, r)
        | None => None
        end
  end.

Definition digit_of (c : ascii) : option Z :=
  let k := Z.of_N (N_of_ascii c) in
  if ((48 <=? k) && (k <=? 57))%Z then Some (k - 48)%Z else None.

Fixpoint read_digits (acc : Z) (l : list ascii) : Z * list ascii :=
  match l with
  | c :: l' =>
      match digit_of c with
      | Some d => read_digits (acc * 10 + d)%Z l'
      | None => (acc, l)
      end
  | [] => (acc, [])
  end.

Definition read_number (l : list ascii) : option (Z * list ascii) :=
  match l with
  | c :: l' =>
      if Ascii.eqb c "-" then
        match l' with
        | d :: _ =>
            match digit_of d with
            | Some _ => let (z, r) := read_digits 0 l' in Some ((- z)%Z, r)
            | None => None
            end
        | [] => None
        end
      else
        match digit_of c with
        | Some _ => Some (read_digits 0 l)
        | None => None
        end
  | [] => None
  end.

Fixpoint read_word (l : list ascii) : list ascii * list ascii :=
  match l with
  | c :: l' =>
      let k := N_of_ascii c in
      if ((97 <=? k) && (k <=? 122))%N
      then let (w, r) := read_word l' in (c :: w, r)
      else ([], l)
  | [] => ([], [])
  end.

Definition read_value (l : list ascii) : option (JValue * list ascii) :=
  match l with
  | c :: l' =>
      if Ascii.eqb c dq then
        match read_string l' with
        | Some (s, r) => Some (JString (string_of_list_ascii s), r)
        | None => None
        end
      else
        match read_number l with
        | Some (z, r) => Some (JNumber z, r)
        | None =>
            let (w, r) := read_word l in
            let name := string_of_list_ascii w in
            if String.eqb name "true" || String.eqb name "false"
               || String.eqb name "null"
            then Some (JLiteral name, r) else None
        end
  | [] => None
  end.

(** The members of an object, after its opening brace or a comma. *)
Fixpoint read_members (fuel : nat) (l : list ascii)
  : option (list (string * JValue)) :=
  match fuel with
  | O => None
  | S fuel' =>
      match Js.drop_space l with
      | c :: l1 =>
          if Ascii.eqb c dq then
            match read_string l1 with
            | Some (k, l2) =>
                match Js.drop_space l2 with
                | colon :: l3 =>
                    if Ascii.eqb colon ":" then
                      match read_value (Js.drop_space l3) with
                      | Some (v, l4) =>
                          match Js.drop_space l4 with
                          | sep :: l5 =>
                              if Ascii.eqb sep "}" then
                                match Js.drop_space l5 with
                                | [] => Some [(string_of_list_ascii k, v)]
                                | _ => None
                                end
                              else if Ascii.eqb sep "," then
                                match read_members fuel' l5 with
                                | Some ms => Some ((string_of_list_ascii k, v) :: ms)
                                | None => None
                                end
                              else None
                          | [] => None
                          end
                      | None => None
                      end
                    else None
                | [] => None
                end
            | None => None
            end
          else None
      | [] => None
      end
  end.

(** [JSON.parse] of the text of a flat object. *)
Definition read_object (text : list ascii) : option (list (string * JValue)) :=
  match Js.drop_space text with
  | c :: l =>
      if Ascii.eqb c "{" then
        match Js.drop_space l with
        | d :: l' =>
            if Ascii.eqb d "}" then
              match Js.drop_space l' with [] => Some [] | _ => None end
            else read_members (length l) l
        | [] => None
        end
      else None
  | [] => None
  end.

(** A property of the parsed object; a repeated name keeps its last value. *)
Definition property (name : string) (ms : list (string * JValue)) : option JValue :=
  option_map snd (List.find (fun m => String.eqb (fst m) name) (rev ms)).

Definition string_property (name : string) (ms : list (string * JValue))
  : option string :=
  match property name ms with Some (JString s) => Some s | _ => None end.

Definition number_property (name : string) (ms : list (string * JValue))
  : option Z :=
  match property name ms with Some (JNumber z) => Some z | _ => None end.

Definition parse_header (bytes : list byte) : option JoseHeader :=
  match read_object (ascii_of_bytes bytes) with
  | Some ms => Some {| h_alg := string_property "alg" ms;
                       h_kid := string_property "kid" ms |}
  | None => None
  end.

Definition parse_flexi (bytes : list byte) : option FlexiJWTPayload :=
  match read_object (ascii_of_bytes bytes) with
  | Some ms =>
      Some {| fj_iss := string_property "iss" ms;
              fj_aud := string_property "aud" ms;
              fj_sub := string_property "sub" ms;
              fj_email := string_property "email" ms;
              fj_exp := number_property "exp" ms;
              fj_nbf := number_property "nbf" ms;
              fj_iat := number_property "iat" ms;
              fj_jti := string_property "jti" ms |}
  | None => None
  end.

Definition parse_vibe (bytes : list byte) : option VibeAccessPayload :=
  match read_object (ascii_of_bytes bytes) with
  | Some ms =>
      match string_property "iss" ms, string_property "aud" ms,
            string_property "sub" ms, string_property "email" ms,
            string_property "roles" ms, number_property "iat" ms with
      | Some i, Some a, Some s, Some m, Some r, Some t =>
          Some {| va_iss := i; va_aud := a; va_sub := s; va_email := m;
                  va_roles := r; va_exp := number_property "exp" ms;
                  va_iat := t |}
      | _, _, _, _, _, _ => None
      end
  | None => None
  end.

(** A string literal, with the quote and the backslash escaped. *)
Fixpoint escape (l : list ascii) : list ascii :=
  match l with
  | [] => []
  | c :: l' =>
      if Ascii.eqb c dq || Ascii.eqb c backslash
      then backslash :: c :: escape l'
      else c :: escape l'
  end.

Definition quote (s : string) : string :=
  String dq (String.append
               (string_of_list_ascii (escape (list_ascii_of_string s)))
               (String dq EmptyString)).

Definition member_string (name value : string) : string :=
  String.append (quote name) (String ":" (quote value)).

Definition member_number (name : string) (value : Z) : string :=
  String.append (quote name) (String ":" (pretty value)).

Definition object (members : list string) : string :=
  String.append "{" (String.append (Js.join "," members) "}").

Definition stringify_header (alg' typ : string) : string :=
  object [member_string "alg" alg'; member_string "typ" typ].

Definition stringify_vibe (p : VibeAccessPayload) : string :=
  object ([ member_string "iss" (va_iss p); member_string "aud" (va_aud p);
            member_string "sub" (va_sub p); member_string "email" (va_email p);
            member_string "roles" (va_roles p);
            member_number "iat" (va_iat p) ]
          ++ match va_exp p with
             | Some x => [member_number "exp" x]
             | None => []
             end).

(** The checksum standing in for HMAC-SHA-256 and for RSASSA-PKCS1-v1_5. *)
Definition checksum (key msg : list byte) : list byte :=
  let step (acc : N) (b : byte) : N :=
    ((acc * 257 + Byte.to_N b + 1) mod 4294967296)%N in
  let h := fold_left step (key ++ x00 :: msg) 0%N in
  [ Base64.byte_of_N ((h / 16777216) mod 256);
    Base64.byte_of_N ((h / 65536) mod 256);
    Base64.byte_of_N ((h / 256) mod 256);
    Base64.byte_of_N (h mod 256) ]%N.

Definition lower_char (c : ascii) : ascii :=
  let k := N_of_ascii c in
  if ((65 <=? k) && (k <=? 90))%N then ascii_of_N (k + 32) else c.

Definition lower (s : string) : string :=
  string_of_list_ascii (map lower_char (list_ascii_of_string s)).

Definition unreserved (c : ascii) : bool :=
  let k := N_of_ascii c in
  ((48 <=? k) && (k <=? 57) || (65 <=? k) && (k <=? 90)
   || (97 <=? k) && (k <=? 122))%N
  || existsb (Ascii.eqb c) (list_ascii_of_string "-_.!~*'()").

Definition hex_digit (k : N) : ascii :=
  if (k <? 10)%N then ascii_of_N (48 + k) else ascii_of_N (55 + k).

Definition hex_value (c : ascii) : option N :=
  let k := N_of_ascii c in
  if ((48 <=? k) && (k <=? 57))%N then Some (k - 48)%N
  else if ((65 <=? k) && (k <=? 70))%N then Some (k - 55)%N
  else if ((97 <=? k) && (k <=? 102))%N then Some (k - 87)%N
  else None.

Fixpoint percent_encode (l : list ascii) : list ascii :=
  match l with
  | [] => []
  | c :: l' =>
      if unreserved c then c :: percent_encode l'
      else "%"%char :: hex_digit (N_of_ascii c / 16)
             :: hex_digit (N_of_ascii c mod 16) :: percent_encode l'
  end.

Fixpoint percent_decode (l : list ascii) : option (list ascii) :=
  match l with
  | [] => Some []
  | c :: l' =>
      if Ascii.eqb c "%" then
        match l' with
        | h :: lo :: l'' =>
            match hex_value h, hex_value lo, percent_decode l'' with
            | Some a, Some b, Some r => Some (ascii_of_N (a * 16 + b) :: r)
            | _, _, _ => None
            end
        | _ => None
        end
      else option_map (cons c) (percent_decode l')
  end.

Definition host : Host :=
  {| JSON_parse_header := parse_header;
     JSON_parse_flexi := parse_flexi;
     JSON_parse_vibe := parse_vibe;
     JSON_stringify_header := stringify_header;
     JSON_stringify_vibe := stringify_vibe;
     rsa_importKey := fun k => String.eqb (kd_kty k) "RSA";
     rsa_verify := fun k sig msg =>
       bool_decide (sig = checksum (Js.TextEncoder_encode (kd_n k)) msg);
     hmac_importKey := fun raw => negb (Nat.eqb (length raw) 0);
     hmac_sha256 := checksum;
     toLowerCase := lower;
     encodeURIComponent := fun s =>
       string_of_list_ascii (percent_encode (list_ascii_of_string s));
     decodeURIComponent := fun s =>
       option_map string_of_list_ascii
         (percent_decode (list_ascii_of_string s));
     formUrlEncode := fun s =>
       string_of_list_ascii (percent_encode (list_ascii_of_string s)) |}.

(** What the external authority issues: a compact assertion over the
    given header and claims, signed for the key with modulus [modulus]. *)
Definition optional_string (name : string) (v : option string) : list string :=
  match v with Some s => [member_string name s] | None => [] end.

Definition optional_number (name : string) (v : option Z) : list string :=
  match v with Some z => [member_number name z] | None => [] end.

Definition stringify_jose (h : JoseHeader) : string :=
  object (optional_string "alg" (h_alg h) ++ optional_string "kid" (h_kid h)).

Definition stringify_flexi (p : FlexiJWTPayload) : string :=
  object (optional_string "iss" (fj_iss p) ++ optional_string "aud" (fj_aud p)
          ++ optional_string "sub" (fj_sub p)
          ++ optional_string "email" (fj_email p)
          ++ optional_number "exp" (fj_exp p)
          ++ optional_number "nbf" (fj_nbf p)
          ++ optional_number "iat" (fj_iat p)
          ++ optional_string "jti" (fj_jti p)).

Definition issue (h : JoseHeader) (p : FlexiJWTPayload) (modulus : string)
  : string :=
  let message :=
    String.append
      (Base64.base64UrlEncode (Js.TextEncoder_encode (stringify_jose h)))
      (String "."
         (Base64.base64UrlEncode (Js.TextEncoder_encode (stringify_flexi p)))) in
  String.append message
    (String "."
       (Base64.base64UrlEncode
          (checksum (Js.TextEncoder_encode modulus)
                    (Js.TextEncoder_encode message)))).

Definition key1 : JWK :=
  {| jwk_kty := "RSA"; jwk_use := Some "sig"; jwk_kid := Some "k1";
     jwk_alg := Some "RS256"; jwk_n := "modulus-one"; jwk_e := "AQAB" |}.

Definition key2 : JWK :=
  {| jwk_kty := "RSA"; jwk_use := Some "sig"; jwk_kid := Some "k2";
     jwk_alg := None; jwk_n := "modulus-two"; jwk_e := "AQAB" |}.

Definition net : Network :=
  {| net_jwks := fun url =>
       if String.eqb url "https://flexi.example/jwks"
       then HttpReply 200 (Some {| keys := [key1; key2] |})
       else NetworkError "fetch failed";
     net_handoff := fun _ _ =>
       HttpReply 200
         (Some {| hd_success := true;
                  hd_data := Some {| hs_accessToken := "upstream-token" |} |});
     net_proxy := fun _ =>
       inr {| resp_status := 200; resp_headers := [];
              resp_body := UpstreamBody "upstream" |} |}.

(** The same network with the upstream application unreachable. *)
Definition net_upstream_down : Network :=
  {| net_jwks := net_jwks net;
     net_handoff := fun _ _ => NetworkError "upstream unreachable";
     net_proxy := fun _ => inl "upstream unreachable" |}.

Definition env : SSOEnv :=
  {| FLEXI_JWKS_URL := "https://flexi.example/jwks";
     FLEXI_ISS := "flexi";
     FLEXI_AUD := "vibe-handoff";
     VIBE_ISS := "vibe-edge";
     VIBE_AUD := "vibe-app";
     VIBE_ACCESS_SECRET := "s3cret";
     VIBE_COOKIE_NAME := "vibe_access";
     VIBE_COOKIE_DOMAIN := ".vibe.example";
     PROTECTED_PREFIX := "/app/";
     VIBE_ORIGIN := "https://vibe.example";
     ALLOW_MIGRATE := None |}.

Definition users : gmap string UserColumns :=
  <["a@b.com" := {| col_user_id := "u1"; col_status := "active";
                    col_roles := "viewer"; col_updated_at := 0 |}]>
    (<["s@b.com" := {| col_user_id := "u2"; col_status := "suspended";
                       col_roles := "viewer"; col_updated_at := 0 |}]> ∅).

Definition identity : VibeAccessInput :=
  {| in_iss := "vibe-edge"; in_aud := "vibe-app"; in_sub := "u1";
     in_email := "a@b.com"; in_roles := "viewer" |}.

(** A world at 2023-11-14T22:13:20Z with an empty replay table. *)
Definition world0 : World :=
  {| now := 1700000000000;
     jwksCache := None;
     VIBE_DB := {| sso_users := users; jwt_seen := ∅;
                   conflict_throws := false |};
     trace := [] |}.

Definition claims (mail : string) (exp' : option Z) (jti' : option string)
  : FlexiJWTPayload :=
  {| fj_iss := Some "flexi"; fj_aud := Some "vibe-handoff";
     fj_sub := Some "u1"; fj_email := Some mail; fj_exp := exp';
     fj_nbf := None; fj_iat := None; fj_jti := jti' |}.

Definition rs256 (kid' : option string) : JoseHeader :=
  {| h_alg := Some "RS256"; h_kid := kid' |}.

(** The assertion of the design document's scenario: issued for
    [a@b.com], expiring at second 1700000600, with nonce [n1], signed with
    the first key of the set. *)
Definition assertion_n1 : string :=
  issue (rs256 (Some "k1"))
        (claims "a@b.com" (Some 1700000600%Z) (Some "n1")) "modulus-one".

(** The same assertion under the key-id [k9], which no key of the set
    carries; its signature is the one the first key would accept. *)
Definition assertion_k9 : string :=
  issue (rs256 (Some "k9"))
        (claims "a@b.com" (Some 1700000600%Z) (Some "n1")) "modulus-one".

(** The same assertion again, its header naming the empty key-id. *)
Definition assertion_empty_kid : string :=
  issue (rs256 (Some ""))
        (claims "a@b.com" (Some 1700000600%Z) (Some "n1")) "modulus-one".

(** Two assertions without a nonce: one expiring at this very second, one
    with the expiry 0 (1970-01-01). *)
Definition assertion_expiring_now : string :=
  issue (rs256 (Some "k1")) (claims "a@b.com" (Some 1700000000%Z) None)
        "modulus-one".

Definition assertion_exp_zero : string :=
  issue (rs256 (Some "k1")) (claims "a@b.com" (Some 0%Z) None) "modulus-one".

(** An assertion that expired one second ago and whose signature no key
    of the set accepts. *)
Definition assertion_expired_forged : string :=
  issue (rs256 (Some "k1")) (claims "a@b.com" (Some 1699999999%Z) None)
        "not-a-key-of-the-set".

(** The scenario's assertion with the empty string as its nonce. *)
Definition assertion_empty_jti : string :=
  issue (rs256 (Some "k1"))
        (claims "a@b.com" (Some 1700000600%Z) (Some "")) "modulus-one".

(** [POST /auth/vibe-access] with a JSON body and no [Origin] header. *)
Definition post_exchange (jwt mail : string) : Request :=
  {| req_method := "POST";
     req_pathname := "/auth/vibe-access";
     req_search := "";
     req_headers := <["content-type" := "application/json"]> ∅;
     req_body := BodyJsonObject (Some jwt) (Some mail) |}.

(** A request to a protected path carrying [cookie] as its Cookie header. *)
Definition get_protected (pathname : string) (cookie : option string) : Request :=
  {| req_method := "GET";
     req_pathname := pathname;
     req_search := "";
     req_headers :=
       match cookie with Some c => <["cookie" := c]> ∅ | None => ∅ end;
     req_body := BodyNotJson "" |}.

End Demo.

(* ===================================================================== *)
(** * Vocabulary of the properties *)
(* ===================================================================== *)

(** The bytes the issuer encodes, its signing input and the compact token
    it assembles for a full payload. *)
Definition header_bytes (host : Host) : list byte :=
  Js.TextEncoder_encode (JSON_stringify_header host "HS256" "JWT").

Definition payload_bytes (host : Host) (p : VibeAccessPayload) : list byte :=
  Js.TextEncoder_encode (JSON_stringify_vibe host p).

Definition signing_input (host : Host) (p : VibeAccessPayload) : string :=
  String.append (Base64.base64UrlEncode (header_bytes host))
                (String "." (Base64.base64UrlEncode (payload_bytes host p))).

Definition compact (host : Host) (p : VibeAccessPayload) (secret : string)
  : string :=
  String.append (signing_input host p)
    (String "."
       (Base64.base64UrlEncode
          (hmac_sha256 host (Js.TextEncoder_encode secret)
                       (Js.TextEncoder_encode (signing_input host p))))).

(** The response that carries the session cookie. *)
Definition session_response (host : Host) (env : SSOEnv)
    (origin : option string) (vibeToken : string) : Response :=
  {| resp_status := 204;
     resp_headers :=
       setCookie host (cors_headers origin) (VIBE_COOKIE_NAME env) vibeToken
         {| domain := Some (VIBE_COOKIE_DOMAIN env);
            maxAge := Some 600%Z; path := Some "/";
            httpOnly := Some true; secure := Some true;
            sameSite := Some "None" |};
     resp_body := NoBody |}.

(** The identity the session token is issued for: taken from the user row. *)
Definition identity_of (env : SSOEnv) (user : UserRow) : VibeAccessInput :=
  {| in_iss := VIBE_ISS env; in_aud := VIBE_AUD env;
     in_sub := user_id user; in_email := email user;
     in_roles := roles user |}.

(** The email comparison of [exchange]. *)
Definition emails_match (host : Host) (payload : FlexiJWTPayload)
    (mail : string) : bool :=
  String.eqb (toLowerCase host (Js.show_opt (fj_email payload)))
             (toLowerCase host mail).



(** The same request submitted [n] more times, one after the other. *)
Definition resubmit (host : Host) (net : Network) (request : Request)
    (env : SSOEnv) (n : nat) (w : World) : World :=
  Nat.iter n (fun w => snd (handleVibeAccess host net request env w)) w.

(** The failures the interface table lists for [POST /auth/vibe-access]. *)
Definition documented_failures : list (Z * string) :=
  [ (400, "INVALID_BODY"); (401, "JWT_INVALID"); (401, "EMAIL_MISMATCH");
    (403, "USER_NOT_ALLOWED"); (403, "USER_SUSPENDED");
    (409, "REPLAYED_JTI"); (500, "INTERNAL_ERROR") ]%Z.

(** The status and machine-readable code of an error response. *)
Definition failure_of (r : Response) : option (Z * string) :=
  match resp_body r with
  | ErrorBody err => Some (resp_status r, code err)
  | _ => None
  end.

(** A response of the handler: the success, or a documented failure. *)
Definition documented (r : Response) : Prop :=
  (resp_status r = 204%Z /\ resp_body r = NoBody)
  \/ exists f, failure_of r = Some f /\ In f documented_failures.

(** The five checks of the Claims Validator, in the order of the design
    document. *)
Inductive ClaimCheck :=
| CheckIssuer | CheckAudience | CheckExpiry | CheckNotBefore | CheckEmail.

Definition claim_checks : list ClaimCheck :=
  [CheckIssuer; CheckAudience; CheckExpiry; CheckNotBefore; CheckEmail].

(** What each check demands at second [t]: the issuer and the audience are
    the expected ones, the expiry (when present) is not in the past, the
    not-before (when present) is not in the future, and the email is present
    and non-empty. *)
Definition check_passes (c : ClaimCheck) (p : FlexiJWTPayload)
    (iss aud : string) (t : Z) : bool :=
  match c with
  | CheckIssuer => bool_decide (fj_iss p = Some iss)
  | CheckAudience => bool_decide (fj_aud p = Some aud)
  | CheckExpiry =>
      match fj_exp p with Some e => (t <=? e)%Z | None => true end
  | CheckNotBefore =>
      match fj_nbf p with Some n => (n <=? t)%Z | None => true end
  | CheckEmail =>
      match fj_email p with Some m => Js.truthy m | None => false end
  end.

(** The error of a failing check; it names the claim. *)
Definition check_error (c : ClaimCheck) (p : FlexiJWTPayload) : string :=
  match c with
  | CheckIssuer => String.append "Invalid issuer: " (Js.show_opt (fj_iss p))
  | CheckAudience => String.append "Invalid audience: " (Js.show_opt (fj_aud p))
  | CheckExpiry => "Token expired"
  | CheckNotBefore => "Token not yet valid"
  | CheckEmail => "Missing email claim"
  end.

(** The validator of the design document: the first failing check aborts. *)
Definition validate_claims (p : FlexiJWTPayload) (iss aud : string) (t : Z)
  : Outcome unit :=
  match List.find (fun c => negb (check_passes c p iss aud t)) claim_checks with
  | Some c => Throw (check_error c p)
  | None => Ok tt
  end.

(** A frame relates the world before a computation to the world after. *)
Definition Frame : Type := World -> World -> Prop.

Definition preserves {A} (I : Frame) (m : M A) : Prop :=
  forall w o w', m w = (o, w') -> I w w'.

Class FrameOk (I : Frame) : Prop := {
  frame_refl : forall w, I w w;
  frame_trans : forall a b c, I a b -> I b c -> I a c
}.

(** Nothing changes at all. *)
Definition unchanged : Frame := fun w w' => w' = w.

(** The clock and the database are left alone (the key-set cache and the
    trace may change). *)
Definition same_store : Frame :=
  fun w w' => now w' = now w /\ VIBE_DB w' = VIBE_DB w.

(** The clock and the user table are left alone and the replay table only
    grows: every recorded nonce stays recorded, with its time stamp. *)
Definition seen_grows : Frame :=
  fun w w' =>
    now w' = now w
    /\ sso_users (VIBE_DB w') = sso_users (VIBE_DB w)
    /\ conflict_throws (VIBE_DB w') = conflict_throws (VIBE_DB w)
    /\ jwt_seen (VIBE_DB w) ⊆ jwt_seen (VIBE_DB w').

(** The replay table is not touched at all: the database is left alone and
    no insert into [jwt_seen] is among the calls made. *)
Definition is_insert (ev : Event) : bool :=
  match ev with EvInsertJti _ => true | _ => false end.

Definition no_insert : Frame :=
  fun w w' =>
    VIBE_DB w' = VIBE_DB w
    /\ exists calls, trace w' = trace w ++ calls
                     /\ forallb (fun ev => negb (is_insert ev)) calls = true.

(** ** Vocabulary of the further properties *)

(** A character of the URL-safe alphabet: a letter, a digit, [-] or [_]. *)
Definition url_safe (c : ascii) : bool :=
  let k := N_of_ascii c in
  ((48 <=? k) && (k <=? 57) || (65 <=? k) && (k <=? 90)
   || (97 <=? k) && (k <=? 122))%N
  || Ascii.eqb c "-" || Ascii.eqb c "_".

(** ** Cookies on the wire *)

(** The [name=value] pair [setCookie] writes first; it is what a client
    sends back. *)
Definition cookie_pair (host : Host) (name value : string) : string :=
  String.append (encodeURIComponent host name)
    (String.append "=" (encodeURIComponent host value)).

(** The Cookie header of a client that holds the given cookies. *)
Definition cookie_header (host : Host) (cookies : list (string * string))
  : string :=
  Js.join "; " (map (fun c => cookie_pair host (fst c) (snd c)) cookies).

(** A string without [;], [=] and white space. *)
Definition plain_char (c : ascii) : bool :=
  negb (Ascii.eqb c ";") && negb (Ascii.eqb c "=") && negb (Js.is_space c).

Definition plain (s : string) : bool :=
  forallb plain_char (list_ascii_of_string s).

(** The URI coders of the host do their work on [s]: the encoding is plain
    and decodes to [s]. *)
Definition coded (host : Host) (s : string) : bool :=
  plain (encodeURIComponent host s)
  && bool_decide (decodeURIComponent host (encodeURIComponent host s) = Some s).

Definition well_encoded (host : Host) (cookies : list (string * string))
  : bool :=
  forallb (fun c => Js.truthy (encodeURIComponent host (fst c))
                    && coded host (fst c) && coded host (snd c)) cookies.

(** The object [parseCookies] builds: the cookies assigned in order. *)
Definition jar (cookies : list (string * string)) : gmap string string :=
  fold_left (fun m c => Js.assign (fst c) (snd c) m) cookies ∅.

(** A string of ASCII characters. *)
Definition ascii_only (s : string) : bool :=
  forallb (fun c => (N_of_ascii c <? 128)%N) (list_ascii_of_string s).

(** The attributes [handleVibeAccess] gives the session cookie. *)
Definition session_cookie_attributes (env : SSOEnv) : string :=
  String.append
    (if Js.truthy (VIBE_COOKIE_DOMAIN env)
     then String.append "; Domain=" (VIBE_COOKIE_DOMAIN env) else "")
    "; Max-Age=600; Path=/; HttpOnly; Secure; SameSite=None".

(** The body of [GET /auth/me] for a verified payload. *)
Definition me_response (p : VibeAccessPayload) : Response :=
  {| resp_status := 200;
     resp_headers := [("Content-Type", "application/json")];
     resp_body := MeBody (va_sub p) (va_email p) (va_roles p) |}.

(** The world after a key set was fetched from [url] and cached. *)
Definition refreshed (url : string) (jwks : JWKS) (w : World) : World :=
  {| now := now w;
     jwksCache := Some (jwks, (now w + 10 * 60 * 1000)%Z);
     VIBE_DB := VIBE_DB w;
     trace := trace w ++ [EvFetchJWKS url] |}.

(** The answer of [handleCORS] to a preflight from an allowed origin. *)
Definition preflight_response (origin : string) : Response :=
  {| resp_status := 204;
     resp_headers :=
       [("Access-Control-Allow-Origin", origin);
        ("Access-Control-Allow-Methods", "POST, GET, OPTIONS");
        ("Access-Control-Allow-Headers",
         "Content-Type, X-Requested-With, Authorization");
        ("Access-Control-Allow-Credentials", "true");
        ("Access-Control-Max-Age", "86400")];
     resp_body := NoBody |}.

(** The fixed routes of [fetch], each with its method. *)
Definition fixed_routes : list (string * string) :=
  [ ("/auth/vibe-access", "POST"); ("/auth/me", "GET");
    ("/auth/logout", "POST"); ("/auth/health", "GET"); ("/migrate", "GET") ].

(** The prefix [fetch] routes to the gateway. *)
Definition protected_prefix (env : SSOEnv) : string :=
  if Js.truthy (PROTECTED_PREFIX env) then PROTECTED_PREFIX env else "/app/".

(** The test of [handleProtected] for the request that is handed off. *)
Definition hands_off (request : Request) (env : SSOEnv) : bool :=
  (String.eqb (req_pathname request) (PROTECTED_PREFIX env)
   || String.eqb (req_pathname request)
        (String.append (PROTECTED_PREFIX env) "/"))
  && String.eqb (req_method request) "GET".

(** The request [handleProtected] sends upstream for a verified payload. *)
Definition proxied_request (request : Request) (env : SSOEnv)
    (payload : VibeAccessPayload) : ProxyRequest :=
  {| px_url := String.append (VIBE_ORIGIN env)
                 (String.append (req_pathname request) (req_search request));
     px_method := req_method request;
     px_headers :=
       <["x-user-roles" := va_roles payload]>
         (<["x-user-email" := va_email payload]>
            (<["x-user-id" := va_sub payload]> (req_headers request)));
     px_body := req_body request |}.

(** The hand-off call of [handleProtected] and the access token a usable
    answer carries. *)
Definition handoff_url (env : SSOEnv) : string :=
  String.append (VIBE_ORIGIN env) "/api/auth/sso-handoff".

Definition handoff_reply (net : Network) (env : SSOEnv)
    (payload : VibeAccessPayload) : Reply HandoffData :=
  net_handoff net (handoff_url env)
    [("X-User-Id", va_sub payload); ("X-User-Email", va_email payload);
     ("X-User-Roles", va_roles payload); ("Content-Type", "application/json")].

Definition handoff_token (net : Network) (env : SSOEnv)
    (payload : VibeAccessPayload) : option string :=
  match handoff_reply net env payload with
  | HttpReply st (Some data) =>
      match hd_data data with
      | Some session =>
          if response_ok st && hd_success data
             && Js.truthy (hs_accessToken session)
          then Some (hs_accessToken session) else None
      | None => None
      end
  | _ => None
  end.

(** The redirect that completes a hand-off. *)
Definition complete_response (host : Host) (request : Request) (env : SSOEnv)
    (accessToken : string) : Response :=
  {| resp_status := 302;
     resp_headers :=
       [("Location",
         String.append (VIBE_ORIGIN env)
           (String.append "/api/auth/sso-complete?token="
              (String.append (formUrlEncode host accessToken)
                 (String.append "&redirect="
                    (formUrlEncode host (req_pathname request))))))];
     resp_body := NoBody |}.

(** A computation that always returns. *)
Definition answers {A} (m : M A) : Prop :=
  forall w, exists a w', m w = (Ok a, w').

(** An answer of the exchange endpoint: an error body or the session
    response, either with the CORS headers of the request's origin. *)
Definition exchange_answer (host : Host) (env : SSOEnv)
    (origin : option string) (r : Response) : Prop :=
  (exists code' error' status' message',
     r = errorResponse code' error' status' message' origin)
  \/ (exists vibeToken, r = session_response host env origin vibeToken).

(** The attributes [handleLogout] gives the cleared cookie. *)
Definition cleared_cookie_attributes (env : SSOEnv) : string :=
  String.append
    (if Js.truthy (VIBE_COOKIE_DOMAIN env)
     then String.append "; Domain=" (VIBE_COOKIE_DOMAIN env) else "")
    "; Max-Age=0; Path=/; HttpOnly; Secure; SameSite=Lax".

(** Further fixtures of the reference host, for the worked examples. *)
Module Scenario.

(** The same network with the key-set endpoint out of service. *)
Definition net_jwks_down : Network :=
  {| net_jwks := fun _ => HttpReply 503 None;
     net_handoff := net_handoff Demo.net;
     net_proxy := net_proxy Demo.net |}.

(** The same bindings with no protected prefix configured. *)
Definition env_no_prefix : SSOEnv :=
  {| FLEXI_JWKS_URL := FLEXI_JWKS_URL Demo.env;
     FLEXI_ISS := FLEXI_ISS Demo.env;
     FLEXI_AUD := FLEXI_AUD Demo.env;
     VIBE_ISS := VIBE_ISS Demo.env;
     VIBE_AUD := VIBE_AUD Demo.env;
     VIBE_ACCESS_SECRET := VIBE_ACCESS_SECRET Demo.env;
     VIBE_COOKIE_NAME := VIBE_COOKIE_NAME Demo.env;
     VIBE_COOKIE_DOMAIN := VIBE_COOKIE_DOMAIN Demo.env;
     PROTECTED_PREFIX := "";
     VIBE_ORIGIN := VIBE_ORIGIN Demo.env;
     ALLOW_MIGRATE := None |}.

(** A request with the given method, path and headers, and no body. *)
Definition request (method pathname : string)
    (headers : list (string * string)) : Request :=
  {| req_method := method;
     req_pathname := pathname;
     req_search := "";
     req_headers := list_to_map headers;
     req_body := BodyNotJson "" |}.

(** The session token of the scenario and the Cookie header carrying it. *)
Definition session_token : string :=
  compact Demo.host (full_payload Demo.identity 1700000000 600) "s3cret".

Definition session_header : string * string :=
  ("cookie", cookie_header Demo.host [("vibe_access", session_token)]).



End Scenario.

(* ===================================================================== *)
(** * Facts about the helpers *)
(* ===================================================================== *)

(** ** Round trip of the base64url helpers *)

Section Base64Facts.
Import Base64.

Local Ltac Zify.zify_post_hook ::= Z.to_euclidean_division_equations.


Lemma sextet_ok_all (n : N) : (n < 64)%N -> sextet_ok n = true.
Proof.
  intros Hn.
  assert (H : forallb sextet_ok (map N.of_nat (seq 0 64)) = true)
    by (vm_compute; reflexivity).
  rewrite forallb_forall in H. apply H.
  apply in_map_iff. exists (N.to_nat n). split; [lia|].
  apply in_seq. lia.
Qed.

Lemma byte_of_to_N (b : byte) : byte_of_N (Byte.to_N b) = b.
Proof. unfold byte_of_N. now rewrite Byte.of_to_N. Qed.

Lemma byte_lt (b : byte) : (Byte.to_N b < 256)%N.
Proof. pose proof (Byte.to_N_bounded b). lia. Qed.

(** Sextet arithmetic of a full group and of the two short groups. *)
Lemma group3 (x y z : N) :
  (x < 256 -> y < 256 -> z < 256 ->
   let s1 := x / 4 in
   let s2 := (x mod 4) * 16 + y / 16 in
   let s3 := (y mod 16) * 4 + z / 64 in
   let s4 := z mod 64 in
   (s1 < 64 /\ s2 < 64 /\ s3 < 64 /\ s4 < 64) /\
   (s1 * 4 + s2 / 16) mod 256 = x /\
   ((s2 mod 16) * 16 + s3 / 4) mod 256 = y /\
   ((s3 mod 4) * 64 + s4) mod 256 = z)%N.
Proof. intros Hx Hy Hz; cbv zeta. repeat split; lia. Qed.

Lemma group2 (x y : N) :
  (x < 256 -> y < 256 ->
   let s1 := x / 4 in
   let s2 := (x mod 4) * 16 + y / 16 in
   let s3 := (y mod 16) * 4 in
   (s1 < 64 /\ s2 < 64 /\ s3 < 64) /\
   (s1 * 4 + s2 / 16) mod 256 = x /\
   ((s2 mod 16) * 16 + s3 / 4) mod 256 = y)%N.
Proof. intros Hx Hy; cbv zeta. repeat split; lia. Qed.

Lemma group1 (x : N) :
  (x < 256 ->
   let s1 := x / 4 in
   let s2 := (x mod 4) * 16 in
   (s1 < 64 /\ s2 < 64) /\ (s1 * 4 + s2 / 16) mod 256 = x)%N.
Proof. intros Hx; cbv zeta. repeat split; lia. Qed.


Lemma list_ind3 {A} (P : list A -> Prop) :
  P [] -> (forall a, P [a]) -> (forall a b, P [a; b]) ->
  (forall a b c rest, P rest -> P (a :: b :: c :: rest)) ->
  forall l, P l.
Proof.
  intros H0 H1 H2 H3.
  assert (H : forall l, P l /\ (forall a, P (a :: l)) /\
                       (forall a b, P (a :: b :: l))).
  { induction l as [|x l (IH0 & IH1 & IH2)].
    - repeat split; auto.
    - repeat split; auto. }
  intros l. apply H.
Qed.

Lemma clean_facts (c : ascii) :
  clean c ->
  (exists n, (n < 64)%N /\ c = char_of n /\ index_of c = Some n) /\
  unurl_char (url_char c) = c /\
  Ascii.eqb (url_char c) pad = false /\
  Ascii.eqb c pad = false /\
  Ascii.eqb (url_char c) "." = false /\
  Js.is_ascii_whitespace c = false.
Proof.
  intros (n & Hn & ->).
  pose proof (sextet_ok_all n Hn) as H. unfold sextet_ok in H.
  cbv zeta in H.
  repeat (apply andb_prop in H; destruct H as [H ?]).
  repeat match goal with
         | X : negb _ = true |- _ => apply negb_true_iff in X
         end.
  destruct (index_of (char_of n)) as [m|] eqn:E; [|discriminate].
  apply N.eqb_eq in H; subst m.
  apply Ascii.eqb_eq in H4.
  repeat split; auto. exists n; auto.
Qed.

Lemma enc3_clean a b c : Forall clean (enc3 a b c).
Proof.
  destruct (group3 _ _ _ (byte_lt a) (byte_lt b) (byte_lt c))
    as ((? & ? & ? & ?) & _).
  unfold enc3. repeat (constructor; [eexists; split; [|reflexivity]; assumption|]).
  constructor.
Qed.

Lemma enc2_clean a b : Forall clean (enc2 a b).
Proof.
  destruct (group2 _ _ (byte_lt a) (byte_lt b)) as ((? & ? & ?) & _).
  unfold enc2. repeat (constructor; [eexists; split; [|reflexivity]; assumption|]).
  constructor.
Qed.

Lemma enc1_clean a : Forall clean (enc1 a).
Proof.
  destruct (group1 _ (byte_lt a)) as ((? & ?) & _).
  unfold enc1. repeat (constructor; [eexists; split; [|reflexivity]; assumption|]).
  constructor.
Qed.

Lemma raw_cons3 a b c rest : raw (a :: b :: c :: rest) = enc3 a b c ++ raw rest.
Proof. reflexivity. Qed.

Lemma btoa_cons3 a b c rest :
  btoa (a :: b :: c :: rest) = enc3 a b c ++ btoa rest.
Proof. reflexivity. Qed.

Lemma raw_clean (data : list byte) : Forall clean (raw data).
Proof.
  induction data as [|a|a b|a b c rest IH] using list_ind3.
  - constructor.
  - apply enc1_clean.
  - apply enc2_clean.
  - rewrite raw_cons3. apply Forall_app. split; [apply enc3_clean | exact IH].
Qed.

Lemma raw_length (data : list byte) : (length (raw data) mod 4 <> 1)%nat.
Proof.
  induction data as [|a|a b|a b c rest IH] using list_ind3.
  - simpl. lia.
  - simpl. lia.
  - simpl. lia.
  - rewrite raw_cons3, length_app.
    change (length (enc3 a b c)) with 4%nat.
    rewrite Nat.add_comm, <- (Nat.mul_1_l 4) at 1.
    now rewrite Nat.Div0.mod_add.
Qed.

(** Decoding the sextets of the unpadded encoding gives the bytes back. *)
Lemma sextets_app (l1 l2 : list ascii) :
  sextets (l1 ++ l2) =
  match sextets l1, sextets l2 with
  | Some a, Some b => Some (a ++ b)
  | _, _ => None
  end.
Proof.
  induction l1 as [|c l1 IH]; simpl.
  - now destruct (sextets l2).
  - rewrite IH. destruct (index_of c), (sextets l1), (sextets l2); reflexivity.
Qed.

Lemma index_of_char_of (n : N) : (n < 64)%N -> index_of (char_of n) = Some n.
Proof.
  intros Hn. destruct (clean_facts (char_of n)) as ((m & Hm & E & Hi) & _).
  { exists n; auto. }
  pose proof (sextet_ok_all n Hn) as H. unfold sextet_ok in H. cbv zeta in H.
  destruct (index_of (char_of n)) as [k|]; [|discriminate].
  repeat (apply andb_prop in H; destruct H as [H ?]).
  apply N.eqb_eq in H. now subst.
Qed.

Lemma decode_raw (data : list byte) :
  option_map bytes_of_sextets (sextets (raw data)) = Some data.
Proof.
  induction data as [|a|a b|a b c rest IH] using list_ind3.
  - reflexivity.
  - destruct (group1 _ (byte_lt a)) as ((? & ?) & E1).
    cbn [raw enc1 sextets]. rewrite !index_of_char_of by assumption.
    cbn [option_map bytes_of_sextets]. now rewrite E1, byte_of_to_N.
  - destruct (group2 _ _ (byte_lt a) (byte_lt b)) as ((? & ? & ?) & E1 & E2).
    cbn [raw enc2 sextets]. rewrite !index_of_char_of by assumption.
    cbn [option_map bytes_of_sextets]. now rewrite E1, E2, !byte_of_to_N.
  - destruct (group3 _ _ _ (byte_lt a) (byte_lt b) (byte_lt c))
      as ((? & ? & ? & ?) & E1 & E2 & E3).
    rewrite raw_cons3, sextets_app.
    destruct (sextets (raw rest)) as [sx|]; [|discriminate].
    cbn [enc3 sextets]. rewrite !index_of_char_of by assumption.
    cbn [option_map app bytes_of_sextets].
    rewrite E1, E2, E3, !byte_of_to_N.
    cbn [option_map] in IH. injection IH as ->. reflexivity.
Qed.

(** [base64UrlEncode] is the unpadded encoding with the two URL characters. *)
Lemma replace_url (l : list ascii) :
  replace_char "/" "_" (replace_char "+" "-" l) = map url_char l.
Proof. unfold replace_char. rewrite map_map. reflexivity. Qed.

Lemma replace_unurl (l : list ascii) :
  replace_char "_" "/" (replace_char "-" "+" l) = map unurl_char l.
Proof. unfold replace_char. rewrite map_map. reflexivity. Qed.

Lemma remove_pad_clean (l : list ascii) :
  Forall clean l -> remove_char "=" (map url_char l) = map url_char l.
Proof.
  unfold remove_char. induction 1 as [|c l Hc _ IH]; [reflexivity|].
  destruct (clean_facts c Hc) as (_ & _ & E & _).
  cbn [map List.filter]. cbn beta. unfold pad in E. rewrite E.
  cbn [negb]. now rewrite IH.
Qed.

Lemma encode_raw (data : list byte) :
  remove_char "=" (map url_char (btoa data)) = map url_char (raw data).
Proof.
  induction data as [|a|a b|a b c rest IH] using list_ind3.
  - reflexivity.
  - cbn [btoa raw]. unfold remove_char. rewrite map_app, List.filter_app.
    fold (remove_char "=" (map url_char (enc1 a))).
    rewrite remove_pad_clean by apply enc1_clean. apply app_nil_r.
  - cbn [btoa raw]. unfold remove_char. rewrite map_app, List.filter_app.
    fold (remove_char "=" (map url_char (enc2 a b))).
    rewrite remove_pad_clean by apply enc2_clean. apply app_nil_r.
  - rewrite btoa_cons3, raw_cons3. unfold remove_char in *.
    rewrite !map_app, List.filter_app, IH. f_equal.
    apply remove_pad_clean, enc3_clean.
Qed.

Lemma base64UrlEncode_raw (data : list byte) :
  base64UrlEncode data = string_of_list_ascii (map url_char (raw data)).
Proof. unfold base64UrlEncode. now rewrite replace_url, encode_raw. Qed.

Lemma unurl_url_clean (l : list ascii) :
  Forall clean l -> map unurl_char (map url_char l) = l.
Proof.
  induction 1 as [|c l Hc _ IH]; [reflexivity|].
  destruct (clean_facts c Hc) as (_ & E & _).
  cbn [map]. now rewrite E, IH.
Qed.

(** [atob] on the re-padded text of an unpadded encoding. *)
Lemma filter_space_clean (l : list ascii) :
  Forall clean l ->
  List.filter (fun c => negb (Js.is_ascii_whitespace c)) l = l.
Proof.
  induction 1 as [|c l Hc _ IH]; [reflexivity|].
  destruct (clean_facts c Hc) as (_ & _ & _ & _ & _ & E).
  cbn [List.filter]. cbn beta. rewrite E. cbn [negb]. now rewrite IH.
Qed.

Lemma clean_not_pad (c : ascii) : clean c -> Ascii.eqb c pad = false.
Proof. intros Hc. now destruct (clean_facts c Hc) as (_ & _ & _ & E & _). Qed.

Lemma strip_padding_0 (r : list ascii) :
  Forall clean r -> strip_padding r = r.
Proof.
  intros Hr. unfold strip_padding.
  apply Forall_rev in Hr.
  destruct (rev r) as [|p1 [|p2 rr]]; [reflexivity| |];
    inversion Hr as [|? ? Hp1 _]; subst;
    now rewrite (clean_not_pad _ Hp1).
Qed.

Lemma strip_padding_1 (r : list ascii) :
  Forall clean r -> strip_padding (r ++ [pad]) = r.
Proof.
  intros Hr. unfold strip_padding. rewrite rev_app_distr. cbn [rev app].
  rewrite <- (rev_involutive r) at 2.
  apply Forall_rev in Hr.
  destruct (rev r) as [|p2 rr]; [reflexivity|].
  inversion Hr as [|? ? Hp2 _]; subst.
  now rewrite (clean_not_pad _ Hp2).
Qed.

Lemma strip_padding_2 (r : list ascii) :
  strip_padding (r ++ [pad; pad]) = r.
Proof.
  unfold strip_padding. rewrite rev_app_distr. cbn [rev app].
  now rewrite rev_involutive.
Qed.

Lemma sextets_clean (r : list ascii) :
  Forall clean r -> exists sx, sextets r = Some sx.
Proof.
  induction 1 as [|c l Hc _ (sx & IH)]; [now exists []|].
  destruct (clean_facts c Hc) as ((n & _ & _ & E) & _).
  exists (n :: sx). cbn [sextets]. now rewrite E, IH.
Qed.

Lemma atob_padded (r : list ascii) :
  Forall clean r -> (length r mod 4 <> 1)%nat ->
  atob (padEnd (length r + ((4 - (length r mod 4)) mod 4)) r)
  = option_map bytes_of_sextets (sextets r).
Proof.
  intros Hr Hm. unfold padEnd.
  replace (length r + (4 - length r mod 4) mod 4 - length r)%nat
    with ((4 - length r mod 4) mod 4)%nat by lia.
  pose proof (Nat.mod_upper_bound (length r) 4 ltac:(lia)) as Hlt.
  assert (Hcase : (length r mod 4 = 0 \/ length r mod 4 = 2
                   \/ length r mod 4 = 3)%nat) by lia.
  unfold atob.
  destruct Hcase as [E|[E|E]]; rewrite E;
    [ change ((4 - 0) mod 4)%nat with 0%nat
    | change ((4 - 2) mod 4)%nat with 2%nat
    | change ((4 - 3) mod 4)%nat with 1%nat ]; cbn [repeat].
  - rewrite app_nil_r, filter_space_clean by assumption.
    rewrite E. cbn [Nat.eqb]. rewrite strip_padding_0 by assumption.
    rewrite E. reflexivity.
  - rewrite List.filter_app, filter_space_clean by assumption.
    cbn [List.filter app]. change (negb (Js.is_ascii_whitespace pad)) with true.
    cbn iota.
    assert (E4 : (length (r ++ [pad; pad]) mod 4 = 0)%nat).
    { rewrite length_app, Nat.Div0.add_mod, E. reflexivity. }
    rewrite E4. cbn [Nat.eqb]. rewrite strip_padding_2.
    rewrite E. reflexivity.
  - rewrite List.filter_app, filter_space_clean by assumption.
    cbn [List.filter app]. change (negb (Js.is_ascii_whitespace pad)) with true.
    cbn iota.
    assert (E4 : (length (r ++ [pad]) mod 4 = 0)%nat).
    { rewrite length_app, Nat.Div0.add_mod, E. reflexivity. }
    rewrite E4. cbn [Nat.eqb]. rewrite strip_padding_1 by assumption.
    rewrite E. reflexivity.
Qed.

(** Decoding undoes encoding, for every byte sequence. *)
Lemma base64Url_roundtrip (data : list byte) :
  base64UrlDecode (base64UrlEncode data) = Some data.
Proof.
  unfold base64UrlDecode.
  rewrite base64UrlEncode_raw, list_ascii_of_string_of_list_ascii.
  rewrite replace_unurl, unurl_url_clean by apply raw_clean.
  rewrite atob_padded by (apply raw_clean || apply raw_length).
  apply decode_raw.
Qed.

(** The encoded text never contains the separator of a compact token. *)
Lemma base64UrlEncode_no_dot (data : list byte) :
  Forall (fun c => Ascii.eqb c "." = false)
         (list_ascii_of_string (base64UrlEncode data)).
Proof.
  rewrite base64UrlEncode_raw, list_ascii_of_string_of_list_ascii.
  pose proof (raw_clean data) as H.
  induction H as [|c l Hc _ IH]; constructor; [|exact IH].
  now destruct (clean_facts c Hc) as (_ & _ & _ & _ & E & _).
Qed.

End Base64Facts.

(** ** Splitting a compact token *)

Section SplitFacts.

Lemma list_ascii_app (a b : string) :
  list_ascii_of_string (String.append a b)
  = list_ascii_of_string a ++ list_ascii_of_string b.
Proof.
  induction a as [|c a IH]; [reflexivity|].
  change (c :: list_ascii_of_string (String.append a b)
          = c :: (list_ascii_of_string a ++ list_ascii_of_string b)).
  now rewrite IH.
Qed.


Lemma split_acc_piece sep (l : list ascii) cur rest :
  Forall (fun c => Ascii.eqb c sep = false) l ->
  Js.split_acc sep cur (l ++ sep :: rest)
  = rev (rev l ++ cur) :: Js.split_acc sep [] rest.
Proof.
  intros Hl. revert cur.
  induction Hl as [|c l Hc _ IH]; intros cur; cbn [app Js.split_acc].
  - now rewrite Ascii.eqb_refl.
  - rewrite Hc, IH. cbn [rev]. now rewrite <- app_assoc.
Qed.

Lemma split_acc_last sep (l : list ascii) cur :
  Forall (fun c => Ascii.eqb c sep = false) l ->
  Js.split_acc sep cur l = [rev (rev l ++ cur)].
Proof.
  intros Hl. revert cur.
  induction Hl as [|c l Hc _ IH]; intros cur; cbn [Js.split_acc].
  - reflexivity.
  - rewrite Hc, IH. cbn [rev]. now rewrite <- app_assoc.
Qed.

(** Three pieces free of the separator come back as three parts. *)
Lemma split_three sep (a b c : string) :
  Js.no_sep sep a -> Js.no_sep sep b -> Js.no_sep sep c ->
  Js.split sep
    (String.append a (String (sep) (String.append b (String sep c))))
  = [a; b; c].
Proof.
  intros Ha Hb Hc. unfold Js.split.
  rewrite list_ascii_app. cbn [list_ascii_of_string].
  rewrite split_acc_piece by exact Ha.
  rewrite list_ascii_app. cbn [list_ascii_of_string].
  rewrite split_acc_piece by exact Hb.
  rewrite split_acc_last by exact Hc.
  rewrite !app_nil_r, !rev_involutive. cbn [map].
  now rewrite !string_of_list_ascii_of_string.
Qed.

End SplitFacts.

(* ===================================================================== *)
(** * Frames: what a computation leaves alone *)
(* ===================================================================== *)


#[global] Instance unchanged_ok : FrameOk unchanged.
Proof. split; unfold unchanged; congruence. Qed.

#[global] Instance same_store_ok : FrameOk same_store.
Proof. split; unfold same_store; intuition congruence. Qed.

#[global] Instance seen_grows_ok : FrameOk seen_grows.
Proof.
  split; unfold seen_grows.
  - intros w. repeat split; reflexivity.
  - intros a b c (? & ? & ? & ?) (? & ? & ? & ?).
    repeat split; try congruence. etrans; eassumption.
Qed.

#[global] Instance no_insert_ok : FrameOk no_insert.
Proof.
  split; unfold no_insert.
  - intros w. split; [reflexivity|]. exists []. now rewrite app_nil_r.
  - intros a b c (Eb & lb & Tb & Fb) (Ec & lc & Tc & Fc).
    split; [congruence|]. exists (lb ++ lc).
    rewrite Tc, Tb, <- app_assoc. split; [reflexivity|].
    rewrite forallb_app. now rewrite Fb, Fc.
Qed.

Lemma unchanged_same_store w w' : unchanged w w' -> same_store w w'.
Proof. unfold unchanged, same_store. now intros ->. Qed.

Lemma same_store_seen_grows w w' : same_store w w' -> seen_grows w w'.
Proof.
  unfold same_store, seen_grows. intros (? & E). rewrite E.
  repeat split; auto.
Qed.

Section FrameRules.

Context {A B : Type} (I : Frame) `{!FrameOk I}.

Lemma preserves_ret (a : A) : preserves I (ret a).
Proof. intros w o w' H. inversion H. apply frame_refl. Qed.

Lemma preserves_throw (msg : string) : preserves I (@throw A msg).
Proof. intros w o w' H. inversion H. apply frame_refl. Qed.

Lemma preserves_bind (m : M A) (k : A -> M B) :
  preserves I m -> (forall a, preserves I (k a)) -> preserves I (bind m k).
Proof.
  intros Hm Hk w o w'. unfold bind.
  destruct (m w) as [[a|msg] w1] eqn:E; intros H.
  - eapply frame_trans; [eapply Hm, E | eapply Hk, H].
  - inversion H; subst. eapply Hm, E.
Qed.

Lemma preserves_try_catch (m : M A) (h : string -> M A) :
  preserves I m -> (forall msg, preserves I (h msg)) ->
  preserves I (try_catch m h).
Proof.
  intros Hm Hh w o w'. unfold try_catch.
  destruct (m w) as [[a|msg] w1] eqn:E; intros H.
  - inversion H; subst. eapply Hm, E.
  - eapply frame_trans; [eapply Hm, E | eapply Hh, H].
Qed.

Lemma preserves_or_throw (o : option A) (msg : string) :
  preserves I (or_throw o msg).
Proof. destruct o; [apply preserves_ret | apply preserves_throw]. Qed.

Lemma preserves_weaken (J : Frame) (m : M A) :
  (forall w w', J w w' -> I w w') -> preserves J m -> preserves I m.
Proof. intros HJ Hm w o w' H. eapply HJ, Hm, H. Qed.

End FrameRules.

Lemma preserves_Date_now (I : Frame) `{!FrameOk I} : preserves I Date_now.
Proof. intros w o w' H. inversion H. apply frame_refl. Qed.

Lemma preserves_get_db (I : Frame) `{!FrameOk I} : preserves I get_db.
Proof. intros w o w' H. inversion H. apply frame_refl. Qed.

Lemma preserves_get_jwksCache (I : Frame) `{!FrameOk I} :
  preserves I get_jwksCache.
Proof. intros w o w' H. inversion H. apply frame_refl. Qed.

Lemma same_store_emit (ev : Event) : preserves same_store (emit ev).
Proof. intros w o w' H. inversion H. now split. Qed.

Lemma same_store_set_jwksCache c : preserves same_store (set_jwksCache c).
Proof. intros w o w' H. inversion H. now split. Qed.

Lemma no_insert_emit (ev : Event) :
  is_insert ev = false -> preserves no_insert (emit ev).
Proof.
  intros Hev w o w' H. inversion H. split; [reflexivity|].
  exists [ev]. cbn. now rewrite Hev.
Qed.

Lemma no_insert_set_jwksCache c : preserves no_insert (set_jwksCache c).
Proof.
  intros w o w' H. inversion H. split; [reflexivity|].
  exists []. cbn. now rewrite app_nil_r.
Qed.

Create HintDb frame.

(** One step of a frame proof: follow the structure of the computation. *)
Ltac frame_step :=
  match goal with
  | |- preserves _ (bind _ _) =>
      apply preserves_bind; [exact _| |intros ?; cbv beta]
  | |- preserves _ (try_catch _ _) =>
      apply preserves_try_catch; [exact _| |intros ?; cbv beta]
  | |- preserves _ (ret _) => apply preserves_ret
  | |- preserves _ (throw _) => apply preserves_throw
  | |- preserves _ (or_throw _ _) => apply preserves_or_throw
  | |- preserves _ Date_now => apply preserves_Date_now
  | |- preserves _ get_db => apply preserves_get_db
  | |- preserves _ get_jwksCache => apply preserves_get_jwksCache
  | |- preserves same_store (emit _) => apply same_store_emit
  | |- preserves same_store (set_jwksCache _) => apply same_store_set_jwksCache
  | |- preserves no_insert (emit _) => apply no_insert_emit; reflexivity
  | |- preserves no_insert (set_jwksCache _) => apply no_insert_set_jwksCache
  | |- preserves _ (if ?b then _ else _) => destruct b
  | |- preserves _ (match ?x with _ => _ end) => destruct x
  | |- preserves _ (let _ := _ in _) => cbv zeta
  | |- FrameOk _ => exact _
  end.

Ltac frame := repeat frame_step; eauto with frame.

#[global] Hint Resolve unchanged_ok same_store_ok seen_grows_ok no_insert_ok
  : frame.

(* ===================================================================== *)
(** * Frames of the worker's functions *)
(* ===================================================================== *)

Section WorkerFrames.

Context (host : Host) (net : Network).

Lemma preserves_check_claims (I : Frame) `{!FrameOk I} payload iss aud t :
  preserves I (check_claims payload iss aud t).
Proof. unfold check_claims. frame. Qed.

Lemma preserves_base64UrlDecode (I : Frame) `{!FrameOk I} str :
  preserves I (base64UrlDecode str).
Proof. unfold base64UrlDecode. frame. Qed.

Lemma preserves_importRSAKey (I : Frame) `{!FrameOk I} jwk :
  preserves I (importRSAKey host jwk).
Proof. unfold importRSAKey. frame. Qed.

Lemma preserves_importHmacKey (I : Frame) `{!FrameOk I} secret :
  preserves I (importHmacKey host secret).
Proof. unfold importHmacKey. frame. Qed.

Lemma preserves_sign (I : Frame) `{!FrameOk I} payload secret ttl :
  preserves I (signVibeAccessHS256 host payload secret ttl).
Proof.
  unfold signVibeAccessHS256.
  repeat first [ apply preserves_importHmacKey | frame_step ].
Qed.

Lemma preserves_verifyVibe (I : Frame) `{!FrameOk I} token secret :
  preserves I (verifyVibeAccessHS256 host token secret).
Proof.
  unfold verifyVibeAccessHS256.
  repeat first [ apply preserves_base64UrlDecode
               | apply preserves_importHmacKey
               | frame_step ].
Qed.

Lemma same_store_getFlexiJWKS url : preserves same_store (getFlexiJWKS net url).
Proof. unfold getFlexiJWKS. frame. Qed.

Lemma same_store_verifyFlexi token url iss aud :
  preserves same_store (verifyFlexiJWT_RS256 host net token url iss aud).
Proof.
  unfold verifyFlexiJWT_RS256.
  repeat first [ apply preserves_base64UrlDecode
               | apply preserves_check_claims
               | apply preserves_importRSAKey
               | apply same_store_getFlexiJWKS
               | frame_step ].
Qed.

Lemma same_store_getUserByEmail mail :
  preserves same_store (getUserByEmail mail).
Proof. unfold getUserByEmail. frame. Qed.

Lemma no_insert_getFlexiJWKS url : preserves no_insert (getFlexiJWKS net url).
Proof. unfold getFlexiJWKS. frame. Qed.

Lemma no_insert_verifyFlexi token url iss aud :
  preserves no_insert (verifyFlexiJWT_RS256 host net token url iss aud).
Proof.
  unfold verifyFlexiJWT_RS256.
  repeat first [ apply preserves_base64UrlDecode
               | apply preserves_check_claims
               | apply preserves_importRSAKey
               | apply no_insert_getFlexiJWKS
               | frame_step ].
Qed.

Lemma no_insert_getUserByEmail mail :
  preserves no_insert (getUserByEmail mail).
Proof. unfold getUserByEmail. frame. Qed.


(** First use of a nonce: the insert happens and the answer is [true]. *)
Lemma markJtiSeen_fresh (jti : string) (w : World) :
  jwt_seen (VIBE_DB w) !! jti = None ->
  markJtiSeen jti w = (Ok true, recorded jti w).
Proof.
  intros Hnew.
  unfold markJtiSeen, try_catch, d1_run_insert_jti, bind, emit, Date_now,
    get_db, set_db, ret, throw.
  cbn. rewrite Hnew. reflexivity.
Qed.

(** Any later use: nothing is inserted and the answer is [false], whether
    the engine reports the conflict as zero changes or as an exception. *)
Lemma markJtiSeen_seen (jti : string) (w : World) :
  is_Some (jwt_seen (VIBE_DB w) !! jti) ->
  markJtiSeen jti w = (Ok false, logged (EvInsertJti jti) w).
Proof.
  intros [t Hseen].
  unfold markJtiSeen, try_catch, d1_run_insert_jti, bind, emit, Date_now,
    get_db, set_db, ret, throw.
  cbn. rewrite Hseen.
  destruct (conflict_throws (VIBE_DB w)); reflexivity.
Qed.

Lemma recorded_lookup (jti : string) (w : World) :
  jwt_seen (VIBE_DB (recorded jti w)) !! jti = Some (now w / 1000)%Z.
Proof. cbn. apply lookup_insert_eq. Qed.

Lemma seen_grows_markJtiSeen (jti : string) :
  preserves seen_grows (markJtiSeen jti).
Proof.
  intros w o w' H.
  destruct (jwt_seen (VIBE_DB w) !! jti) as [t|] eqn:E.
  - rewrite markJtiSeen_seen in H by eauto. inversion H; subst.
    repeat split; reflexivity.
  - rewrite markJtiSeen_fresh in H by assumption. inversion H; subst.
    repeat split; cbn; try reflexivity.
    now apply insert_subseteq.
Qed.

Lemma preserves_grows_of_store {A} (m : M A) :
  preserves same_store m -> preserves seen_grows m.
Proof. apply preserves_weaken, same_store_seen_grows. Qed.

Lemma same_store_handoff request env payload :
  preserves same_store (handoff host net request env payload).
Proof. unfold handoff. frame. Qed.

Lemma same_store_proxy request env payload :
  preserves same_store (proxy net request env payload).
Proof. unfold proxy. frame. Qed.

Lemma same_store_handleProtected request env :
  preserves same_store (handleProtected host net request env).
Proof.
  unfold handleProtected.
  repeat first [ apply preserves_verifyVibe
               | apply same_store_handoff
               | apply same_store_proxy
               | frame_step ].
Qed.

Lemma same_store_handleMe request env :
  preserves same_store (handleMe host request env).
Proof.
  unfold handleMe. repeat first [ apply preserves_verifyVibe | frame_step ].
Qed.

Lemma same_store_handleMigrate env : preserves same_store (handleMigrate env).
Proof. unfold handleMigrate. frame. Qed.

Lemma same_store_issue_session env origin mail :
  preserves same_store (issue_session host env origin mail).
Proof.
  unfold issue_session.
  repeat first [ apply preserves_sign
               | apply same_store_getUserByEmail
               | frame_step ].
Qed.

Lemma no_insert_issue_session env origin mail :
  preserves no_insert (issue_session host env origin mail).
Proof.
  unfold issue_session.
  repeat first [ apply preserves_sign
               | apply no_insert_getUserByEmail
               | frame_step ].
Qed.

Lemma seen_grows_exchange env origin mail payload :
  preserves seen_grows (exchange host env origin mail payload).
Proof.
  unfold exchange.
  repeat first [ apply seen_grows_markJtiSeen
               | apply preserves_grows_of_store, same_store_issue_session
               | frame_step ].
Qed.

Lemma seen_grows_handleVibeAccess request env :
  preserves seen_grows (handleVibeAccess host net request env).
Proof.
  unfold handleVibeAccess.
  repeat first [ apply seen_grows_exchange
               | apply preserves_grows_of_store, same_store_verifyFlexi
               | frame_step ].
Qed.

Lemma seen_grows_fetch request env :
  preserves seen_grows (fetch host net request env).
Proof.
  unfold fetch.
  repeat first [ apply seen_grows_handleVibeAccess
               | apply preserves_grows_of_store, same_store_handleMe
               | apply preserves_grows_of_store, same_store_handleMigrate
               | apply preserves_grows_of_store, same_store_handleProtected
               | frame_step ].
Qed.

End WorkerFrames.

(* ===================================================================== *)
(** * The session token ([signVibeAccessHS256], [verifyVibeAccessHS256]) *)
(* ===================================================================== *)

Section SessionToken.

Context (host : Host).

Lemma append_assoc_sep (a b r : string) (sep : ascii) :
  String.append (String.append a (String sep b)) r
  = String.append a (String sep (String.append b r)).
Proof.
  induction a as [|c a IH]; [reflexivity|].
  change (String c (String.append (String.append a (String sep b)) r)
          = String c (String.append a (String sep (String.append b r)))).
  now rewrite IH.
Qed.

Lemma no_dot_encoded (data : list byte) :
  Js.no_sep "." (Base64.base64UrlEncode data).
Proof. apply base64UrlEncode_no_dot. Qed.

(** A compact token assembled from three encoded parts splits into them. *)
Lemma split_compact (h p s : list byte) :
  Js.split "."
    (String.append
       (String.append (Base64.base64UrlEncode h)
                      (String "." (Base64.base64UrlEncode p)))
       (String "." (Base64.base64UrlEncode s)))
  = [Base64.base64UrlEncode h; Base64.base64UrlEncode p;
     Base64.base64UrlEncode s].
Proof.
  rewrite append_assoc_sep. apply split_three; apply no_dot_encoded.
Qed.

Lemma base64UrlDecode_encoded (data : list byte) (w : World) :
  base64UrlDecode (Base64.base64UrlEncode data) w = (Ok data, w).
Proof. unfold base64UrlDecode. now rewrite base64Url_roundtrip. Qed.


(** What a successful call of the issuer returns, and that it changes
    nothing. *)
Lemma sign_inversion payload secret ttl w token w' :
  signVibeAccessHS256 host payload secret ttl w = (Ok token, w') ->
  w' = w
  /\ hmac_importKey host (Js.TextEncoder_encode secret) = true
  /\ token = compact host (full_payload payload (now w / 1000) ttl) secret.
Proof.
  unfold signVibeAccessHS256, importHmacKey, bind, Date_now, ret, throw.
  destruct (hmac_importKey host (Js.TextEncoder_encode secret));
    intros H; inversion H; subst. auto.
Qed.

(** The issuer succeeds exactly when the host accepts the secret as a key. *)
Lemma sign_total payload secret ttl w :
  hmac_importKey host (Js.TextEncoder_encode secret) = true ->
  signVibeAccessHS256 host payload secret ttl w
  = (Ok (compact host (full_payload payload (now w / 1000) ttl) secret), w).
Proof.
  intros Hk.
  unfold signVibeAccessHS256, importHmacKey, bind, Date_now, ret, throw.
  now rewrite Hk.
Qed.

(** The verifier on a token of the issuer, by the clock of the verifier. *)
Lemma verify_compact (p : VibeAccessPayload) (secret : string) (h : JoseHeader)
    (w : World) :
  hmac_importKey host (Js.TextEncoder_encode secret) = true ->
  JSON_parse_header host (header_bytes host) = Some h ->
  h_alg h = Some "HS256" ->
  JSON_parse_vibe host (payload_bytes host p) = Some p ->
  verifyVibeAccessHS256 host (compact host p secret) secret w
  = if Js.less_than (va_exp p) (now w / 1000)%Z
    then (Throw "Token expired", w)
    else (Ok p, w).
Proof.
  intros Hk Hh Halg Hp.
  unfold verifyVibeAccessHS256, compact, signing_input.
  rewrite split_compact.
  unfold bind. rewrite base64UrlDecode_encoded.
  rewrite Hh. cbn [or_throw ret]. rewrite Halg.
  rewrite bool_decide_eq_true_2 by reflexivity. cbn [negb].
  unfold importHmacKey. rewrite Hk. cbn [ret].
  rewrite base64UrlDecode_encoded.
  rewrite bool_decide_eq_true_2 by reflexivity. cbn [negb].
  rewrite base64UrlDecode_encoded.
  fold (payload_bytes host p). rewrite Hp. cbn [or_throw ret]. unfold Date_now.
  destruct (Js.less_than (va_exp p) (now w / 1000)%Z); reflexivity.
Qed.

(** C4 -- Round-trip law of the session token.  For every payload (issuer,
    audience, subject, email, roles), secret and TTL, a token produced by
    [signVibeAccessHS256] at second [t] is the compact token over exactly
    these five values, the issued-at [t] and the expiry [t + TTL], and
    nothing else changed.  [verifyVibeAccessHS256], with the same secret,
    accepts it and returns that payload, field by field, whenever the
    verifier's clock (in whole seconds, as the code reads it) has not passed
    the expiry, and fails with "Token expired", leaving the world untouched,
    once it has.  The two hypotheses on the host say that [JSON.parse] reads
    back what [JSON.stringify] wrote for the header and for this payload. *)
Theorem session_token_round_trip
    (payload : VibeAccessInput) (secret : string) (ttl : Z)
    (w w' : World) (token : string) (h : JoseHeader) :
  let signed :=
    {| va_iss := in_iss payload; va_aud := in_aud payload;
       va_sub := in_sub payload; va_email := in_email payload;
       va_roles := in_roles payload;
       va_exp := Some (now w / 1000 + ttl)%Z;
       va_iat := (now w / 1000)%Z |} in
  signVibeAccessHS256 host payload secret ttl w = (Ok token, w') ->
  JSON_parse_header host (header_bytes host) = Some h ->
  h_alg h = Some "HS256" ->
  JSON_parse_vibe host (payload_bytes host signed) = Some signed ->
  token = compact host signed secret
  /\ w' = w
  /\ forall w2 : World,
      ((now w2 / 1000 <= now w / 1000 + ttl)%Z ->
       verifyVibeAccessHS256 host token secret w2 = (Ok signed, w2))
      /\ ((now w / 1000 + ttl < now w2 / 1000)%Z ->
          verifyVibeAccessHS256 host token secret w2
          = (Throw "Token expired", w2)).
Proof.
  intros signed Hsign Hh Halg Hp.
  destruct (sign_inversion _ _ _ _ _ _ Hsign) as (-> & Hk & ->).
  split; [reflexivity|]. split; [reflexivity|].
  intros w2.
  change (full_payload payload (now w / 1000) ttl) with signed.
  rewrite (verify_compact signed secret h w2 Hk Hh Halg Hp).
  cbn [Js.less_than va_exp signed].
  split; intros Ht.
  - apply Z.ltb_ge in Ht. now rewrite Ht.
  - apply Z.ltb_lt in Ht. now rewrite Ht.
Qed.

End SessionToken.

(** The round trip on the reference host: the token issued at second
    1700000000 for ten minutes to user [u1] verifies five minutes later,
    returning subject [u1], email [a@b.com], roles [viewer] and the expiry
    1700000600, and is refused eleven minutes later. *)
Lemma session_token_round_trip_witness :
  let signed :=
    {| va_iss := "vibe-edge"; va_aud := "vibe-app"; va_sub := "u1";
       va_email := "a@b.com"; va_roles := "viewer";
       va_exp := Some 1700000600%Z; va_iat := 1700000000%Z |} in
  exists token,
    signVibeAccessHS256 Demo.host Demo.identity "s3cret" 600 Demo.world0
    = (Ok token, Demo.world0)
    /\ verifyVibeAccessHS256 Demo.host token "s3cret"
         (at_time 1700000300000 Demo.world0)
       = (Ok signed, at_time 1700000300000 Demo.world0)
    /\ verifyVibeAccessHS256 Demo.host token "s3cret"
         (at_time 1700000660000 Demo.world0)
       = (Throw "Token expired", at_time 1700000660000 Demo.world0).
Proof.
  cbv zeta.
  destruct (signVibeAccessHS256 Demo.host Demo.identity "s3cret" 600
              Demo.world0) as [[token|msg] w'] eqn:Hsign;
    [|vm_compute in Hsign; discriminate Hsign].
  destruct (session_token_round_trip Demo.host Demo.identity "s3cret" 600
              Demo.world0 w' token
              {| h_alg := Some "HS256"; h_kid := None |} Hsign)
    as (_ & -> & H); [vm_compute; reflexivity | reflexivity
                      | vm_compute; reflexivity |].
  exists token. split; [reflexivity|]. split.
  - apply (H (at_time 1700000300000 Demo.world0)). vm_compute. discriminate.
  - apply (H (at_time 1700000660000 Demo.world0)). vm_compute. reflexivity.
Defined.

(* ===================================================================== *)
(** * The assertion verifier ([verifyFlexiJWT_RS256]) *)
(* ===================================================================== *)

Section AssertionVerifier.

Context (host : Host) (net : Network).

(** The claim checks change nothing: they return or throw in place. *)
Lemma check_claims_pure payload iss aud t w :
  exists o, check_claims payload iss aud t w = (o, w).
Proof.
  unfold check_claims, ret, throw.
  repeat match goal with
         | |- context [if ?b then _ else _] => destruct b
         end; eauto.
Qed.

(** Everything a successful verification went through, in order: both
    decodings, the claim checks, the key set, the key selection and, last,
    the signature check with the selected key. *)
Lemma verifyFlexi_ok token url iss aud w p w' :
  verifyFlexiJWT_RS256 host net token url iss aud w = (Ok p, w') ->
  exists header jwks jwk w1 h64 p64 s64 sig,
    parts token = Some (h64, p64, s64)
    /\ decode_header host token = Some header
    /\ h_alg header = Some "RS256"
    /\ decode_claims host token = Some p
    /\ check_claims p iss aud (now w / 1000) w = (Ok tt, w)
    /\ getFlexiJWKS net url w = (Ok jwks, w1)
    /\ select_key header jwks = Some jwk
    /\ rsa_importKey host (key_data jwk) = true
    /\ Base64.base64UrlDecode s64 = Some sig
    /\ rsa_verify host (key_data jwk) sig
         (Js.TextEncoder_encode (String.append h64 (String "." p64))) = true
    /\ w' = logged (EvRsaVerify (key_data jwk)) w1.
Proof.
  unfold verifyFlexiJWT_RS256, decode_header, decode_claims, parts.
  destruct (Js.split "." token) as [|h64 [|p64 [|s64 [|]]]];
    try (intros H; discriminate H).
  unfold bind, base64UrlDecode, or_throw, importRSAKey, Date_now, ret, throw.
  destruct (Base64.base64UrlDecode h64) as [hb|]; [|discriminate].
  destruct (JSON_parse_header host hb) as [header|]; [|discriminate].
  destruct (bool_decide (h_alg header = Some "RS256")) eqn:Ealg;
    [|discriminate]. cbn [negb].
  apply bool_decide_eq_true_1 in Ealg.
  destruct (Base64.base64UrlDecode p64) as [pb|]; [|discriminate].
  destruct (JSON_parse_flexi host pb) as [payload|]; [|discriminate].
  destruct (check_claims_pure payload iss aud (now w / 1000) w) as [o Ec].
  rewrite Ec. destruct o as [[]|msg]; [|discriminate].
  destruct (getFlexiJWKS net url w) as [[jwks|msg] w1] eqn:Ej; [|discriminate].
  destruct (select_key header jwks) as [jwk|] eqn:Ek; [|discriminate].
  cbv zeta.
  destruct (rsa_importKey host (key_data jwk)) eqn:Ei; [|discriminate].
  destruct (Base64.base64UrlDecode s64) as [sig|] eqn:Es; [|discriminate].
  unfold emit.
  destruct (rsa_verify host (key_data jwk) sig _) eqn:Ev; [|discriminate].
  intros H; inversion H; subst.
  exists header, jwks, jwk, w1, h64, p64, s64, sig.
  repeat split; auto.
Qed.

(** A failing claim check ends the verification on the spot: the error is
    the claim's, the key set is not fetched and no signature is checked. *)
Lemma verifyFlexi_claim_failure token url iss aud w header p msg :
  decode_header host token = Some header ->
  h_alg header = Some "RS256" ->
  decode_claims host token = Some p ->
  check_claims p iss aud (now w / 1000) w = (Throw msg, w) ->
  verifyFlexiJWT_RS256 host net token url iss aud w = (Throw msg, w).
Proof.
  unfold verifyFlexiJWT_RS256, decode_header, decode_claims.
  destruct (Js.split "." token) as [|h64 [|p64 [|s64 [|]]]];
    try discriminate.
  unfold bind, base64UrlDecode, or_throw, Date_now, ret, throw.
  destruct (Base64.base64UrlDecode h64) as [hb|]; [|discriminate].
  intros -> Halg. rewrite Halg.
  rewrite bool_decide_eq_true_2 by reflexivity. cbn [negb].
  destruct (Base64.base64UrlDecode p64) as [pb|]; [|discriminate].
  intros -> Hc. now rewrite Hc.
Qed.

End AssertionVerifier.

(* ===================================================================== *)
(** * The exchange endpoint ([handleVibeAccess]), case by case *)
(* ===================================================================== *)

Section Exchange.

Context (host : Host) (net : Network).


Lemma issue_session_unknown env origin mail w :
  sso_users (VIBE_DB w) !! mail = None ->
  issue_session host env origin mail w
  = (Ok (errorResponse "USER_NOT_ALLOWED" "User not allowed" 403
           (Some "User not found in allowed users list") origin),
     logged (EvSelectUser mail) w).
Proof.
  intros Hu. unfold issue_session, getUserByEmail, bind, emit, get_db, ret,
    d1_first_user. cbn. now rewrite Hu.
Qed.

Lemma issue_session_suspended env origin mail w c :
  sso_users (VIBE_DB w) !! mail = Some c ->
  col_status c = "suspended" ->
  issue_session host env origin mail w
  = (Ok (errorResponse "USER_SUSPENDED" "User suspended" 403
           (Some "User account is suspended") origin),
     logged (EvSelectUser mail) w).
Proof.
  intros Hu Hs. unfold issue_session, getUserByEmail, bind, emit, get_db, ret,
    d1_first_user. cbn. rewrite Hu. cbn. now rewrite Hs.
Qed.

Lemma issue_session_active env origin mail w c :
  sso_users (VIBE_DB w) !! mail = Some c ->
  col_status c <> "suspended" ->
  let user := {| user_id := col_user_id c; email := mail;
                 status := col_status c; roles := col_roles c;
                 updated_at := col_updated_at c |} in
  issue_session host env origin mail w
  = match signVibeAccessHS256 host (identity_of env user)
            (VIBE_ACCESS_SECRET env) 600 (logged (EvSelectUser mail) w) with
    | (Ok vibeToken, w') => (Ok (session_response host env origin vibeToken), w')
    | (Throw msg, w') => (Throw msg, w')
    end.
Proof.
  intros Hu Hs user. unfold issue_session, getUserByEmail, d1_first_user.
  unfold bind at 1 2 3. unfold emit, get_db, ret. cbn [VIBE_DB].
  rewrite Hu. fold user.
  assert (E : String.eqb (status user) "suspended" = false).
  { apply String.eqb_neq. exact Hs. }
  rewrite E. unfold bind, logged, identity_of, session_response.
  destruct (signVibeAccessHS256 _ _ _ _ _) as [[tok|msg] w']; reflexivity.
Qed.


Lemma exchange_mismatch env origin mail p w :
  emails_match host p mail = false ->
  exchange host env origin mail p w
  = (Ok (errorResponse "EMAIL_MISMATCH" "Email mismatch" 401
           (Some "Email in body does not match JWT email claim") origin), w).
Proof. unfold emails_match, exchange. now intros ->. Qed.

Lemma exchange_replayed env origin mail p w jti :
  emails_match host p mail = true ->
  fj_jti p = Some jti -> Js.truthy jti = true ->
  is_Some (jwt_seen (VIBE_DB w) !! jti) ->
  exchange host env origin mail p w
  = (Ok (errorResponse "REPLAYED_JTI" "JWT replay detected" 409
           (Some "This JWT has already been used") origin),
     logged (EvInsertJti jti) w).
Proof.
  unfold emails_match, exchange. intros -> Hj Ht Hs. rewrite Hj.
  cbn [negb Js.truthy_opt Js.show_opt]. rewrite Ht.
  unfold bind. now rewrite markJtiSeen_seen.
Qed.

Lemma exchange_fresh env origin mail p w jti :
  emails_match host p mail = true ->
  fj_jti p = Some jti -> Js.truthy jti = true ->
  jwt_seen (VIBE_DB w) !! jti = None ->
  exchange host env origin mail p w
  = issue_session host env origin mail (recorded jti w).
Proof.
  unfold emails_match, exchange. intros -> Hj Ht Hs. rewrite Hj.
  cbn [negb Js.truthy_opt Js.show_opt]. rewrite Ht.
  unfold bind. now rewrite markJtiSeen_fresh.
Qed.

Lemma exchange_no_jti env origin mail p w :
  emails_match host p mail = true ->
  Js.truthy_opt (fj_jti p) = false ->
  exchange host env origin mail p w = issue_session host env origin mail w.
Proof.
  unfold emails_match, exchange. intros -> ->. reflexivity.
Qed.

(** The handler on a body with both fields: verification, then [exchange],
    with the outer [catch] around it. *)
Lemma handleVibeAccess_object request env w jwt mail :
  req_body request = BodyJsonObject (Some jwt) (Some mail) ->
  Js.truthy jwt = true -> Js.truthy mail = true ->
  handleVibeAccess host net request env w
  = match verifyFlexiJWT_RS256 host net jwt (FLEXI_JWKS_URL env)
            (FLEXI_ISS env) (FLEXI_AUD env) w with
    | (Throw msg, w1) =>
        (Ok (errorResponse "JWT_INVALID" "Invalid JWT" 401 (Some msg)
               (origin_of request)), w1)
    | (Ok p, w1) =>
        match exchange host env (origin_of request) mail p w1 with
        | (Ok r, w2) => (Ok r, w2)
        | (Throw msg, w2) =>
            (Ok (errorResponse "INTERNAL_ERROR" "Internal server error" 500
                   (Some msg) (origin_of request)), w2)
        end
    end.
Proof.
  intros Hb Hj Hm. unfold handleVibeAccess. rewrite Hb.
  cbn [Js.truthy_opt Js.show_opt]. rewrite Hj, Hm. cbn [negb orb].
  unfold try_catch, bind, ret.
  destruct (verifyFlexiJWT_RS256 _ _ _ _ _ _ _) as [[p|msg] w1];
    [|reflexivity].
  destruct (exchange _ _ _ _ _ _) as [[r|msg] w2]; reflexivity.
Qed.

(** The handler on every other body: the world is left as it was. *)
Lemma handleVibeAccess_bad_body request env w :
  match req_body request with
  | BodyJsonObject (Some jwt) (Some mail) => Js.truthy jwt && Js.truthy mail
  | _ => false
  end = false ->
  exists r,
    handleVibeAccess host net request env w = (Ok r, w)
    /\ (resp_status r = 400%Z /\ resp_code r = Some "INVALID_BODY"
        \/ resp_status r = 500%Z /\ resp_code r = Some "INTERNAL_ERROR"
           /\ req_body request = BodyJsonNull).
Proof.
  unfold handleVibeAccess, try_catch, ret, throw.
  destruct (req_body request) as [raw| |[jwt|] [mail|]]; cbn;
    intros H; try (eexists; split; [reflexivity|]; cbn; auto; fail).
  - destruct (Js.truthy jwt); cbn in *; [rewrite H|]; cbn;
      eexists; split; try reflexivity; cbn; auto.
  - destruct (Js.truthy jwt); cbn; eexists; split; try reflexivity; cbn; auto.
Qed.

End Exchange.

(* ===================================================================== *)
(** * Replay protection *)
(* ===================================================================== *)

Section Replay.

Context (host : Host) (net : Network).

(** Whatever traffic is served, a recorded nonce stays recorded. *)
Lemma serve_keeps_seen requests w jti v :
  jwt_seen (VIBE_DB w) !! jti = Some v ->
  jwt_seen (VIBE_DB (serve host net requests w)) !! jti = Some v.
Proof.
  revert w. induction requests as [|[[t request] env] rest IH]; intros w Hv.
  - exact Hv.
  - cbn [serve fold_left fst snd]. apply IH.
    destruct (fetch host net request env (at_time t w)) as [o w'] eqn:E.
    destruct (seen_grows_fetch host net request env _ _ _ E)
      as (_ & _ & _ & Hsub).
    cbn [snd]. eapply lookup_weaken; [|exact Hsub]. exact Hv.
Qed.

(** Two successful verifications of one token return the same claims. *)
Lemma verifyFlexi_same_claims token url iss aud w1 p1 w1' w2 p2 w2' :
  verifyFlexiJWT_RS256 host net token url iss aud w1 = (Ok p1, w1') ->
  verifyFlexiJWT_RS256 host net token url iss aud w2 = (Ok p2, w2') ->
  p1 = p2.
Proof.
  intros H1 H2.
  apply verifyFlexi_ok in H1 as (? & ? & ? & ? & ? & ? & ? & ? & _ & _ & _ & D1 & _).
  apply verifyFlexi_ok in H2 as (? & ? & ? & ? & ? & ? & ? & ? & _ & _ & _ & D2 & _).
  congruence.
Qed.

(** An exchange that was denied by the user directory, or succeeded, had a
    verified assertion whose email matched, and left the nonce of that
    assertion on record. *)
Lemma settled_exchange_records request env jwt mail w1 r1 w1' :
  req_body request = BodyJsonObject (Some jwt) (Some mail) ->
  handleVibeAccess host net request env w1 = (Ok r1, w1') ->
  (resp_code r1 = Some "USER_NOT_ALLOWED"
   \/ resp_code r1 = Some "USER_SUSPENDED"
   \/ resp_status r1 = 204%Z) ->
  Js.truthy jwt = true /\ Js.truthy mail = true
  /\ exists p w1v,
      verifyFlexiJWT_RS256 host net jwt (FLEXI_JWKS_URL env) (FLEXI_ISS env)
        (FLEXI_AUD env) w1 = (Ok p, w1v)
      /\ emails_match host p mail = true
      /\ forall jti, fj_jti p = Some jti -> Js.truthy jti = true ->
                     is_Some (jwt_seen (VIBE_DB w1') !! jti).
Proof.
  intros Hb H1 Hr1.
  destruct (Js.truthy jwt && Js.truthy mail) eqn:Et.
  2:{ destruct (handleVibeAccess_bad_body host net request env w1)
        as (r & Hr & Hcode).
      { now rewrite Hb. }
      rewrite Hr in H1. inversion H1; subst.
      destruct Hcode as [[S C]|[S [C _]]]; rewrite ?S, ?C in Hr1;
        destruct Hr1 as [?|[?|?]]; discriminate. }
  apply andb_prop in Et as [Htj Htm].
  split; [exact Htj|]. split; [exact Htm|].
  rewrite (handleVibeAccess_object host net request env w1 jwt mail)
    in H1 by assumption.
  destruct (verifyFlexiJWT_RS256 host net jwt _ _ _ w1)
    as [[p|msg] w1v] eqn:Hv1.
  2:{ inversion H1; subst. destruct Hr1 as [?|[?|?]]; discriminate. }
  exists p, w1v. split; [reflexivity|].
  destruct (exchange host env (origin_of request) mail p w1v)
    as [[r|msg] wx] eqn:Hx.
  2:{ inversion H1; subst. destruct Hr1 as [?|[?|?]]; discriminate. }
  inversion H1; subst r wx.
  destruct (emails_match host p mail) eqn:Em.
  2:{ rewrite exchange_mismatch in Hx by assumption. inversion Hx; subst.
      destruct Hr1 as [?|[?|?]]; discriminate. }
  split; [reflexivity|].
  intros jti Ej Hj.
  destruct (jwt_seen (VIBE_DB w1v) !! jti) as [v|] eqn:Es.
  - rewrite (exchange_replayed host env _ mail p w1v jti) in Hx by eauto.
    inversion Hx; subst. cbn. rewrite Es. eauto.
  - rewrite (exchange_fresh host env _ mail p w1v jti) in Hx by auto.
    destruct (same_store_issue_session host env _ mail _ _ _ Hx) as [_ Hdb].
    rewrite Hdb, recorded_lookup. eauto.
Qed.

(** A token that decodes to claims is not the empty string. *)
Lemma decode_claims_truthy jwt p :
  decode_claims host jwt = Some p -> Js.truthy jwt = true.
Proof. destruct jwt; [cbn; discriminate | reflexivity]. Qed.

(** C1 -- The replay guard.  (1) For every nonce that is not on record,
    [markJtiSeen] answers [true] and records it; after that, and after any
    further traffic served at any times, every call with the same nonce
    answers [false].  (2) On [POST /auth/vibe-access], an exchange that
    presents, with a body email, an assertion whose nonce is on record never
    succeeds and leaves the database as it was: it is answered
    401 JWT_INVALID when the assertion does not verify (for instance because
    it has expired since), 401 EMAIL_MISMATCH when it verifies but the body
    email does not match its email claim, and 409 REPLAYED_JTI otherwise.
    (3) After an exchange that was denied by the user directory
    (USER_NOT_ALLOWED or USER_SUSPENDED) or succeeded (204), the nonce of its
    assertion is on record, and still is after any further traffic at any
    time: it was recorded before the user lookup ran.  (4) So the same
    request presented again, at a time at which its assertion still
    verifies, is answered 409 REPLAYED_JTI. *)
Theorem replayed_nonce_is_refused :
  (forall (jti : string) (w : World),
      jwt_seen (VIBE_DB w) !! jti = None ->
      markJtiSeen jti w = (Ok true, recorded jti w)
      /\ forall requests t,
          fst (markJtiSeen jti
                 (at_time t (serve host net requests (recorded jti w))))
          = Ok false)
  /\ (forall (request : Request) (env : SSOEnv) (jwt mail : string)
             (p : FlexiJWTPayload) (jti : string) (w : World),
        req_body request = BodyJsonObject (Some jwt) (Some mail) ->
        Js.truthy mail = true ->
        decode_claims host jwt = Some p ->
        fj_jti p = Some jti -> Js.truthy jti = true ->
        is_Some (jwt_seen (VIBE_DB w) !! jti) ->
        exists r w',
          handleVibeAccess host net request env w = (Ok r, w')
          /\ VIBE_DB w' = VIBE_DB w
          /\ match verifyFlexiJWT_RS256 host net jwt (FLEXI_JWKS_URL env)
                     (FLEXI_ISS env) (FLEXI_AUD env) w with
             | (Throw msg, _) =>
                 r = errorResponse "JWT_INVALID" "Invalid JWT" 401 (Some msg)
                       (origin_of request)
             | (Ok _, _) =>
                 if emails_match host p mail
                 then r = errorResponse "REPLAYED_JTI" "JWT replay detected"
                            409 (Some "This JWT has already been used")
                            (origin_of request)
                 else r = errorResponse "EMAIL_MISMATCH" "Email mismatch" 401
                            (Some "Email in body does not match JWT email claim")
                            (origin_of request)
             end)
  /\ (forall (request : Request) (env : SSOEnv) (jwt mail : string)
             (w1 w1' : World) (r1 : Response) (p : FlexiJWTPayload)
             (jti : string) (requests : list (Z * Request * SSOEnv)) (t : Z),
        req_body request = BodyJsonObject (Some jwt) (Some mail) ->
        handleVibeAccess host net request env w1 = (Ok r1, w1') ->
        (resp_code r1 = Some "USER_NOT_ALLOWED"
         \/ resp_code r1 = Some "USER_SUSPENDED"
         \/ resp_status r1 = 204%Z) ->
        decode_claims host jwt = Some p ->
        fj_jti p = Some jti -> Js.truthy jti = true ->
        is_Some (jwt_seen (VIBE_DB (at_time t (serve host net requests w1')))
                   !! jti))
  /\ (forall (request : Request) (env : SSOEnv) (jwt mail : string)
             (w1 w1' : World) (r1 : Response)
             (requests : list (Z * Request * SSOEnv)) (t : Z)
             (p2 : FlexiJWTPayload) (w2' : World),
        req_body request = BodyJsonObject (Some jwt) (Some mail) ->
        handleVibeAccess host net request env w1 = (Ok r1, w1') ->
        (resp_code r1 = Some "USER_NOT_ALLOWED"
         \/ resp_code r1 = Some "USER_SUSPENDED"
         \/ resp_status r1 = 204%Z) ->
        verifyFlexiJWT_RS256 host net jwt (FLEXI_JWKS_URL env) (FLEXI_ISS env)
          (FLEXI_AUD env) (at_time t (serve host net requests w1'))
        = (Ok p2, w2') ->
        Js.truthy_opt (fj_jti p2) = true ->
        handleVibeAccess host net request env
          (at_time t (serve host net requests w1'))
        = (Ok (errorResponse "REPLAYED_JTI" "JWT replay detected" 409
                 (Some "This JWT has already been used") (origin_of request)),
           logged (EvInsertJti (Js.show_opt (fj_jti p2))) w2')).
Proof.
  assert (Hsecond : forall request env jwt mail w1 w1' r1 requests t p2 w2',
             req_body request = BodyJsonObject (Some jwt) (Some mail) ->
             handleVibeAccess host net request env w1 = (Ok r1, w1') ->
             (resp_code r1 = Some "USER_NOT_ALLOWED"
              \/ resp_code r1 = Some "USER_SUSPENDED"
              \/ resp_status r1 = 204%Z) ->
             verifyFlexiJWT_RS256 host net jwt (FLEXI_JWKS_URL env)
               (FLEXI_ISS env) (FLEXI_AUD env)
               (at_time t (serve host net requests w1')) = (Ok p2, w2') ->
             Js.truthy_opt (fj_jti p2) = true ->
             handleVibeAccess host net request env
               (at_time t (serve host net requests w1'))
             = (Ok (errorResponse "REPLAYED_JTI" "JWT replay detected" 409
                      (Some "This JWT has already been used")
                      (origin_of request)),
                logged (EvInsertJti (Js.show_opt (fj_jti p2))) w2')).
  { intros request env jwt mail w1 w1' r1 requests t p2 w2' Hb H1 Hr1 Hv2 Hj.
    destruct (settled_exchange_records request env jwt mail w1 r1 w1' Hb H1 Hr1)
      as (Htj & Htm & p1 & w1v & Hv1 & Em & Hrec).
    assert (p1 = p2) by (eapply verifyFlexi_same_claims; eassumption).
    subst p1.
    destruct (fj_jti p2) as [jti|] eqn:Ej; [|discriminate].
    cbn [Js.truthy_opt Js.show_opt] in *.
    destruct (Hrec jti eq_refl Hj) as [v Hseen].
    rewrite (handleVibeAccess_object host net request env _ jwt mail)
      by assumption.
    rewrite Hv2.
    rewrite (exchange_replayed host env _ mail p2 w2' jti); auto.
    destruct (same_store_verifyFlexi host net _ _ _ _ _ _ _ Hv2) as [_ Hdb].
    rewrite Hdb. cbn [at_time VIBE_DB].
    erewrite serve_keeps_seen; eauto. }
  split; [|split; [|split]].
  - intros jti w Hnew. split; [now apply markJtiSeen_fresh|].
    intros requests t. rewrite markJtiSeen_seen; [reflexivity|].
    cbn [at_time VIBE_DB]. erewrite serve_keeps_seen; [eauto|].
    apply recorded_lookup.
  - intros request env jwt mail p jti w Hb Hm Hd Ej Hj Hseen.
    pose proof (decode_claims_truthy jwt p Hd) as Htj.
    rewrite (handleVibeAccess_object host net request env w jwt mail)
      by assumption.
    destruct (verifyFlexiJWT_RS256 host net jwt (FLEXI_JWKS_URL env)
                (FLEXI_ISS env) (FLEXI_AUD env) w) as [[p2|msg] wv] eqn:Hv;
      destruct (same_store_verifyFlexi host net _ _ _ _ _ _ _ Hv)
        as [_ Hdb].
    + assert (p2 = p).
      { apply verifyFlexi_ok in Hv
          as (? & ? & ? & ? & ? & ? & ? & ? & _ & _ & _ & Hd' & _).
        congruence. }
      subst p2.
      destruct (emails_match host p mail) eqn:Em.
      * rewrite (exchange_replayed host env _ mail p wv jti)
          by (auto; now rewrite Hdb).
        eexists _, _. split; [reflexivity|]. split; [exact Hdb|reflexivity].
      * rewrite exchange_mismatch by exact Em.
        eexists _, _. split; [reflexivity|]. split; [exact Hdb|reflexivity].
    + eexists _, _. split; [reflexivity|]. split; [exact Hdb|reflexivity].
  - intros request env jwt mail w1 w1' r1 p jti requests t Hb H1 Hr1 Hd Ej Hj.
    destruct (settled_exchange_records request env jwt mail w1 r1 w1' Hb H1 Hr1)
      as (_ & _ & p1 & w1v & Hv1 & _ & Hrec).
    assert (p1 = p).
    { apply verifyFlexi_ok in Hv1
        as (? & ? & ? & ? & ? & ? & ? & ? & _ & _ & _ & Hd' & _).
      congruence. }
    subst p1. destruct (Hrec jti Ej Hj) as [v Hv].
    exists v. cbn [at_time VIBE_DB]. now apply serve_keeps_seen.
  - exact Hsecond.
Qed.

End Replay.

(** The replay guard on the reference host: nonce [n1] is fresh in the
    initial world; the body email [A@b.com] matches the claim up to case but
    is not a key of the user table, so the first exchange is denied; the same
    request, replayed 100 seconds later after other traffic, meets 409. *)
Lemma replayed_nonce_is_refused_witness :
  let request := Demo.post_exchange Demo.assertion_n1 "A@b.com" in
  let traffic :=
    [(1700000050000%Z, Demo.get_protected "/app/x" None, Demo.env)] in
  (markJtiSeen "n1" Demo.world0 = (Ok true, recorded "n1" Demo.world0)
   /\ fst (markJtiSeen "n1"
             (at_time 1700000100000
                (serve Demo.host Demo.net traffic (recorded "n1" Demo.world0))))
      = Ok false)
  /\ option_map resp_code
       (match fst (handleVibeAccess Demo.host Demo.net request Demo.env
                     Demo.world0) with Ok r => Some r | Throw _ => None end)
     = Some (Some "USER_NOT_ALLOWED")
  /\ fst (handleVibeAccess Demo.host Demo.net request Demo.env
            (at_time 1700000100000
               (serve Demo.host Demo.net traffic
                  (snd (handleVibeAccess Demo.host Demo.net request Demo.env
                          Demo.world0)))))
     = Ok (errorResponse "REPLAYED_JTI" "JWT replay detected" 409
             (Some "This JWT has already been used") None).
Proof.
  cbv zeta.
  destruct (replayed_nonce_is_refused Demo.host Demo.net) as (A & _ & _ & B).
  split; [|split].
  - destruct (A "n1" Demo.world0 eq_refl) as [A1 A2]. split; [exact A1|].
    apply A2.
  - vm_compute. reflexivity.
  - erewrite (B (Demo.post_exchange Demo.assertion_n1 "A@b.com") Demo.env
                Demo.assertion_n1 "A@b.com" Demo.world0).
    + reflexivity.
    + reflexivity.
    + vm_compute. reflexivity.
    + left. vm_compute. reflexivity.
    + vm_compute. reflexivity.
    + vm_compute. reflexivity.
Defined.

(** A replay is not always answered 409.  On the reference host the
    scenario's assertion is exchanged successfully, which records its nonce
    [n1].  Presented again eleven minutes later, when it has expired, it is
    answered 401 JWT_INVALID; presented again at once with another body
    email, it is answered 401 EMAIL_MISMATCH. *)
Lemma replay_is_not_always_409 :
  let first :=
    handleVibeAccess Demo.host Demo.net
      (Demo.post_exchange Demo.assertion_n1 "a@b.com") Demo.env Demo.world0 in
  option_map resp_status
    (match fst first with Ok r => Some r | Throw _ => None end) = Some 204%Z
  /\ jwt_seen (VIBE_DB (snd first)) !! "n1" = Some 1700000000%Z
  /\ fst (handleVibeAccess Demo.host Demo.net
            (Demo.post_exchange Demo.assertion_n1 "a@b.com") Demo.env
            (at_time 1700000660000 (snd first)))
     = Ok (errorResponse "JWT_INVALID" "Invalid JWT" 401
             (Some "Token expired") None)
  /\ fst (handleVibeAccess Demo.host Demo.net
            (Demo.post_exchange Demo.assertion_n1 "x@y.com") Demo.env
            (snd first))
     = Ok (errorResponse "EMAIL_MISMATCH" "Email mismatch" 401
             (Some "Email in body does not match JWT email claim") None).
Proof. cbv zeta. repeat split; vm_compute; reflexivity. Qed.

(* ===================================================================== *)
(** * Order of the checks of the assertion verifier *)
(* ===================================================================== *)

Section CheckOrder.

Context (host : Host) (net : Network).

(** C2 (as the code has it) -- [verifyFlexiJWT_RS256] validates the claims
    before it fetches the key set and before it verifies the signature.
    (1) When the header and the claims decode and a claim check fails, the
    verifier throws that check's error and the world is exactly as before:
    no key set was fetched and no signature was verified.  (2) When the
    verifier returns the claim set, the claim checks have passed and the
    last thing it did was to verify the signature, successfully, with the
    key selected from the key set. *)
Theorem claims_checked_before_signature
    (token url iss aud : string) (w : World) :
  (forall header p msg,
      decode_header host token = Some header ->
      h_alg header = Some "RS256" ->
      decode_claims host token = Some p ->
      check_claims p iss aud (now w / 1000) w = (Throw msg, w) ->
      verifyFlexiJWT_RS256 host net token url iss aud w = (Throw msg, w))
  /\ (forall p w',
        verifyFlexiJWT_RS256 host net token url iss aud w = (Ok p, w') ->
        check_claims p iss aud (now w / 1000) w = (Ok tt, w)
        /\ exists header jwks jwk w1 h64 p64 s64 sig,
            parts token = Some (h64, p64, s64)
            /\ decode_header host token = Some header
            /\ getFlexiJWKS net url w = (Ok jwks, w1)
            /\ select_key header jwks = Some jwk
            /\ Base64.base64UrlDecode s64 = Some sig
            /\ rsa_verify host (key_data jwk) sig
                 (Js.TextEncoder_encode (String.append h64 (String "." p64)))
               = true
            /\ w' = logged (EvRsaVerify (key_data jwk)) w1).
Proof.
  split.
  - intros header p msg. apply verifyFlexi_claim_failure.
  - intros p w' H.
    apply verifyFlexi_ok in H
      as (header & jwks & jwk & w1 & h64 & p64 & s64 & sig
          & Hp & Hh & _ & _ & Hc & Hj & Hk & _ & Hs & Hv & ->).
    split; [exact Hc|].
    exists header, jwks, jwk, w1, h64, p64, s64, sig. repeat split; auto.
Qed.

End CheckOrder.

(** On the reference host: an assertion by issuer [mallory], signed with a
    key that is not in the key set.  The verifier reports the issuer and
    never looks at the signature. *)
Lemma claims_checked_before_signature_witness :
  let token :=
    Demo.issue (Demo.rs256 (Some "k1"))
      {| fj_iss := Some "mallory"; fj_aud := Some "vibe-handoff";
         fj_sub := Some "u1"; fj_email := Some "a@b.com";
         fj_exp := Some 1700000600%Z; fj_nbf := None; fj_iat := None;
         fj_jti := Some "n1" |} "not-a-key-of-the-set" in
  verifyFlexiJWT_RS256 Demo.host Demo.net token "https://flexi.example/jwks"
    "flexi" "vibe-handoff" Demo.world0
  = (Throw "Invalid issuer: mallory", Demo.world0).
Proof.
  cbv zeta.
  eapply (proj1 (claims_checked_before_signature Demo.host Demo.net _ _ _ _ _)).
  - vm_compute. reflexivity.
  - reflexivity.
  - vm_compute. reflexivity.
  - vm_compute. reflexivity.
Defined.

(** The claim as stated fails: here a claim-validation error is produced
    although no signature was verified (the trace of the verifier holds no
    signature check, and the signature of this assertion is not even
    valid). *)
Lemma signature_not_verified_first :
  let token :=
    Demo.issue (Demo.rs256 (Some "k1"))
      {| fj_iss := Some "mallory"; fj_aud := Some "vibe-handoff";
         fj_sub := Some "u1"; fj_email := Some "a@b.com";
         fj_exp := Some 1700000600%Z; fj_nbf := None; fj_iat := None;
         fj_jti := Some "n1" |} "not-a-key-of-the-set" in
  let result :=
    verifyFlexiJWT_RS256 Demo.host Demo.net token "https://flexi.example/jwks"
      "flexi" "vibe-handoff" Demo.world0 in
  fst result = Throw "Invalid issuer: mallory"
  /\ trace (snd result) = []
  /\ Forall (fun jwk =>
               match parts token with
               | Some (h64, p64, s64) =>
                   match Base64.base64UrlDecode s64 with
                   | Some sig =>
                       rsa_verify Demo.host (key_data jwk) sig
                         (Js.TextEncoder_encode
                            (String.append h64 (String "." p64))) = false
                   | None => True
                   end
               | None => True
               end) [Demo.key1; Demo.key2].
Proof.
  cbv zeta. split; [|split].
  - vm_compute. reflexivity.
  - vm_compute. reflexivity.
  - constructor; [vm_compute; reflexivity|].
    constructor; [vm_compute; reflexivity|]. constructor.
Qed.

(* ===================================================================== *)
(** * The failure codes of the exchange endpoint *)
(* ===================================================================== *)


Section FailureCodes.

Context (host : Host) (net : Network).

Ltac listed := right; eexists; split; [reflexivity | cbn; tauto].

Lemma issue_session_documented env origin mail w r w' :
  issue_session host env origin mail w = (Ok r, w') -> documented r.
Proof.
  destruct (sso_users (VIBE_DB w) !! mail) as [c|] eqn:Eu.
  - destruct (decide (col_status c = "suspended")) as [Hs|Hs].
    + rewrite (issue_session_suspended host env _ mail _ c Eu Hs).
      intros H; inversion H; subst. listed.
    + rewrite (issue_session_active host env _ mail _ c Eu Hs).
      destruct (signVibeAccessHS256 _ _ _ _ _) as [[tok|m] ws];
        intros H; inversion H; subst. left. split; reflexivity.
  - rewrite (issue_session_unknown host env _ mail _ Eu).
    intros H; inversion H; subst. listed.
Qed.

Lemma exchange_documented env origin mail p w r w' :
  exchange host env origin mail p w = (Ok r, w') -> documented r.
Proof.
  destruct (emails_match host p mail) eqn:Em.
  - destruct (Js.truthy_opt (fj_jti p)) eqn:Et.
    + destruct (fj_jti p) as [jti|] eqn:Ej; [|discriminate]. cbn in Et.
      destruct (jwt_seen (VIBE_DB w) !! jti) as [v|] eqn:Es.
      * rewrite (exchange_replayed host env _ mail p w jti) by eauto.
        intros H; inversion H; subst. listed.
      * rewrite (exchange_fresh host env _ mail p w jti) by auto.
        apply issue_session_documented.
    + rewrite exchange_no_jti by assumption. apply issue_session_documented.
  - rewrite exchange_mismatch by assumption.
    intros H; inversion H; subst. listed.
Qed.

(** The handler always answers, and only with the success or one of the
    seven documented failures. *)
Lemma handleVibeAccess_documented request env w :
  exists r w',
    handleVibeAccess host net request env w = (Ok r, w') /\ documented r.
Proof.
  destruct (match req_body request with
            | BodyJsonObject (Some jwt) (Some mail) =>
                Js.truthy jwt && Js.truthy mail
            | _ => false
            end) eqn:Eb.
  - destruct (req_body request) as [| |[jwt|] [mail|]] eqn:Hb;
      try discriminate.
    apply andb_prop in Eb as [Hj Hm].
    rewrite (handleVibeAccess_object host net request env w jwt mail)
      by assumption.
    destruct (verifyFlexiJWT_RS256 _ _ _ _ _ _ _) as [[p|msg] w1].
    + destruct (exchange host env (origin_of request) mail p w1)
        as [[r|msg] w2] eqn:Hx.
      * exists r, w2. split; [reflexivity|].
        eapply exchange_documented, Hx.
      * eexists _, w2. split; [reflexivity|]. listed.
    + eexists _, w1. split; [reflexivity|]. listed.
  - destruct (handleVibeAccess_bad_body host net request env w Eb)
      as (r & Hr & Hc).
    exists r, w. split; [exact Hr|].
    right. unfold failure_of. unfold resp_code in Hc.
    destruct (resp_body r) as [|err| | | | |];
      try (destruct Hc as [[_ C]|[_ [C _]]]; discriminate).
    destruct Hc as [[S C]|[S [C _]]]; rewrite S; injection C as C;
      eexists; (split; [reflexivity|]); rewrite C; cbn; tauto.
Qed.

(** C3 (as the code has it) -- Every response of the handler of
    [POST /auth/vibe-access] is the success (204) or carries exactly one of
    the seven documented failures.  In front of the handler, the entry point
    answers an [Origin] outside the allow-list with 403 FORBIDDEN and a
    declared content type that does not include [application/json] with
    400 INVALID_CONTENT_TYPE, both without running the handler; every other
    request on this route is answered by the handler. *)
Theorem exchange_failure_codes (request : Request) (env : SSOEnv) (w : World) :
  (exists r w',
      handleVibeAccess host net request env w = (Ok r, w') /\ documented r)
  /\ (req_pathname request = "/auth/vibe-access" ->
      req_method request = "POST" ->
      match handleCORS request with
      | Some refusal =>
          fetch host net request env w = (Ok refusal, w)
          /\ failure_of refusal = Some (403%Z, "FORBIDDEN")
      | None =>
          if content_type_json request
          then fetch host net request env w
               = handleVibeAccess host net request env w
          else exists refusal,
              fetch host net request env w = (Ok refusal, w)
              /\ failure_of refusal = Some (400%Z, "INVALID_CONTENT_TYPE")
      end).
Proof.
  split; [apply handleVibeAccess_documented|].
  intros Hp Hm. unfold fetch. rewrite Hp, Hm. cbn [String.eqb negb andb].
  change (String.eqb "/auth/vibe-access" "/migrate") with false.
  change (String.eqb "/auth/vibe-access" "/auth/health") with false.
  change (String.eqb "/auth/vibe-access" "/auth/vibe-access") with true.
  change (String.eqb "POST" "POST") with true.
  cbn [negb andb].
  destruct (handleCORS request) as [refusal|] eqn:Ec.
  - split; [reflexivity|].
    unfold handleCORS in Ec.
    destruct (header_origin request) as [o|]; [|discriminate].
    destruct (Js.truthy o); cbn [negb] in Ec; [|discriminate].
    destruct (origin_allowed o); cbn [negb] in Ec.
    + rewrite Hm in Ec. change (String.eqb "POST" "OPTIONS") with false in Ec.
      discriminate.
    + inversion Ec; subst. reflexivity.
  - destruct (content_type_json request); cbn [negb]; [reflexivity|].
    eexists. split; reflexivity.
Qed.

End FailureCodes.

(** On the reference host: a well-formed exchange is answered by the
    handler with the success, which is a documented response. *)
Lemma exchange_failure_codes_witness :
  let request := Demo.post_exchange Demo.assertion_n1 "a@b.com" in
  handleCORS request = None
  /\ content_type_json request = true
  /\ fetch Demo.host Demo.net request Demo.env Demo.world0
     = handleVibeAccess Demo.host Demo.net request Demo.env Demo.world0.
Proof.
  cbv zeta.
  pose proof (proj2 (exchange_failure_codes Demo.host Demo.net
                       (Demo.post_exchange Demo.assertion_n1 "a@b.com")
                       Demo.env Demo.world0) eq_refl eq_refl) as H.
  assert (Hc : handleCORS (Demo.post_exchange Demo.assertion_n1 "a@b.com")
               = None) by (vm_compute; reflexivity).
  assert (Hj : content_type_json
                 (Demo.post_exchange Demo.assertion_n1 "a@b.com") = true)
    by (vm_compute; reflexivity).
  rewrite Hc, Hj in H. auto.
Defined.

(** The claim as stated fails: a request on the route whose declared
    content type is [text/plain] is answered 400 INVALID_CONTENT_TYPE, which
    is none of the documented failures. *)
Lemma content_type_failure_is_not_documented :
  let request :=
    {| req_method := "POST"; req_pathname := "/auth/vibe-access";
       req_search := "";
       req_headers := <["content-type" := "text/plain"]> ∅;
       req_body := BodyJsonObject (Some Demo.assertion_n1) (Some "a@b.com") |} in
  exists r,
    fetch Demo.host Demo.net request Demo.env Demo.world0 = (Ok r, Demo.world0)
    /\ failure_of r = Some (400%Z, "INVALID_CONTENT_TYPE")
    /\ ~ In (400%Z, "INVALID_CONTENT_TYPE") documented_failures
    /\ ~ documented r.
Proof.
  cbv zeta. eexists. split; [vm_compute; reflexivity|].
  split; [reflexivity|].
  assert (Hn : ~ In (400%Z, "INVALID_CONTENT_TYPE") documented_failures).
  { cbn. intros H. repeat (destruct H as [H|H]; [discriminate H|]). exact H. }
  split; [exact Hn|].
  intros [[S _]|(f & Hf & Hin)]; [discriminate S|].
  cbn in Hf. inversion Hf; subst. exact (Hn Hin).
Qed.

(* ===================================================================== *)
(** * Key selection *)
(* ===================================================================== *)

Section KeySelection.

Context (host : Host) (net : Network).

Lemma select_key_named header jwks :
  Js.truthy_opt (h_kid header) = true ->
  select_key header jwks
  = List.find (fun k => bool_decide (jwk_kid k = h_kid header)) (keys jwks).
Proof. unfold select_key. now intros ->. Qed.

Lemma select_key_named_some header jwks jwk :
  Js.truthy_opt (h_kid header) = true ->
  select_key header jwks = Some jwk ->
  In jwk (keys jwks) /\ jwk_kid jwk = h_kid header.
Proof.
  intros Hk. rewrite select_key_named by assumption. intros Hf.
  apply find_some in Hf as [Hin Heq]. split; [exact Hin|].
  now apply bool_decide_eq_true_1 in Heq.
Qed.

Lemma select_key_named_none header jwks :
  Js.truthy_opt (h_kid header) = true ->
  (forall k, In k (keys jwks) -> jwk_kid k <> h_kid header) ->
  select_key header jwks = None.
Proof.
  intros Hk Hno.
  destruct (select_key header jwks) as [jwk|] eqn:E; [|reflexivity].
  destruct (select_key_named_some _ _ _ Hk E) as [Hin Heq].
  now destruct (Hno jwk Hin).
Qed.

(** C5 (as the code has it) -- Key selection.  (1) When the header names
    a non-empty key-id, the selected key is the first key of the key set
    with exactly that key-id: it belongs to the set and carries the key-id;
    when the set has no such key, no key is selected.  (2) Without a key-id
    hint, or with an empty one, the first key of the set is selected.
    (3) A verification that succeeds has checked the signature with the key
    selected in this way from the key set [getFlexiJWKS] returned.  (4) An
    exchange whose assertion names a non-empty key-id that no key of that key
    set carries is answered 401 JWT_INVALID. *)
Theorem key_selection :
  (forall header jwks,
      Js.truthy_opt (h_kid header) = true ->
      select_key header jwks
      = List.find (fun k => bool_decide (jwk_kid k = h_kid header)) (keys jwks)
      /\ (forall jwk, select_key header jwks = Some jwk ->
                      In jwk (keys jwks) /\ jwk_kid jwk = h_kid header)
      /\ ((forall k, In k (keys jwks) -> jwk_kid k <> h_kid header) ->
          select_key header jwks = None))
  /\ (forall header jwks,
        Js.truthy_opt (h_kid header) = false ->
        select_key header jwks = head (keys jwks))
  /\ (forall token url iss aud w p w',
        verifyFlexiJWT_RS256 host net token url iss aud w = (Ok p, w') ->
        exists header jwks jwk w1,
          decode_header host token = Some header
          /\ getFlexiJWKS net url w = (Ok jwks, w1)
          /\ select_key header jwks = Some jwk
          /\ w' = logged (EvRsaVerify (key_data jwk)) w1)
  /\ (forall request env w jwt mail header,
        req_body request = BodyJsonObject (Some jwt) (Some mail) ->
        Js.truthy jwt = true -> Js.truthy mail = true ->
        decode_header host jwt = Some header ->
        Js.truthy_opt (h_kid header) = true ->
        (forall jwks w1,
            getFlexiJWKS net (FLEXI_JWKS_URL env) w = (Ok jwks, w1) ->
            forall k, In k (keys jwks) -> jwk_kid k <> h_kid header) ->
        exists msg w',
          handleVibeAccess host net request env w
          = (Ok (errorResponse "JWT_INVALID" "Invalid JWT" 401 (Some msg)
                   (origin_of request)), w')).
Proof.
  split; [|split; [|split]].
  - intros header jwks Hk. split; [|split].
    + now apply select_key_named.
    + intros jwk. now apply select_key_named_some.
    + now apply select_key_named_none.
  - intros header jwks Hk. unfold select_key. now rewrite Hk.
  - intros token url iss aud w p w' H.
    apply verifyFlexi_ok in H
      as (header & jwks & jwk & w1 & h64 & p64 & s64 & sig
          & _ & Hh & _ & _ & _ & Hj & Hk & _ & _ & _ & ->).
    exists header, jwks, jwk, w1. auto.
  - intros request env w jwt mail header Hb Hj Hm Hh Hk Hno.
    rewrite (handleVibeAccess_object host net request env w jwt mail)
      by assumption.
    destruct (verifyFlexiJWT_RS256 _ _ _ _ _ _ _) as [[p|msg] w1] eqn:Hv.
    + exfalso.
      apply verifyFlexi_ok in Hv
        as (header' & jwks & jwk & w1' & h64 & p64 & s64 & sig
            & _ & Hh' & _ & _ & _ & Hjw & Hsel & _).
      assert (header' = header) by congruence. subst header'.
      destruct (select_key_named_some _ _ _ Hk Hsel) as [Hin Heq].
      exact (Hno jwks w1' Hjw jwk Hin Heq).
    + eauto.
Qed.

End KeySelection.

(** On the reference host, whose key set holds [k1] and [k2]: the hint [k2]
    selects the second key, no hint selects the first, and an assertion
    naming [k9] is refused with 401 although its signature would verify
    under the first key. *)
Lemma key_selection_witness :
  select_key (Demo.rs256 (Some "k2")) {| keys := [Demo.key1; Demo.key2] |}
  = Some Demo.key2
  /\ select_key (Demo.rs256 (Some "k9")) {| keys := [Demo.key1; Demo.key2] |}
     = None
  /\ select_key (Demo.rs256 None) {| keys := [Demo.key1; Demo.key2] |}
     = Some Demo.key1
  /\ exists msg w',
      handleVibeAccess Demo.host Demo.net
        (Demo.post_exchange Demo.assertion_k9 "a@b.com")
        Demo.env Demo.world0
      = (Ok (errorResponse "JWT_INVALID" "Invalid JWT" 401 (Some msg) None),
         w').
Proof.
  destruct (key_selection Demo.host Demo.net) as (A & B & _ & D).
  split; [|split; [|split]].
  - destruct (A (Demo.rs256 (Some "k2")) {| keys := [Demo.key1; Demo.key2] |}
                eq_refl) as (-> & _). vm_compute. reflexivity.
  - apply (A (Demo.rs256 (Some "k9")) {| keys := [Demo.key1; Demo.key2] |}
             eq_refl).
    intros k [<-|[<-|[]]]; discriminate.
  - rewrite (B (Demo.rs256 None)) by reflexivity. reflexivity.
  - destruct (D (Demo.post_exchange Demo.assertion_k9 "a@b.com")
                Demo.env Demo.world0 Demo.assertion_k9 "a@b.com"
                (Demo.rs256 (Some "k9")))
      as (msg & w' & H).
    + reflexivity.
    + vm_compute. reflexivity.
    + reflexivity.
    + vm_compute. reflexivity.
    + reflexivity.
    + intros jwks w1 Hj.
      assert (Hk : jwks = {| keys := [Demo.key1; Demo.key2] |}).
      { vm_compute in Hj. now inversion Hj. }
      subst jwks. intros k [<-|[<-|[]]]; discriminate.
    + exists msg, w'. exact H.
Defined.

(** The claim as stated fails: a header that names the empty key-id is
    treated as carrying no hint.  No key of the set has the key-id [""],
    yet the first key is selected and the exchange succeeds. *)
Lemma empty_key_id_falls_back :
  decode_header Demo.host Demo.assertion_empty_kid
  = Some {| h_alg := Some "RS256"; h_kid := Some "" |}
  /\ Forall (fun k => jwk_kid k <> Some "") [Demo.key1; Demo.key2]
  /\ select_key {| h_alg := Some "RS256"; h_kid := Some "" |}
       {| keys := [Demo.key1; Demo.key2] |} = Some Demo.key1
  /\ option_map resp_status
       (match fst (handleVibeAccess Demo.host Demo.net
                     (Demo.post_exchange Demo.assertion_empty_kid "a@b.com")
                     Demo.env Demo.world0)
        with Ok r => Some r | Throw _ => None end)
     = Some 204%Z.
Proof.
  split; [vm_compute; reflexivity|].
  split; [repeat constructor; discriminate|].
  split; [reflexivity|]. vm_compute. reflexivity.
Qed.

(* ===================================================================== *)
(** * Claims validation *)
(* ===================================================================== *)


Section ClaimsValidation.

Context (host : Host) (net : Network).

(** The code agrees with the validator on every assertion whose expiry is
    not the number 0, at every time from the epoch on. *)
Lemma check_claims_validate p iss aud t w :
  fj_exp p <> Some 0%Z -> (0 <= t)%Z ->
  check_claims p iss aud t w = (validate_claims p iss aud t, w).
Proof.
  intros Hexp Ht.
  unfold check_claims, validate_claims, claim_checks, ret, throw.
  cbn [List.find check_passes check_error].
  destruct (bool_decide (fj_iss p = Some iss)); cbn [negb]; [|reflexivity].
  destruct (bool_decide (fj_aud p = Some aud)); cbn [negb]; [|reflexivity].
  assert (Ee : Js.truthy_num (fj_exp p) && (default 0 (fj_exp p) <? t)%Z
               = negb match fj_exp p with
                      | Some e => (t <=? e)%Z | None => true end).
  { destruct (fj_exp p) as [e|]; cbn; [|reflexivity].
    destruct (Z.eqb_spec e 0) as [->|Hne]; [congruence|]. cbn.
    now rewrite Z.ltb_antisym. }
  rewrite Ee.
  destruct (match fj_exp p with Some e => (t <=? e)%Z | None => true end);
    cbn [negb]; [|reflexivity].
  assert (En : Js.truthy_num (fj_nbf p) && (t <? default 0 (fj_nbf p))%Z
               = negb match fj_nbf p with
                      | Some n => (n <=? t)%Z | None => true end).
  { destruct (fj_nbf p) as [n|]; cbn; [|reflexivity].
    destruct (Z.eqb_spec n 0) as [->|Hne]; cbn.
    - symmetry. apply negb_false_iff. now apply Z.leb_le.
    - now rewrite Z.ltb_antisym. }
  rewrite En.
  destruct (match fj_nbf p with Some n => (n <=? t)%Z | None => true end);
    cbn [negb]; [|reflexivity].
  destruct (fj_email p) as [m|]; cbn; [|reflexivity].
  destruct (Js.truthy m); reflexivity.
Qed.

(** An expiry that is nonzero and in the past never passes the checks. *)
Lemma check_claims_expired p iss aud t w e :
  fj_exp p = Some e -> e <> 0%Z -> (e < t)%Z ->
  exists msg, check_claims p iss aud t w = (Throw msg, w).
Proof.
  intros He Hne Hlt. unfold check_claims, ret, throw. rewrite He. cbn.
  destruct (Z.eqb_spec e 0) as [|_]; [contradiction|].
  apply Z.ltb_lt in Hlt. rewrite Hlt. cbn.
  destruct (bool_decide (fj_iss p = Some iss)); cbn; eauto.
  destruct (bool_decide (fj_aud p = Some aud)); cbn; eauto.
Qed.

(** C6 (as the code has it) -- Claims validation.  (1) On every assertion
    whose expiry is not the number 0, the claim checks of the verifier are
    the validator above: issuer, audience, expiry not in the past (when
    present), not-before not in the future (when present), email present and
    non-empty, in this order, the first failing check aborting with the
    error that names its claim.  (2) Every exchange whose assertion decodes
    to claims with a nonzero expiry in the past is answered 401
    (JWT_INVALID), whatever its header and signature are. *)
Theorem claims_validated_in_order :
  (forall p iss aud t w,
      fj_exp p <> Some 0%Z -> (0 <= t)%Z ->
      check_claims p iss aud t w = (validate_claims p iss aud t, w))
  /\ (forall request env w jwt mail p e,
        req_body request = BodyJsonObject (Some jwt) (Some mail) ->
        Js.truthy jwt = true -> Js.truthy mail = true ->
        decode_claims host jwt = Some p ->
        fj_exp p = Some e -> e <> 0%Z -> (e < now w / 1000)%Z ->
        exists msg w',
          handleVibeAccess host net request env w
          = (Ok (errorResponse "JWT_INVALID" "Invalid JWT" 401 (Some msg)
                   (origin_of request)), w')).
Proof.
  split; [apply check_claims_validate|].
  intros request env w jwt mail p e Hb Hj Hm Hd He Hne Hlt.
  rewrite (handleVibeAccess_object host net request env w jwt mail)
    by assumption.
  destruct (verifyFlexiJWT_RS256 _ _ _ _ _ _ _) as [[p'|msg] w1] eqn:Hv;
    [exfalso|eauto].
  apply verifyFlexi_ok in Hv
    as (? & ? & ? & ? & ? & ? & ? & ? & _ & _ & _ & Hd' & Hc & _).
  assert (p' = p) by congruence. subst p'.
  destruct (check_claims_expired p (FLEXI_ISS env) (FLEXI_AUD env)
              (now w / 1000) w e He Hne Hlt) as [msg Hx].
  congruence.
Qed.

End ClaimsValidation.

(** On the reference host: claims that expired one second ago fail the
    expiry check, third in order, and the exchange of such an assertion is
    refused with 401 although its signature is not valid either. *)
Lemma claims_validated_in_order_witness :
  check_claims (Demo.claims "a@b.com" (Some 1699999999%Z) None)
    "flexi" "vibe-handoff" 1700000000 Demo.world0
  = (Throw "Token expired", Demo.world0)
  /\ exists msg w',
      handleVibeAccess Demo.host Demo.net
        (Demo.post_exchange Demo.assertion_expired_forged "a@b.com")
        Demo.env Demo.world0
      = (Ok (errorResponse "JWT_INVALID" "Invalid JWT" 401 (Some msg) None),
         w').
Proof.
  destruct (claims_validated_in_order Demo.host Demo.net) as [A B].
  split.
  - rewrite A; [reflexivity | discriminate | lia].
  - destruct (B (Demo.post_exchange Demo.assertion_expired_forged "a@b.com")
                Demo.env Demo.world0 Demo.assertion_expired_forged "a@b.com"
                (Demo.claims "a@b.com" (Some 1699999999%Z) None)
                1699999999%Z)
      as (msg & w' & H).
    + reflexivity.
    + vm_compute. reflexivity.
    + reflexivity.
    + vm_compute. reflexivity.
    + reflexivity.
    + discriminate.
    + vm_compute. reflexivity.
    + exists msg, w'. exact H.
Defined.

(** The claim as stated fails twice.  An assertion whose expiry is the
    current second is not "in the future" and is accepted; an assertion whose
    expiry is 0, long in the past, is read as carrying no expiry and is
    accepted too: both exchanges end in 204. *)
Lemma expiry_check_is_lenient :
  let status_of request :=
    option_map resp_status
      (match fst (handleVibeAccess Demo.host Demo.net request Demo.env
                    Demo.world0)
       with Ok r => Some r | Throw _ => None end) in
  (now Demo.world0 / 1000 = 1700000000)%Z
  /\ option_map fj_exp (decode_claims Demo.host Demo.assertion_expiring_now)
     = Some (Some 1700000000%Z)
  /\ status_of (Demo.post_exchange Demo.assertion_expiring_now "a@b.com")
     = Some 204%Z
  /\ option_map fj_exp (decode_claims Demo.host Demo.assertion_exp_zero)
     = Some (Some 0%Z)
  /\ status_of (Demo.post_exchange Demo.assertion_exp_zero "a@b.com")
     = Some 204%Z.
Proof. cbv zeta. repeat split; vm_compute; reflexivity. Qed.

(* ===================================================================== *)
(** * The protected route gateway *)
(* ===================================================================== *)

Section Gateway.

Context (host : Host) (net : Network).

Lemma session_cookie_absent request env :
  req_headers request !! "cookie" = None -> session_cookie host request env = None.
Proof.
  intros Hc. unfold session_cookie, parseCookies. rewrite Hc.
  now rewrite lookup_empty.
Qed.

(** A token signed under another secret fails the signature check. *)
Lemma verify_other_secret (p : VibeAccessPayload) (secret secret' : string)
    (h : JoseHeader) (w : World) :
  hmac_importKey host (Js.TextEncoder_encode secret) = true ->
  JSON_parse_header host (header_bytes host) = Some h ->
  h_alg h = Some "HS256" ->
  hmac_sha256 host (Js.TextEncoder_encode secret')
    (Js.TextEncoder_encode (signing_input host p))
  <> hmac_sha256 host (Js.TextEncoder_encode secret)
       (Js.TextEncoder_encode (signing_input host p)) ->
  verifyVibeAccessHS256 host (compact host p secret') secret w
  = (Throw "Invalid signature", w).
Proof.
  intros Hk Hh Halg Hmac.
  unfold verifyVibeAccessHS256, compact, signing_input.
  rewrite split_compact.
  unfold bind. rewrite base64UrlDecode_encoded.
  fold (header_bytes host). rewrite Hh. cbn [or_throw ret]. rewrite Halg.
  rewrite bool_decide_eq_true_2 by reflexivity. cbn [negb].
  unfold importHmacKey. rewrite Hk. cbn [ret].
  rewrite base64UrlDecode_encoded.
  rewrite bool_decide_eq_false_2 by exact Hmac. reflexivity.
Qed.

(** The gateway when the verifier rejects the cookie, whatever the reason. *)
Lemma handleProtected_rejected request env w token msg w1 :
  session_cookie host request env = Some token ->
  verifyVibeAccessHS256 host token (VIBE_ACCESS_SECRET env) w = (Throw msg, w1) ->
  handleProtected host net request env w
  = (Ok (errorResponse "NO_SESSION" "Unauthorized" 401 (Some msg) None), w).
Proof.
  intros Hc Hv. unfold handleProtected. rewrite Hc.
  unfold try_catch, bind. rewrite Hv.
  pose proof (preserves_verifyVibe host unchanged token
                (VIBE_ACCESS_SECRET env) _ _ _ Hv) as ->.
  reflexivity.
Qed.

(** X3 -- The same [catch] also receives an exception of the upstream call: a
    request with a valid session whose proxied call is rejected by the
    network is answered 401 NO_SESSION too, after the call was made. *)
Lemma gateway_upstream_failure request env w token p msg :
  session_cookie host request env = Some token ->
  verifyVibeAccessHS256 host token (VIBE_ACCESS_SECRET env) w = (Ok p, w) ->
  String.eqb (req_method request) "GET" = false ->
  (forall px, net_proxy net px = inl msg) ->
  handleProtected host net request env w
  = (Ok (errorResponse "NO_SESSION" "Unauthorized" 401 (Some msg) None),
     logged (EvUpstream (req_method request)
               (String.append (VIBE_ORIGIN env)
                  (String.append (req_pathname request)
                                 (req_search request)))) w).
Proof.
  intros Hc Hv Hm Hdown. unfold handleProtected. rewrite Hc.
  unfold try_catch, bind. rewrite Hv. rewrite Hm, andb_false_r.
  unfold proxy, bind, emit. cbn. rewrite Hdown. reflexivity.
Qed.

(** Every error of the session verifier. *)
Lemma verifyVibe_messages token secret w msg w1 :
  verifyVibeAccessHS256 host token secret w = (Throw msg, w1) ->
  In msg ["Invalid JWT format"; "InvalidCharacterError"; "SyntaxError";
          "DataError"; "Invalid signature"; "Token expired"]
  \/ exists alg', msg = String.append "Unsupported algorithm: " alg'.
Proof.
  unfold verifyVibeAccessHS256.
  destruct (Js.split "." token) as [|h64 [|p64 [|s64 [|]]]];
    try (intros H; inversion H; left; cbn; tauto).
  unfold bind, base64UrlDecode, or_throw, importHmacKey, Date_now, ret, throw.
  destruct (Base64.base64UrlDecode h64) as [hb|];
    [|intros H; inversion H; left; cbn; tauto].
  destruct (JSON_parse_header host hb) as [header|];
    [|intros H; inversion H; left; cbn; tauto].
  destruct (bool_decide (h_alg header = Some "HS256")); cbn [negb];
    [|intros H; inversion H; right; eauto].
  destruct (hmac_importKey host (Js.TextEncoder_encode secret));
    [|intros H; inversion H; left; cbn; tauto].
  destruct (Base64.base64UrlDecode s64) as [sig|];
    [|intros H; inversion H; left; cbn; tauto].
  destruct (bool_decide (sig = _)); cbn [negb];
    [|intros H; inversion H; left; cbn; tauto].
  destruct (Base64.base64UrlDecode p64) as [pb|];
    [|intros H; inversion H; left; cbn; tauto].
  destruct (JSON_parse_vibe host pb) as [payload|];
    [|intros H; inversion H; left; cbn; tauto].
  destruct (Js.less_than (va_exp payload) (now w / 1000)%Z);
    intros H; inversion H; left; cbn; tauto.
Qed.

(** None of them is the text the gateway uses for a missing cookie. *)
Lemma verifyVibe_message_differs token secret w msg w1 :
  verifyVibeAccessHS256 host token secret w = (Throw msg, w1) ->
  msg <> "No session cookie found".
Proof.
  intros H. apply verifyVibe_messages in H as [H|[alg' ->]].
  - cbn in H. intuition (subst; discriminate).
  - discriminate.
Qed.

(** C7 -- The unauthorized path of the gateway.  (1) A request without a
    Cookie header has no session cookie.  (2) Without a session cookie the
    gateway answers 401 NO_SESSION, "Unauthorized", with the message "No
    session cookie found".  (3) With a cookie the verifier rejects, for
    whatever reason, it answers 401 NO_SESSION, "Unauthorized", as well: the
    same status, code and error label, with the verifier's error as the
    message, which is never the text of case (2); so the two cases are told
    apart by the message and by nothing else.  In both cases the world is
    returned exactly as it was: nothing was sent upstream and no state
    changed.  (4), (5) A cookie signed under another secret and an expired
    cookie are such rejected cookies, with the messages "Invalid signature"
    and "Token expired".  (6) Requests under the protected prefix that pass
    the origin guard and are none of the fixed routes reach this gateway. *)
Theorem gateway_unauthorized (request : Request) (env : SSOEnv) (w : World) :
  (req_headers request !! "cookie" = None ->
   session_cookie host request env = None)
  /\ (session_cookie host request env = None ->
      handleProtected host net request env w
      = (Ok {| resp_status := 401;
               resp_headers := [("Content-Type", "application/json")];
               resp_body :=
                 ErrorBody {| error := "Unauthorized"; code := "NO_SESSION";
                              message := Some "No session cookie found" |} |},
         w))
  /\ (forall token msg w1,
        session_cookie host request env = Some token ->
        verifyVibeAccessHS256 host token (VIBE_ACCESS_SECRET env) w
        = (Throw msg, w1) ->
        handleProtected host net request env w
        = (Ok {| resp_status := 401;
                 resp_headers := [("Content-Type", "application/json")];
                 resp_body :=
                   ErrorBody {| error := "Unauthorized"; code := "NO_SESSION";
                                message := Some msg |} |},
           w)
        /\ msg <> "No session cookie found")
  /\ (forall p secret' h,
        hmac_importKey host (Js.TextEncoder_encode (VIBE_ACCESS_SECRET env))
        = true ->
        JSON_parse_header host (header_bytes host) = Some h ->
        h_alg h = Some "HS256" ->
        hmac_sha256 host (Js.TextEncoder_encode secret')
          (Js.TextEncoder_encode (signing_input host p))
        <> hmac_sha256 host (Js.TextEncoder_encode (VIBE_ACCESS_SECRET env))
             (Js.TextEncoder_encode (signing_input host p)) ->
        session_cookie host request env = Some (compact host p secret') ->
        handleProtected host net request env w
        = (Ok (errorResponse "NO_SESSION" "Unauthorized" 401
                 (Some "Invalid signature") None), w))
  /\ (forall p h expiry,
        hmac_importKey host (Js.TextEncoder_encode (VIBE_ACCESS_SECRET env))
        = true ->
        JSON_parse_header host (header_bytes host) = Some h ->
        h_alg h = Some "HS256" ->
        JSON_parse_vibe host (payload_bytes host p) = Some p ->
        va_exp p = Some expiry ->
        (expiry < now w / 1000)%Z ->
        session_cookie host request env
        = Some (compact host p (VIBE_ACCESS_SECRET env)) ->
        handleProtected host net request env w
        = (Ok (errorResponse "NO_SESSION" "Unauthorized" 401
                 (Some "Token expired") None), w))
  /\ (handleCORS request = None ->
      ~ In (req_pathname request)
           ["/auth/vibe-access"; "/auth/me"; "/auth/logout"; "/auth/health";
            "/migrate"] ->
      Js.startsWith
        (if Js.truthy (PROTECTED_PREFIX env) then PROTECTED_PREFIX env
         else "/app/") (req_pathname request) = true ->
      fetch host net request env w = handleProtected host net request env w).
Proof.
  split; [apply session_cookie_absent|].
  split.
  { intros Hc. unfold handleProtected. now rewrite Hc. }
  split.
  { intros token msg w1 Hc Hv. split.
    - now apply handleProtected_rejected with (token := token) (w1 := w1).
    - now apply verifyVibe_message_differs in Hv. }
  split.
  { intros p secret' h Hk Hh Halg Hmac Hc.
    eapply handleProtected_rejected; [exact Hc|].
    now apply verify_other_secret with (h := h). }
  split.
  { intros p h expiry Hk Hh Halg Hp He Hexp Hc.
    eapply handleProtected_rejected; [exact Hc|].
    rewrite (verify_compact host p _ h w Hk Hh Halg Hp), He.
    cbn [Js.less_than]. apply Z.ltb_lt in Hexp. now rewrite Hexp. }
  intros Hcors Hroute Hprefix. unfold fetch. rewrite Hcors.
  assert (Hne : forall r, In r ["/auth/vibe-access"; "/auth/me"; "/auth/logout";
                                "/auth/health"; "/migrate"] ->
                          String.eqb (req_pathname request) r = false).
  { intros r Hr. apply String.eqb_neq. intros E. apply Hroute. now rewrite E. }
  rewrite !Hne by (cbn; tauto). cbn [andb negb].
  now rewrite Hprefix.
Qed.

End Gateway.

(** On the reference host: a protected request without a cookie, and one
    whose cookie was signed under the secret [other], are both answered
    401 NO_SESSION with nothing sent upstream. *)
Lemma gateway_unauthorized_witness :
  let signed := full_payload Demo.identity 1700000000 600 in
  let forged := compact Demo.host signed "other" in
  handleProtected Demo.host Demo.net (Demo.get_protected "/app/x" None)
    Demo.env Demo.world0
  = (Ok (errorResponse "NO_SESSION" "Unauthorized" 401
           (Some "No session cookie found") None), Demo.world0)
  /\ handleProtected Demo.host Demo.net
       (Demo.get_protected "/app/x"
          (Some (String.append "vibe_access=" forged)))
       Demo.env Demo.world0
     = (Ok (errorResponse "NO_SESSION" "Unauthorized" 401
              (Some "Invalid signature") None), Demo.world0).
Proof.
  cbv zeta. split.
  - destruct (gateway_unauthorized Demo.host Demo.net
                (Demo.get_protected "/app/x" None) Demo.env Demo.world0)
      as (A & B & _).
    apply B, A. reflexivity.
  - destruct (gateway_unauthorized Demo.host Demo.net
                (Demo.get_protected "/app/x"
                   (Some (String.append "vibe_access="
                            (compact Demo.host
                               (full_payload Demo.identity 1700000000 600)
                               "other"))))
                Demo.env Demo.world0)
      as (_ & _ & _ & D & _).
    apply (D (full_payload Demo.identity 1700000000 600) "other"
             {| h_alg := Some "HS256"; h_kid := None |}).
    + reflexivity.
    + vm_compute. reflexivity.
    + reflexivity.
    + vm_compute. discriminate.
    + vm_compute. reflexivity.
Defined.

(** The two unauthorized cases are distinguished, and a 401 NO_SESSION can
    follow an upstream call.  On the reference host the answer to a request
    without a cookie and the answer to one with a forged cookie are different
    responses; and with the upstream unreachable, a POST with a valid session
    is answered 401 NO_SESSION after the upstream call was made. *)
Lemma gateway_unauthorized_cases_differ :
  let signed := full_payload Demo.identity 1700000000 600 in
  let forged_cookie :=
    String.append "vibe_access=" (compact Demo.host signed "other") in
  let valid_cookie :=
    String.append "vibe_access=" (compact Demo.host signed "s3cret") in
  let absent :=
    fst (handleProtected Demo.host Demo.net (Demo.get_protected "/app/x" None)
           Demo.env Demo.world0) in
  let forged :=
    fst (handleProtected Demo.host Demo.net
           (Demo.get_protected "/app/x" (Some forged_cookie))
           Demo.env Demo.world0) in
  absent = Ok (errorResponse "NO_SESSION" "Unauthorized" 401
                 (Some "No session cookie found") None)
  /\ forged = Ok (errorResponse "NO_SESSION" "Unauthorized" 401
                    (Some "Invalid signature") None)
  /\ absent <> forged
  /\ handleProtected Demo.host Demo.net_upstream_down
       {| req_method := "POST"; req_pathname := "/app/orders";
          req_search := "";
          req_headers := <["cookie" := valid_cookie]> ∅;
          req_body := BodyNotJson "" |}
       Demo.env Demo.world0
     = (Ok (errorResponse "NO_SESSION" "Unauthorized" 401
              (Some "upstream unreachable") None),
        logged (EvUpstream "POST" "https://vibe.example/app/orders")
          Demo.world0).
Proof.
  cbv zeta.
  assert (A : fst (handleProtected Demo.host Demo.net
                     (Demo.get_protected "/app/x" None) Demo.env Demo.world0)
              = Ok (errorResponse "NO_SESSION" "Unauthorized" 401
                      (Some "No session cookie found") None))
    by (vm_compute; reflexivity).
  assert (B : fst (handleProtected Demo.host Demo.net
                     (Demo.get_protected "/app/x"
                        (Some (String.append "vibe_access="
                                 (compact Demo.host
                                    (full_payload Demo.identity 1700000000 600)
                                    "other"))))
                     Demo.env Demo.world0)
              = Ok (errorResponse "NO_SESSION" "Unauthorized" 401
                      (Some "Invalid signature") None))
    by (vm_compute; reflexivity).
  split; [exact A|]. split; [exact B|]. split.
  - rewrite A, B. discriminate.
  - vm_compute. reflexivity.
Qed.

(* ===================================================================== *)
(** * What a failed exchange leaves behind *)
(* ===================================================================== *)

Section FailedExchange.

Context (host : Host) (net : Network).

(** The codes [issue_session] can answer with. *)
Lemma issue_session_codes env origin mail w r w' :
  issue_session host env origin mail w = (Ok r, w') ->
  resp_code r = Some "USER_NOT_ALLOWED"
  \/ resp_code r = Some "USER_SUSPENDED"
  \/ resp_code r = None.
Proof.
  destruct (sso_users (VIBE_DB w) !! mail) as [c|] eqn:Eu.
  - destruct (decide (col_status c = "suspended")) as [Hs|Hs].
    + rewrite (issue_session_suspended host env _ mail _ c Eu Hs).
      intros H; inversion H; subst. auto.
    + rewrite (issue_session_active host env _ mail _ c Eu Hs).
      destruct (signVibeAccessHS256 _ _ _ _ _) as [[tok|m] ws];
        intros H; inversion H; subst. auto.
  - rewrite (issue_session_unknown host env _ mail _ Eu).
    intros H; inversion H; subst. auto.
Qed.

(** C8 -- A failed exchange and the replay table.  For every answered
    exchange: (1) when the answer is INVALID_BODY, JWT_INVALID or
    EMAIL_MISMATCH -- the failures in front of the replay check -- the
    database is exactly as before, so the nonce of the assertion is not
    recorded and the assertion can still be exchanged; (2) when the replay
    table did change, the request had both fields, its assertion was
    verified, the two emails matched, and the change is the one insert of the
    assertion's truthy, so far unrecorded nonce. *)
Theorem failed_exchange_keeps_replay_table
    (request : Request) (env : SSOEnv) (w w' : World) (r : Response) :
  handleVibeAccess host net request env w = (Ok r, w') ->
  ((resp_code r = Some "INVALID_BODY" \/ resp_code r = Some "JWT_INVALID"
    \/ resp_code r = Some "EMAIL_MISMATCH") ->
   VIBE_DB w' = VIBE_DB w)
  /\ (jwt_seen (VIBE_DB w') <> jwt_seen (VIBE_DB w) ->
      exists jwt mail p w1 jti,
        req_body request = BodyJsonObject (Some jwt) (Some mail)
        /\ verifyFlexiJWT_RS256 host net jwt (FLEXI_JWKS_URL env)
             (FLEXI_ISS env) (FLEXI_AUD env) w = (Ok p, w1)
        /\ emails_match host p mail = true
        /\ fj_jti p = Some jti /\ Js.truthy jti = true
        /\ jwt_seen (VIBE_DB w) !! jti = None
        /\ jwt_seen (VIBE_DB w')
           = <[jti := (now w / 1000)%Z]> (jwt_seen (VIBE_DB w))).
Proof.
  intros H.
  destruct (match req_body request with
            | BodyJsonObject (Some jwt) (Some mail) =>
                Js.truthy jwt && Js.truthy mail
            | _ => false
            end) eqn:Eb.
  2:{ destruct (handleVibeAccess_bad_body host net request env w Eb)
        as (r0 & Hr & _).
      rewrite Hr in H. inversion H; subst. split; [reflexivity|congruence]. }
  destruct (req_body request) as [| |[jwt|] [mail|]] eqn:Hb; try discriminate.
  apply andb_prop in Eb as [Hj Hm].
  rewrite (handleVibeAccess_object host net request env w jwt mail) in H
    by assumption.
  destruct (verifyFlexiJWT_RS256 _ _ _ _ _ _ _) as [[p|msg] w1] eqn:Hv.
  2:{ inversion H; subst.
      destruct (same_store_verifyFlexi host net _ _ _ _ _ _ _ Hv) as [_ Hdb].
      split; [now intros _|]. rewrite Hdb. congruence. }
  destruct (same_store_verifyFlexi host net _ _ _ _ _ _ _ Hv) as [Hnow Hdb].
  destruct (emails_match host p mail) eqn:Em.
  2:{ rewrite exchange_mismatch in H by assumption. inversion H; subst.
      split; [now intros _|]. rewrite Hdb. congruence. }
  destruct (Js.truthy_opt (fj_jti p)) eqn:Et.
  2:{ rewrite exchange_no_jti in H by assumption.
      destruct (issue_session host env (origin_of request) mail w1)
        as [[r0|m] w2] eqn:Hi; inversion H; subst;
        destruct (same_store_issue_session host env _ _ _ _ _ Hi)
          as [_ Hdb2];
        (split; [intros _; congruence|]); rewrite Hdb2, Hdb; congruence. }
  destruct (fj_jti p) as [jti|] eqn:Ej; [|discriminate]. cbn in Et.
  destruct (jwt_seen (VIBE_DB w1) !! jti) as [v|] eqn:Es.
  { rewrite (exchange_replayed host env _ mail p w1 jti) in H by eauto.
    inversion H; subst. cbn [logged VIBE_DB].
    split; [now intros _|]. rewrite Hdb. congruence. }
  rewrite (exchange_fresh host env _ mail p w1 jti) in H by auto.
  destruct (issue_session host env (origin_of request) mail (recorded jti w1))
    as [[r0|m] w2] eqn:Hi; inversion H; subst;
    destruct (same_store_issue_session host env _ _ _ _ _ Hi) as [_ Hdb2].
  - split.
    + intros Hc. exfalso.
      destruct (issue_session_codes _ _ _ _ _ _ Hi) as [C|[C|C]];
        rewrite C in Hc; destruct Hc as [?|[?|?]]; discriminate.
    + intros _. exists jwt, mail, p, w1, jti.
      rewrite Hdb2. cbn [recorded VIBE_DB jwt_seen]. rewrite Hdb, Hnow in *.
      repeat split; auto.
  - split.
    + intros Hc. exfalso. cbn in Hc. destruct Hc as [?|[?|?]]; discriminate.
    + intros _. exists jwt, mail, p, w1, jti.
      rewrite Hdb2. cbn [recorded VIBE_DB jwt_seen]. rewrite Hdb, Hnow in *.
      repeat split; auto.
Qed.

End FailedExchange.

(** On the reference host: the exchange of the scenario's assertion with a
    body email of another user fails with EMAIL_MISMATCH and leaves the
    database alone; the same assertion, presented afterwards with the right
    email, is exchanged successfully. *)
Lemma failed_exchange_keeps_replay_table_witness :
  let first := Demo.post_exchange Demo.assertion_n1 "s@b.com" in
  let outcome := handleVibeAccess Demo.host Demo.net first Demo.env Demo.world0 in
  VIBE_DB (snd outcome) = VIBE_DB Demo.world0
  /\ option_map resp_status
       (match fst (handleVibeAccess Demo.host Demo.net
                     (Demo.post_exchange Demo.assertion_n1 "a@b.com")
                     Demo.env (snd outcome))
        with Ok r => Some r | Throw _ => None end)
     = Some 204%Z.
Proof.
  cbv zeta. split; [|vm_compute; reflexivity].
  eapply (proj1 (failed_exchange_keeps_replay_table Demo.host Demo.net
                   (Demo.post_exchange Demo.assertion_n1 "s@b.com") Demo.env
                   Demo.world0 _ _ ltac:(vm_compute; reflexivity))).
  right; right. vm_compute. reflexivity.
Defined.

(* ===================================================================== *)
(** * The two emails of an exchange *)
(* ===================================================================== *)

Section Emails.

Context (host : Host) (net : Network).




End Emails.


(* ===================================================================== *)
(** * Assertions without a nonce *)
(* ===================================================================== *)

Section NoNonce.

Context (host : Host) (net : Network).


(** The claim checks do not look at the world. *)
Lemma check_claims_any_world p iss aud t w o w2 :
  check_claims p iss aud t w = (o, w) ->
  check_claims p iss aud t w2 = (o, w2).
Proof.
  unfold check_claims, ret, throw.
  repeat match goal with
         | |- context [if ?b then _ else _] => destruct b
         end; intros H; inversion H; reflexivity.
Qed.

(** A key set once obtained is served from the cache for as long as the
    clock stands. *)
Lemma getFlexiJWKS_again url w jwks w1 w2 :
  getFlexiJWKS net url w = (Ok jwks, w1) ->
  now w2 = now w -> jwksCache w2 = jwksCache w1 ->
  getFlexiJWKS net url w2 = (Ok jwks, w2).
Proof.
  unfold getFlexiJWKS, bind, Date_now, get_jwksCache, emit, set_jwksCache,
    or_throw, ret, throw.
  intros H Hnow Hcache. rewrite Hnow.
  assert (Hfresh : forall w0,
             (match net_jwks net url with
              | NetworkError msg => (Throw msg, logged (EvFetchJWKS url) w)
              | HttpReply st json =>
                  if negb (response_ok st)
                  then (Throw (String.append "Failed to fetch JWKS: " (pretty st)),
                        logged (EvFetchJWKS url) w)
                  else match json with
                       | Some j =>
                           (Ok j, {| now := now w;
                                     jwksCache := Some (j, (now w + 10 * 60 * 1000)%Z);
                                     VIBE_DB := VIBE_DB w;
                                     trace := trace w ++ [EvFetchJWKS url] |})
                       | None => (Throw "SyntaxError", logged (EvFetchJWKS url) w)
                       end
              end) = (Ok jwks, w0) ->
             jwksCache w0 = Some (jwks, (now w + 10 * 60 * 1000)%Z)).
  { intros w0. destruct (net_jwks net url) as [msg|st [j|]];
      try discriminate; destruct (negb (response_ok st));
      try discriminate; intros E; inversion E; reflexivity. }
  assert (Hhit : (now w <? now w + 10 * 60 * 1000)%Z = true)
    by (apply Z.ltb_lt; lia).
  destruct (jwksCache w) as [[data expires]|] eqn:Ec.
  - destruct (now w <? expires)%Z eqn:Et.
    + inversion H; subst. rewrite Hcache, Ec, Et. reflexivity.
    + cbn in H. unfold logged in Hfresh.
      destruct (net_jwks net url) as [msg|st [j|]]; cbn in H;
        try discriminate; destruct (response_ok st); cbn in H;
        try discriminate; inversion H; subst.
      rewrite Hcache. cbn. now rewrite Hhit.
  - cbn in H.
    destruct (net_jwks net url) as [msg|st [j|]]; cbn in H;
      try discriminate; destruct (response_ok st); cbn in H;
      try discriminate; inversion H; subst.
    rewrite Hcache. cbn. now rewrite Hhit.
Qed.

(** A verification that succeeded succeeds again, with the same claims,
    for as long as the clock stands and the cache is the one it left. *)
Lemma verifyFlexi_again token url iss aud w p w' w2 :
  verifyFlexiJWT_RS256 host net token url iss aud w = (Ok p, w') ->
  now w2 = now w -> jwksCache w2 = jwksCache w' ->
  exists key,
    verifyFlexiJWT_RS256 host net token url iss aud w2
    = (Ok p, logged (EvRsaVerify key) w2).
Proof.
  intros H Hnow Hcache.
  apply verifyFlexi_ok in H
    as (header & jwks & jwk & w1 & h64 & p64 & s64 & sig
        & Hparts & Hh & Halg & Hd & Hc & Hj & Hk & Hi & Hs & Hv & ->).
  exists (key_data jwk).
  unfold parts in Hparts. unfold decode_header in Hh. unfold decode_claims in Hd.
  unfold verifyFlexiJWT_RS256.
  destruct (Js.split "." token) as [|a [|b [|c [|]]]]; try discriminate.
  inversion Hparts; subst a b c.
  unfold bind, base64UrlDecode, or_throw, Date_now, importRSAKey, emit, ret,
    throw.
  destruct (Base64.base64UrlDecode h64) as [hb|]; [|discriminate].
  rewrite Hh, Halg.
  rewrite bool_decide_eq_true_2 by reflexivity. cbn [negb].
  destruct (Base64.base64UrlDecode p64) as [pb|]; [|discriminate].
  rewrite Hd, Hnow.
  rewrite (check_claims_any_world _ _ _ _ _ _ w2 Hc).
  rewrite (getFlexiJWKS_again url w jwks w1 w2 Hj Hnow Hcache).
  rewrite Hk. cbv zeta. rewrite Hi, Hs, Hv. reflexivity.
Qed.

(** An answer of [issue_session] depends on the clock and the database
    only. *)
Lemma issue_session_again env origin mail w r w' w2 :
  issue_session host env origin mail w = (Ok r, w') ->
  now w2 = now w -> VIBE_DB w2 = VIBE_DB w ->
  w' = logged (EvSelectUser mail) w
  /\ issue_session host env origin mail w2
     = (Ok r, logged (EvSelectUser mail) w2).
Proof.
  intros H Hnow Hdb.
  destruct (sso_users (VIBE_DB w) !! mail) as [c|] eqn:Eu.
  - destruct (decide (col_status c = "suspended")) as [Hs|Hs].
    + rewrite (issue_session_suspended host env _ mail _ c Eu Hs) in H.
      inversion H; subst. split; [reflexivity|].
      apply issue_session_suspended with (c := c); [now rewrite Hdb|exact Hs].
    + rewrite (issue_session_active host env _ mail _ c Eu Hs) in H.
      rewrite (issue_session_active host env _ mail w2 c);
        [|now rewrite Hdb|exact Hs].
      destruct (signVibeAccessHS256 host _ _ _ (logged _ w))
        as [[tok|m] ws] eqn:Es; inversion H; subst.
      destruct (sign_inversion host _ _ _ _ _ _ Es) as (-> & Hk & ->).
      split; [reflexivity|].
      rewrite sign_total by exact Hk. cbn [logged now]. now rewrite Hnow.
  - rewrite (issue_session_unknown host env _ mail _ Eu) in H.
    inversion H; subst. split; [reflexivity|].
    apply issue_session_unknown. now rewrite Hdb.
Qed.

(** [issue_session] answers with a denial (403) or the success (204). *)
Lemma issue_session_status env origin mail w r w' :
  issue_session host env origin mail w = (Ok r, w') ->
  (resp_code r <> None /\ resp_status r = 403%Z)
  \/ (resp_code r = None /\ resp_status r = 204%Z).
Proof.
  destruct (sso_users (VIBE_DB w) !! mail) as [c|] eqn:Eu.
  - destruct (decide (col_status c = "suspended")) as [Hs|Hs].
    + rewrite (issue_session_suspended host env _ mail _ c Eu Hs).
      intros H; inversion H; subst. left. now split.
    + rewrite (issue_session_active host env _ mail _ c Eu Hs).
      destruct (signVibeAccessHS256 _ _ _ _ _) as [[tok|m] ws];
        intros H; inversion H; subst. right. now split.
  - rewrite (issue_session_unknown host env _ mail _ Eu).
    intros H; inversion H; subst. left. now split.
Qed.

(** C10 -- Assertions without a usable nonce.  The replay check is gated on
    the truthiness of [jti], so a missing [jti] and an empty-string [jti] are
    treated alike.  For a request with both fields whose assertion decodes to
    claims with such a [jti]: (1) whatever the answer, it is never 409
    REPLAYED_JTI, the database is left exactly as it was and no insert into
    the replay table is among the calls made; (2) once the exchange has
    succeeded, the same request succeeds again with the same answer however
    many times it is resubmitted while the clock stands. *)
Theorem falsy_nonce_skips_replay_check
    (request : Request) (env : SSOEnv) (jwt mail : string)
    (p : FlexiJWTPayload) :
  req_body request = BodyJsonObject (Some jwt) (Some mail) ->
  Js.truthy jwt = true -> Js.truthy mail = true ->
  decode_claims host jwt = Some p ->
  Js.truthy_opt (fj_jti p) = false ->
  (fj_jti p = None \/ fj_jti p = Some "")
  /\ (forall w r w',
        handleVibeAccess host net request env w = (Ok r, w') ->
        resp_code r <> Some "REPLAYED_JTI" /\ resp_status r <> 409%Z
        /\ no_insert w w')
  /\ (forall w r w',
        handleVibeAccess host net request env w = (Ok r, w') ->
        resp_status r = 204%Z ->
        forall n,
          fst (handleVibeAccess host net request env
                 (resubmit host net request env n w')) = Ok r).
Proof.
  intros Hb Hj Hm Hd Hjti.
  split.
  { destruct (fj_jti p) as [[|c s]|]; cbn in Hjti; auto; discriminate. }
  assert (Hshape : forall w r w',
             handleVibeAccess host net request env w = (Ok r, w') ->
             (exists msg,
                 verifyFlexiJWT_RS256 host net jwt (FLEXI_JWKS_URL env)
                   (FLEXI_ISS env) (FLEXI_AUD env) w = (Throw msg, w')
                 /\ r = errorResponse "JWT_INVALID" "Invalid JWT" 401
                          (Some msg) (origin_of request))
             \/ (exists w1,
                    verifyFlexiJWT_RS256 host net jwt (FLEXI_JWKS_URL env)
                      (FLEXI_ISS env) (FLEXI_AUD env) w = (Ok p, w1)
                    /\ ((emails_match host p mail = false /\ w' = w1
                         /\ resp_code r = Some "EMAIL_MISMATCH"
                         /\ resp_status r = 401%Z)
                        \/ (emails_match host p mail = true
                            /\ issue_session host env (origin_of request)
                                 mail w1 = (Ok r, w'))
                        \/ (emails_match host p mail = true
                            /\ resp_code r = Some "INTERNAL_ERROR"
                            /\ resp_status r = 500%Z
                            /\ exists msg,
                                issue_session host env (origin_of request)
                                  mail w1 = (Throw msg, w'))))).
  { intros w r w' H.
    rewrite (handleVibeAccess_object host net request env w jwt mail) in H
      by assumption.
    destruct (verifyFlexiJWT_RS256 _ _ _ _ _ _ _) as [[p'|msg] w1] eqn:Hv.
    2:{ inversion H; subst. left. eauto. }
    right. exists w1.
    assert (p' = p).
    { apply verifyFlexi_ok in Hv
        as (? & ? & ? & ? & ? & ? & ? & ? & _ & _ & _ & Hd' & _).
      congruence. }
    subst p'. split; [reflexivity|].
    destruct (emails_match host p mail) eqn:Em.
    - rewrite exchange_no_jti in H by assumption.
      destruct (issue_session _ _ _ _ _) as [[r0|m] w2] eqn:Hi;
        inversion H; subst; [right; left; auto|].
      right; right. repeat split; eauto.
    - rewrite exchange_mismatch in H by assumption. inversion H; subst.
      left. auto. }
  split.
  - intros w r w' H.
    destruct (Hshape w r w' H)
      as [(msg & Hv & ->)|(w1 & Hv & [(_ & -> & C & S)|[(_ & Hi)|(_ & C & S & msg & Hi)]])].
    + split; [discriminate|]. split; [discriminate|].
      eapply no_insert_verifyFlexi, Hv.
    + rewrite C, S. split; [discriminate|]. split; [discriminate|].
      eapply no_insert_verifyFlexi, Hv.
    + assert (Hni : no_insert w w').
      { eapply frame_trans;
          [eapply no_insert_verifyFlexi, Hv
          |eapply no_insert_issue_session, Hi]. }
      split.
      * destruct (issue_session_codes host _ _ _ _ _ _ Hi) as [C|[C|C]];
          rewrite C; discriminate.
      * destruct (issue_session_status _ _ _ _ _ _ Hi) as [[_ S]|[_ S]];
          rewrite S; (split; [discriminate|exact Hni]).
    + rewrite C, S. split; [discriminate|]. split; [discriminate|].
      eapply frame_trans;
        [eapply no_insert_verifyFlexi, Hv
        |eapply no_insert_issue_session, Hi].
  - intros w r w' H Hok.
    destruct (Hshape w r w' H)
      as [(msg & Hv & ->)|(w1 & Hv & [(_ & _ & _ & S')|[(Em & Hi)|(_ & _ & S' & _)]])];
      try (rewrite Hok in *; discriminate); [discriminate Hok|].
    destruct (same_store_verifyFlexi host net _ _ _ _ _ _ _ Hv) as [Hnow1 Hdb1].
    destruct (issue_session_again env _ mail w1 r w' w1 Hi eq_refl eq_refl)
      as [Hw' _].
    (* the invariant of the resubmissions *)
    assert (Hstep : forall w2,
               now w2 = now w -> VIBE_DB w2 = VIBE_DB w ->
               jwksCache w2 = jwksCache w1 ->
               exists w3,
                 handleVibeAccess host net request env w2 = (Ok r, w3)
                 /\ now w3 = now w /\ VIBE_DB w3 = VIBE_DB w
                 /\ jwksCache w3 = jwksCache w1).
    { intros w2 Hn Hdb Hc.
      destruct (verifyFlexi_again jwt _ _ _ w p w1 w2 Hv Hn Hc) as [key Hv2].
      rewrite (handleVibeAccess_object host net request env w2 jwt mail)
        by assumption.
      rewrite Hv2. rewrite exchange_no_jti by assumption.
      destruct (issue_session_again env _ mail w1 r w'
                  (logged (EvRsaVerify key) w2) Hi) as [_ Hi2].
      { cbn. congruence. }
      { cbn. congruence. }
      rewrite Hi2. eexists. split; [reflexivity|]. cbn. auto. }
    assert (Hinv : forall n,
               now (resubmit host net request env n w') = now w
               /\ VIBE_DB (resubmit host net request env n w') = VIBE_DB w
               /\ jwksCache (resubmit host net request env n w') = jwksCache w1).
    { induction n as [|n (Hn & Hdb & Hc)].
      - subst w'. cbn. auto.
      - destruct (Hstep _ Hn Hdb Hc) as (w3 & H3 & Hw3).
        change (resubmit host net request env (S n) w')
          with (snd (handleVibeAccess host net request env
                       (resubmit host net request env n w'))).
        rewrite H3. exact Hw3. }
    intros n. destruct (Hinv n) as (Hn & Hdb & Hc).
    destruct (Hstep _ Hn Hdb Hc) as (w3 & H3 & _). now rewrite H3.
Qed.

End NoNonce.

(** On the reference host: an assertion whose nonce is the empty string is
    exchanged successfully, and again on each of three resubmissions. *)
Lemma falsy_nonce_skips_replay_check_witness :
  let request := Demo.post_exchange Demo.assertion_empty_jti "a@b.com" in
  let first := handleVibeAccess Demo.host Demo.net request Demo.env Demo.world0 in
  option_map fj_jti (decode_claims Demo.host Demo.assertion_empty_jti)
  = Some (Some "")
  /\ option_map resp_status
       (match fst first with Ok r => Some r | Throw _ => None end)
     = Some 204%Z
  /\ fst (handleVibeAccess Demo.host Demo.net request Demo.env
            (resubmit Demo.host Demo.net request Demo.env 3 (snd first)))
     = fst first.
Proof.
  cbv zeta.
  split; [vm_compute; reflexivity|].
  assert (Hs : option_map resp_status
                 (match fst (handleVibeAccess Demo.host Demo.net
                               (Demo.post_exchange Demo.assertion_empty_jti
                                  "a@b.com") Demo.env Demo.world0)
                  with Ok r => Some r | Throw _ => None end)
               = Some 204%Z) by (vm_compute; reflexivity).
  split; [exact Hs|].
  destruct (handleVibeAccess Demo.host Demo.net
              (Demo.post_exchange Demo.assertion_empty_jti "a@b.com")
              Demo.env Demo.world0) as [[r|m] w'] eqn:H;
    cbn in Hs; [|discriminate].
  injection Hs as Hs. cbn [fst snd].
  apply (proj2 (proj2 (falsy_nonce_skips_replay_check Demo.host Demo.net
                         (Demo.post_exchange Demo.assertion_empty_jti "a@b.com")
                         Demo.env Demo.assertion_empty_jti "a@b.com"
                         (Demo.claims "a@b.com" (Some 1700000600%Z) (Some ""))
                         eq_refl ltac:(vm_compute; reflexivity) eq_refl
                         ltac:(vm_compute; reflexivity) eq_refl))
           Demo.world0 r w' H Hs 3%nat).
Defined.

(** On the reference host with the upstream unreachable: a POST under the
    protected prefix with a valid session cookie is answered 401 NO_SESSION
    after the upstream call. *)
Lemma gateway_upstream_failure_witness :
  let signed := full_payload Demo.identity 1700000000 600 in
  let cookie := String.append "vibe_access=" (compact Demo.host signed "s3cret") in
  let request :=
    {| req_method := "POST"; req_pathname := "/app/orders"; req_search := "";
       req_headers := <["cookie" := cookie]> ∅;
       req_body := BodyNotJson "" |} in
  handleProtected Demo.host Demo.net_upstream_down request Demo.env Demo.world0
  = (Ok (errorResponse "NO_SESSION" "Unauthorized" 401
           (Some "upstream unreachable") None),
     logged (EvUpstream "POST" "https://vibe.example/app/orders") Demo.world0).
Proof.
  cbv zeta.
  refine (gateway_upstream_failure Demo.host Demo.net_upstream_down
            {| req_method := "POST"; req_pathname := "/app/orders";
               req_search := "";
               req_headers :=
                 <["cookie" :=
                     String.append "vibe_access="
                       (compact Demo.host
                          (full_payload Demo.identity 1700000000 600)
                          "s3cret")]> ∅;
               req_body := BodyNotJson "" |}
            Demo.env Demo.world0
            (compact Demo.host (full_payload Demo.identity 1700000000 600)
               "s3cret")
            (full_payload Demo.identity 1700000000 600)
            "upstream unreachable" _ _ _ _).
  - vm_compute. reflexivity.
  - vm_compute. reflexivity.
  - reflexivity.
  - intros px. reflexivity.
Defined.

(* ===================================================================== *)
(** * The codec and the tables, as the worker leaves them *)
(* ===================================================================== *)

Section Base64Url.
Import Base64.

Lemma url_safe_sextet (n : N) : (n < 64)%N -> url_safe (url_char (char_of n)) = true.
Proof.
  intros Hn.
  assert (H : forallb (fun n => url_safe (url_char (char_of n)))
                (map N.of_nat (seq 0 64)) = true)
    by (vm_compute; reflexivity).
  rewrite forallb_forall in H. apply H.
  apply in_map_iff. exists (N.to_nat n). split; [lia|].
  apply in_seq. lia.
Qed.

Lemma raw_length_exact (data : list byte) :
  length (raw data) = ((4 * length data + 2) / 3)%nat.
Proof.
  induction data as [|a|a b|a b c rest IH] using list_ind3;
    try reflexivity.
  rewrite raw_cons3, length_app, IH.
  change (length (enc3 a b c)) with 4%nat.
  cbn [length].
  replace (4 * S (S (S (length rest))) + 2)%nat
    with ((4 * length rest + 2) + 4 * 3)%nat by lia.
  rewrite Nat.div_add by lia. lia.
Qed.

(** X1 -- The base64url codec of [jose.ts].  For every byte sequence,
    [base64UrlDecode] applied to the output of [base64UrlEncode] returns
    exactly that sequence; the encoding consists of letters, digits, [-] and
    [_] only (no padding, no [+], [/] or [.]); and n bytes are encoded in
    (4n + 2) / 3 characters, rounded down. *)
Theorem base64url_codec (data : list byte) :
  base64UrlDecode (base64UrlEncode data) = Some data
  /\ forallb url_safe (list_ascii_of_string (base64UrlEncode data)) = true
  /\ String.length (base64UrlEncode data)
     = ((4 * length data + 2) / 3)%nat.
Proof.
  split; [apply base64Url_roundtrip|].
  rewrite base64UrlEncode_raw.
  split.
  - rewrite list_ascii_of_string_of_list_ascii.
    rewrite forallb_forall. intros c Hc.
    apply in_map_iff in Hc as (d & <- & Hd).
    pose proof (raw_clean data) as Hclean.
    rewrite List.Forall_forall in Hclean.
    destruct (Hclean d Hd) as (n & Hn & ->).
    now apply url_safe_sextet.
  - rewrite <- (raw_length_exact data), <- (length_map url_char).
    generalize (map url_char (raw data)). intros l.
    induction l as [|c l IH]; [reflexivity|]. cbn. now rewrite IH.
Qed.

End Base64Url.

Section Directory.

Context (host : Host) (net : Network).

(** X2 -- The worker never writes the user directory and never removes or
    changes a recorded nonce: whatever requests are served, at whatever
    times, the [sso_users] table is the one it was and every row of
    [jwt_seen] is still there, with its time stamp. *)
Theorem worker_keeps_directory_and_nonces
    (requests : list (Z * Request * SSOEnv)) (w : World) :
  sso_users (VIBE_DB (serve host net requests w)) = sso_users (VIBE_DB w)
  /\ jwt_seen (VIBE_DB w) ⊆ jwt_seen (VIBE_DB (serve host net requests w)).
Proof.
  revert w. induction requests as [|[[t request] env] rest IH]; intros w.
  - split; reflexivity.
  - unfold serve. cbn [fold_left fst snd].
    fold (serve host net rest
            (snd (fetch host net request env (at_time t w)))).
    destruct (fetch host net request env (at_time t w)) as [o w1] eqn:E.
    destruct (seen_grows_fetch host net request env _ _ _ E)
      as (_ & Hu & _ & Hs).
    destruct (IH w1) as [IHu IHs]. cbn [snd].
    split.
    + rewrite IHu, Hu. reflexivity.
    + etrans; [|exact IHs]. exact Hs.
Qed.

End Directory.

(* ===================================================================== *)
(** * The user directory and the cleanup of nonces ([db.ts]) *)
(* ===================================================================== *)

Section UserDirectory.

Context (host : Host).

Lemma upsertUser_run mail userId status' roles' w :
  upsertUser mail userId status' roles' w
  = (Ok tt,
     {| now := now w; jwksCache := jwksCache w;
        VIBE_DB :=
          {| sso_users :=
               <[mail := {| col_user_id := userId;
                            col_status := default "active" status';
                            col_roles := default "viewer" roles';
                            col_updated_at := (now w / 1000)%Z |}]>
                 (sso_users (VIBE_DB w));
             jwt_seen := jwt_seen (VIBE_DB w);
             conflict_throws := conflict_throws (VIBE_DB w) |};
        trace := trace w |}).
Proof. reflexivity. Qed.

(** X4 -- [upsertUser] followed by [getUserByEmail].  Whatever the directory
    held, after [upsertUser] the lookup of that email returns the row just
    written: the given user id, the status and roles given or their defaults
    ['active'] and ['viewer'], stamped with the current second.  The lookup
    of any other email answers as before, and the replay table is
    untouched. *)
Theorem upsert_then_lookup
    (mail userId : string) (status' roles' : option string) (w : World) :
  exists w',
    upsertUser mail userId status' roles' w = (Ok tt, w')
    /\ getUserByEmail mail w'
       = (Ok (Some {| user_id := userId; email := mail;
                      status := default "active" status';
                      roles := default "viewer" roles';
                      updated_at := (now w / 1000)%Z |}),
          logged (EvSelectUser mail) w')
    /\ (forall other, other <> mail ->
          fst (getUserByEmail other w') = fst (getUserByEmail other w))
    /\ jwt_seen (VIBE_DB w') = jwt_seen (VIBE_DB w).
Proof.
  eexists. split; [apply upsertUser_run|].
  split; [|split; [|reflexivity]].
  - unfold getUserByEmail, bind, emit, get_db, ret, d1_first_user, logged.
    cbn. rewrite lookup_insert_eq. reflexivity.
  - intros other Hne.
    unfold getUserByEmail, bind, emit, get_db, ret, d1_first_user.
    cbn. rewrite lookup_insert_ne by congruence. reflexivity.
Qed.


End UserDirectory.

Section NonceCleanup.

Lemma cleanupOldJtis_run window w :
  let cutoff := (now w / 1000 - default 86400 window)%Z in
  cleanupOldJtis window w
  = (Ok (Z.of_nat
           (size (filter (fun row : string * Z => (snd row < cutoff)%Z)
                    (jwt_seen (VIBE_DB w))))),
     {| now := now w; jwksCache := jwksCache w;
        VIBE_DB :=
          {| sso_users := sso_users (VIBE_DB w);
             jwt_seen :=
               filter (fun row : string * Z => ~ (snd row < cutoff)%Z)
                 (jwt_seen (VIBE_DB w));
             conflict_throws := conflict_throws (VIBE_DB w) |};
        trace := trace w |}).
Proof. reflexivity. Qed.

(** What is on record after a cleanup. *)
Lemma cleanupOldJtis_kept window w jti seen_at :
  jwt_seen (VIBE_DB (snd (cleanupOldJtis window w))) !! jti = Some seen_at
  <-> jwt_seen (VIBE_DB w) !! jti = Some seen_at
      /\ (now w / 1000 - default 86400 window <= seen_at)%Z.
Proof.
  rewrite cleanupOldJtis_run. cbn [snd VIBE_DB jwt_seen].
  rewrite map_lookup_filter_Some. cbn [snd].
  split; intros [H1 H2]; (split; [exact H1|lia]).
Qed.

(** X6 -- [cleanupOldJtis] deletes exactly the nonces older than the window.
    With the cutoff at the current second minus the window (one day by
    default), a nonce is on record afterwards iff it was on record with
    [seen_at >= cutoff]; the number returned is the number of rows deleted;
    the user directory is untouched; and a second run at the same time
    deletes nothing and returns 0. *)
Theorem cleanup_deletes_old_nonces (window : option Z) (w : World) :
  let cutoff := (now w / 1000 - default 86400 window)%Z in
  exists n w',
    cleanupOldJtis window w = (Ok n, w')
    /\ (forall jti seen_at,
          jwt_seen (VIBE_DB w') !! jti = Some seen_at
          <-> jwt_seen (VIBE_DB w) !! jti = Some seen_at
              /\ (cutoff <= seen_at)%Z)
    /\ (Z.of_nat (size (jwt_seen (VIBE_DB w'))) + n
        = Z.of_nat (size (jwt_seen (VIBE_DB w))))%Z
    /\ sso_users (VIBE_DB w') = sso_users (VIBE_DB w)
    /\ cleanupOldJtis window w' = (Ok 0%Z, w').
Proof.
  intros cutoff. eexists _, _. split; [apply cleanupOldJtis_run|].
  cbn [VIBE_DB jwt_seen sso_users]. fold cutoff.
  split; [|split; [|split; [reflexivity|]]].
  - intros jti seen_at.
    pose proof (cleanupOldJtis_kept window w jti seen_at) as H.
    rewrite cleanupOldJtis_run in H. exact H.
  - rewrite <- Nat2Z.inj_add. f_equal.
    rewrite <- (map_filter_union_complement
                  (fun row : string * Z => (snd row < cutoff)%Z)
                  (jwt_seen (VIBE_DB w))) at 3.
    rewrite map_size_disj_union by apply map_disjoint_filter_complement.
    lia.
  - rewrite cleanupOldJtis_run. cbn [now VIBE_DB jwt_seen sso_users
                                      conflict_throws jwksCache trace].
    fold cutoff.
    set (kept := filter (fun row : string * Z => ~ (snd row < cutoff)%Z)
                   (jwt_seen (VIBE_DB w))).
    assert (E1 : filter (fun row : string * Z => (snd row < cutoff)%Z) kept
                 = ∅).
    { apply map_empty. intros jti.
      destruct (filter _ kept !! jti) as [v|] eqn:E; [|reflexivity].
      apply map_lookup_filter_Some in E as [E Hold].
      apply map_lookup_filter_Some in E as [_ Hnew]. contradiction. }
    assert (E2 : filter (fun row : string * Z => ~ (snd row < cutoff)%Z) kept
                 = kept).
    { apply map_eq. intros jti. apply option_eq. intros v.
      unfold kept. rewrite !map_lookup_filter_Some. tauto. }
    rewrite E1, E2, map_size_empty. reflexivity.
Qed.

(** X7 -- Cleanup reopens the replay window.  After [cleanupOldJtis], a nonce
    that had been recorded before the cutoff is accepted again by
    [markJtiSeen] (and recorded anew), while a nonce recorded at or after the
    cutoff is still refused. *)
Theorem cleanup_reopens_replay_window
    (window : option Z) (w : World) (jti : string) (seen_at : Z) :
  jwt_seen (VIBE_DB w) !! jti = Some seen_at ->
  let cutoff := (now w / 1000 - default 86400 window)%Z in
  let w' := snd (cleanupOldJtis window w) in
  ((seen_at < cutoff)%Z -> markJtiSeen jti w' = (Ok true, recorded jti w'))
  /\ ((cutoff <= seen_at)%Z ->
      markJtiSeen jti w' = (Ok false, logged (EvInsertJti jti) w')).
Proof.
  intros Hseen cutoff w'.
  split; intros Hc.
  - apply markJtiSeen_fresh.
    destruct (jwt_seen (VIBE_DB w') !! jti) as [v|] eqn:Ev; [|reflexivity].
    apply cleanupOldJtis_kept in Ev as [Ev Hv].
    rewrite Hseen in Ev. injection Ev as <-. unfold cutoff in Hc. lia.
  - apply markJtiSeen_seen. exists seen_at.
    apply cleanupOldJtis_kept. now split.
Qed.

End NonceCleanup.

(** A nonce recorded more than a day ago is accepted again after a cleanup
    with the default window; one recorded an hour ago is still refused. *)
Lemma cleanup_reopens_replay_window_witness :
  let w := {| now := 1700000000000; jwksCache := None;
              VIBE_DB := {| sso_users := Demo.users;
                            jwt_seen := <["old" := 1699900000%Z]>
                                          (<["new" := 1699996400%Z]> ∅);
                            conflict_throws := false |};
              trace := [] |} in
  let w' := snd (cleanupOldJtis None w) in
  markJtiSeen "old" w' = (Ok true, recorded "old" w')
  /\ markJtiSeen "new" w' = (Ok false, logged (EvInsertJti "new") w').
Proof.
  cbv zeta. split.
  - refine (proj1 (cleanup_reopens_replay_window None _ "old" 1699900000 _) _).
    + vm_compute. reflexivity.
    + vm_compute. reflexivity.
  - refine (proj2 (cleanup_reopens_replay_window None _ "new" 1699996400 _) _).
    + vm_compute. reflexivity.
    + vm_compute. discriminate.
Defined.


(* ===================================================================== *)
(** * Cookies ([cookies.ts]) *)
(* ===================================================================== *)

Section StringFacts.

Lemma append_assoc (a b c : string) :
  String.append (String.append a b) c = String.append a (String.append b c).
Proof.
  induction a as [|x a IH]; [reflexivity|].
  change (String x (String.append (String.append a b) c)
          = String x (String.append a (String.append b c))).
  now rewrite IH.
Qed.

Lemma string_of_list_app (l1 l2 : list ascii) :
  string_of_list_ascii (l1 ++ l2)
  = String.append (string_of_list_ascii l1) (string_of_list_ascii l2).
Proof. induction l1 as [|c l1 IH]; [reflexivity|]. cbn. now rewrite IH. Qed.

Lemma split_acc_nonempty sep cur l : Js.split_acc sep cur l <> [].
Proof.
  revert cur. induction l as [|c l IH]; intros cur; cbn; [discriminate|].
  destruct (Ascii.eqb c sep); [discriminate | apply IH].
Qed.

Lemma split_nonempty sep s : Js.split sep s <> [].
Proof.
  unfold Js.split. intros H. apply map_eq_nil in H.
  now apply split_acc_nonempty in H.
Qed.

(** A first piece free of the separator is the first part. *)
Lemma split_cons sep (a r : string) :
  Js.no_sep sep a ->
  Js.split sep (String.append a (String sep r)) = a :: Js.split sep r.
Proof.
  intros Ha. unfold Js.split. rewrite list_ascii_app.
  cbn [list_ascii_of_string]. rewrite split_acc_piece by exact Ha.
  rewrite app_nil_r, rev_involutive. cbn [map].
  now rewrite string_of_list_ascii_of_string.
Qed.

Lemma split_last sep (a : string) : Js.no_sep sep a -> Js.split sep a = [a].
Proof.
  intros Ha. unfold Js.split. rewrite split_acc_last by exact Ha.
  rewrite app_nil_r, rev_involutive. cbn [map].
  now rewrite string_of_list_ascii_of_string.
Qed.

Lemma join_cons sep x l :
  l <> [] ->
  Js.join sep (x :: l) = String.append x (String.append sep (Js.join sep l)).
Proof. destruct l; [congruence | reflexivity]. Qed.

Lemma join_split_acc sep cur l :
  Js.join (String sep EmptyString)
    (map string_of_list_ascii (Js.split_acc sep cur l))
  = string_of_list_ascii (rev cur ++ l).
Proof.
  revert cur. induction l as [|c l IH]; intros cur; cbn [Js.split_acc].
  - cbn [map Js.join]. now rewrite app_nil_r.
  - destruct (Ascii.eqb c sep) eqn:E.
    + apply Ascii.eqb_eq in E. subst c. cbn [map].
      rewrite join_cons.
      * rewrite IH. cbn [rev app]. now rewrite string_of_list_app.
      * intros H. apply map_eq_nil in H. now apply split_acc_nonempty in H.
    + rewrite IH. cbn [rev]. now rewrite <- app_assoc.
Qed.

(** [s.split(sep).join(sep)] is [s]. *)
Lemma join_split sep (s : string) :
  Js.join (String sep EmptyString) (Js.split sep s) = s.
Proof.
  unfold Js.split. rewrite join_split_acc. cbn [rev app].
  apply string_of_list_ascii_of_string.
Qed.

Lemma drop_space_spaceless (l : list ascii) :
  forallb (fun c => negb (Js.is_space c)) l = true -> Js.drop_space l = l.
Proof.
  destruct l as [|c l]; [reflexivity|]. cbn [forallb Js.drop_space].
  intros H. apply andb_prop in H as [H _].
  apply negb_true_iff in H. now rewrite H.
Qed.

Lemma trim_spaceless (s : string) :
  forallb (fun c => negb (Js.is_space c)) (list_ascii_of_string s) = true ->
  Js.trim s = s.
Proof.
  intros H. unfold Js.trim.
  rewrite (drop_space_spaceless (list_ascii_of_string s)) by exact H.
  rewrite drop_space_spaceless.
  - rewrite rev_involutive. apply string_of_list_ascii_of_string.
  - rewrite forallb_forall in *. intros c Hc. apply H.
    now apply in_rev.
Qed.

Lemma trim_leading_space (s : string) :
  Js.trim (String " " s) = Js.trim s.
Proof. reflexivity. Qed.

Lemma truthy_append (a b : string) :
  Js.truthy a = true -> Js.truthy (String.append a b) = true.
Proof. destruct a; [discriminate | reflexivity]. Qed.

Lemma truthy_join sep (p : string) (ps : list string) :
  Js.truthy p = true -> Js.truthy (Js.join sep (p :: ps)) = true.
Proof.
  intros H. destruct ps; [exact H|].
  rewrite join_cons by discriminate. now apply truthy_append.
Qed.

End StringFacts.

Section Cookies.

Context (host : Host).

Lemma plain_no_sep (s : string) (sep : ascii) :
  plain s = true -> plain_char sep = false -> Js.no_sep sep s.
Proof.
  unfold plain, Js.no_sep. rewrite forallb_forall, List.Forall_forall.
  intros H Hsep c Hc. specialize (H c Hc).
  destruct (Ascii.eqb c sep) eqn:E; [|reflexivity].
  apply Ascii.eqb_eq in E. subst c. congruence.
Qed.

Lemma plain_spaceless (s : string) :
  plain s = true ->
  forallb (fun c => negb (Js.is_space c)) (list_ascii_of_string s) = true.
Proof.
  unfold plain. rewrite !forallb_forall. intros H c Hc.
  specialize (H c Hc). unfold plain_char in H.
  now apply andb_prop in H as [_ H].
Qed.

(** What [parse_pair] does with a pair that has an equals sign after a
    name free of it. *)
Lemma parse_pair_named cookies (name rest : string) :
  Js.no_sep "=" name ->
  parse_pair host cookies (String.append name (String "=" rest))
  = if Js.truthy name then
      match decodeURIComponent host (Js.trim name),
            decodeURIComponent host (Js.trim rest) with
      | Some k, Some v => Js.assign k v cookies
      | _, _ => cookies
      end
    else cookies.
Proof.
  intros Hn. unfold parse_pair. rewrite split_cons by exact Hn.
  destruct (Js.truthy name); [|reflexivity]. cbn [andb].
  destruct (Js.split "=" rest) as [|v vs] eqn:E.
  - now apply split_nonempty in E.
  - cbn [length Nat.ltb Nat.leb]. rewrite <- E.
    change "="%string with (String "="%char EmptyString).
    now rewrite join_split.
Qed.

(** X8 -- How [parseCookies] reads one pair.  A pair without an equals sign
    is ignored, and so is a pair with an empty name.  For a pair of ASCII
    characters with a non-empty name, the name is the text before the first
    equals sign and the value is all the text after it, further equals signs
    included; both are trimmed and URI-decoded; the pair is skipped when
    either fails to decode, the decoded name [__proto__] stores nothing, and
    any other name is assigned the value, overwriting an earlier one. *)
Theorem cookie_value_keeps_equals_signs
    (cookies : gmap string string) (name rest : string) :
  (Js.no_sep "=" name ->
   parse_pair host cookies name = cookies)
  /\ (Js.no_sep "=" name -> Js.truthy name = true ->
      ascii_only name = true -> ascii_only rest = true ->
      parse_pair host cookies (String.append name (String "=" rest))
      = match decodeURIComponent host (Js.trim name),
              decodeURIComponent host (Js.trim rest) with
        | Some k, Some v =>
            if String.eqb k "__proto__" then cookies else <[k := v]> cookies
        | _, _ => cookies
        end)
  /\ parse_pair host cookies (String "=" rest) = cookies.
Proof.
  split; [|split].
  - intros Hn. unfold parse_pair. rewrite split_last by exact Hn.
    cbn [length Nat.ltb Nat.leb]. now rewrite andb_false_r.
  - intros Hn Ht _ _. rewrite parse_pair_named by exact Hn. now rewrite Ht.
  - change (String "=" rest) with (String.append "" (String "=" rest)).
    rewrite parse_pair_named by exact (List.Forall_nil _). reflexivity.
Qed.

Lemma coded_spec (s : string) :
  coded host s = true ->
  plain (encodeURIComponent host s) = true
  /\ decodeURIComponent host (encodeURIComponent host s) = Some s.
Proof.
  unfold coded. intros H. apply andb_prop in H as [H1 H2].
  split; [exact H1 | now apply bool_decide_eq_true_1 in H2].
Qed.

Lemma cookie_pair_spaceless (k v : string) :
  coded host k = true -> coded host v = true ->
  forallb (fun c => negb (Js.is_space c))
    (list_ascii_of_string (cookie_pair host k v)) = true.
Proof.
  intros Hk Hv. apply coded_spec in Hk as [Hk _]. apply coded_spec in Hv as [Hv _].
  unfold cookie_pair. rewrite !list_ascii_app, !forallb_app.
  rewrite (plain_spaceless _ Hk), (plain_spaceless _ Hv). reflexivity.
Qed.

Lemma cookie_pair_no_semicolon (k v : string) :
  coded host k = true -> coded host v = true ->
  Js.no_sep ";" (cookie_pair host k v).
Proof.
  intros Hk Hv. apply coded_spec in Hk as [Hk _]. apply coded_spec in Hv as [Hv _].
  unfold cookie_pair, Js.no_sep. rewrite !list_ascii_app.
  apply Forall_app. split; [apply (plain_no_sep _ ";" Hk); reflexivity|].
  apply Forall_app. split; [repeat constructor|].
  apply (plain_no_sep _ ";" Hv); reflexivity.
Qed.

(** One well-encoded pair is read as the assignment it stands for. *)
Lemma parse_pair_coded cookies (k v : string) :
  Js.truthy (encodeURIComponent host k) = true ->
  coded host k = true -> coded host v = true ->
  parse_pair host cookies (cookie_pair host k v) = Js.assign k v cookies.
Proof.
  intros Ht Hk Hv. unfold cookie_pair.
  change (String.append "=" (encodeURIComponent host v))
    with (String "=" (encodeURIComponent host v)).
  apply coded_spec in Hk as [Hk Dk]. apply coded_spec in Hv as [Hv Dv].
  rewrite parse_pair_named by (apply (plain_no_sep _ "=" Hk); reflexivity).
  rewrite Ht.
  rewrite !trim_spaceless by now apply plain_spaceless.
  now rewrite Dk, Dv.
Qed.

Lemma no_sep_space_pair (p : string) :
  Js.no_sep ";" p -> Js.no_sep ";" (String " " p).
Proof. intros H. constructor; [reflexivity | exact H]. Qed.

(** The pieces of a Cookie header: the first pair, then each further pair
    behind a space. *)
Lemma split_cookie_header (pre p : string) (ps : list string) :
  Js.no_sep ";" pre -> Forall (Js.no_sep ";") (p :: ps) ->
  Js.split ";" (String.append pre (Js.join "; " (p :: ps)))
  = String.append pre p :: map (String " ") ps.
Proof.
  revert pre p. induction ps as [|q ps IH]; intros pre p Hpre Hall.
  - cbn [Js.join map]. apply split_last.
    apply Forall_cons in Hall as [Hp _].
    unfold Js.no_sep in *. rewrite list_ascii_app.
    apply Forall_app. now split.
  - apply Forall_cons in Hall as [Hp Hall].
    rewrite join_cons by discriminate.
    change (String.append "; " (Js.join "; " (q :: ps)))
      with (String ";" (String.append " " (Js.join "; " (q :: ps)))).
    rewrite <- append_assoc.
    rewrite split_cons.
    + rewrite (IH " " q) by (try exact Hall; repeat constructor).
      reflexivity.
    + unfold Js.no_sep in *. rewrite list_ascii_app.
      apply Forall_app. now split.
Qed.

Lemma fold_parse_pairs (cookies : list (string * string)) acc :
  well_encoded host cookies = true ->
  fold_left (parse_pair host)
    (map (fun c => cookie_pair host (fst c) (snd c)) cookies) acc
  = fold_left (fun m c => Js.assign (fst c) (snd c) m) cookies acc.
Proof.
  revert acc. induction cookies as [|[k v] cs IH]; intros acc H;
    [reflexivity|].
  cbn [well_encoded forallb fst snd] in H.
  apply andb_prop in H as [H Hcs].
  apply andb_prop in H as [H Hv]. apply andb_prop in H as [Ht Hk].
  cbn [map fold_left fst snd].
  rewrite parse_pair_coded by assumption. now apply IH.
Qed.

Lemma well_encoded_pairs (cookies : list (string * string)) :
  well_encoded host cookies = true ->
  Forall (fun p => Js.no_sep ";" p
                   /\ forallb (fun c => negb (Js.is_space c))
                        (list_ascii_of_string p) = true)
    (map (fun c => cookie_pair host (fst c) (snd c)) cookies).
Proof.
  induction cookies as [|[k v] cs IH]; intros H; [constructor|].
  cbn [well_encoded forallb fst snd] in H.
  apply andb_prop in H as [H Hcs].
  apply andb_prop in H as [H Hv]. apply andb_prop in H as [Ht Hk].
  cbn [map fst snd]. constructor; [|now apply IH].
  split; [now apply cookie_pair_no_semicolon | now apply cookie_pair_spaceless].
Qed.

Lemma jar_snoc cookies k v :
  jar (cookies ++ [(k, v)]) = Js.assign k v (jar cookies).
Proof. unfold jar. now rewrite fold_left_app. Qed.

Lemma assign_lookup_eq (k v : string) (o : gmap string string) :
  k <> "__proto__" -> Js.assign k v o !! k = Some v.
Proof.
  intros Hk. unfold Js.assign. apply String.eqb_neq in Hk. rewrite Hk.
  apply lookup_insert_eq.
Qed.

Lemma assign_lookup_ne (k k' v : string) (o : gmap string string) :
  k' <> k -> Js.assign k' v o !! k = o !! k.
Proof.
  intros Hk. unfold Js.assign.
  destruct (String.eqb k' "__proto__"); [reflexivity|].
  now apply lookup_insert_ne.
Qed.

Lemma jar_last (before after : list (string * string)) (k v : string) :
  k <> "__proto__" ->
  ~ In k (map fst after) ->
  jar (before ++ (k, v) :: after) !! k = Some v.
Proof.
  intros Hp.
  induction after as [|[k' v'] after IH] using rev_ind; intros Hk.
  - rewrite jar_snoc. now apply assign_lookup_eq.
  - rewrite app_comm_cons, app_assoc, jar_snoc.
    rewrite map_app, in_app_iff in Hk. cbn in Hk.
    rewrite assign_lookup_ne by tauto. apply IH. tauto.
Qed.

(** The own properties of the object: the names assigned, [__proto__]
    apart. *)
Lemma jar_names (cookies : list (string * string)) (k : string) :
  k <> "__proto__" ->
  is_Some (jar cookies !! k) <-> In k (map fst cookies).
Proof.
  intros Hp. induction cookies as [|[k' v'] cookies IH] using rev_ind.
  - cbn. rewrite lookup_empty. split; [intros [? ?]; discriminate | tauto].
  - rewrite jar_snoc, map_app, in_app_iff. cbn [map fst In].
    destruct (decide (k' = k)) as [->|Hne].
    + rewrite assign_lookup_eq by exact Hp. split; [auto | eauto].
    + rewrite assign_lookup_ne by exact Hne. rewrite IH. tauto.
Qed.

Lemma jar_no_proto (cookies : list (string * string)) :
  jar cookies !! "__proto__" = None.
Proof.
  induction cookies as [|[k' v'] cookies IH] using rev_ind.
  - apply lookup_empty.
  - rewrite jar_snoc. unfold Js.assign.
    destruct (String.eqb_spec k' "__proto__") as [->|Hne]; [exact IH|].
    rewrite lookup_insert_ne by exact Hne. exact IH.
Qed.

(** The header of a client that holds [cookies] is read back as the
    cookies assigned in order. *)
Lemma parseCookies_jar (headers : gmap string string)
    (cookies : list (string * string)) :
  headers !! "cookie" = Some (cookie_header host cookies) ->
  well_encoded host cookies = true ->
  parseCookies host headers = jar cookies.
Proof.
  intros Hh Hw.
  unfold parseCookies. rewrite Hh. unfold cookie_header.
  destruct cookies as [|[k v] cs]; [reflexivity|].
  pose proof (well_encoded_pairs _ Hw) as Hp.
  pose proof (fold_parse_pairs _ ∅ Hw) as Hf.
  cbn [map fst snd] in *.
  set (p := cookie_pair host k v) in *.
  set (ps := map (fun c => cookie_pair host (fst c) (snd c)) cs) in *.
  assert (Ht : Js.truthy (Js.join "; " (p :: ps)) = true).
  { cbn [well_encoded forallb fst snd] in Hw.
    apply andb_prop in Hw as [Hw _]. apply andb_prop in Hw as [Hw _].
    apply andb_prop in Hw as [Hw _].
    apply truthy_join. unfold p, cookie_pair. now apply truthy_append. }
  rewrite Ht. cbn [negb].
  change (Js.join "; " (p :: ps))
    with (String.append "" (Js.join "; " (p :: ps))).
  rewrite split_cookie_header;
    [|exact (List.Forall_nil _)
     | eapply List.Forall_impl; [|exact Hp]; now intros ? []].
  cbn [String.append map].
  apply Forall_cons in Hp as [[_ Hp1] Hps].
  rewrite trim_spaceless by exact Hp1.
  assert (Hm : map Js.trim (map (String " ") ps) = ps).
  { clear -Hps. induction Hps as [|q qs [_ Hq] _ IH]; [reflexivity|].
    cbn [map]. rewrite trim_leading_space, trim_spaceless by exact Hq.
    now rewrite IH. }
  rewrite Hm. exact Hf.
Qed.

(** X9 -- [parseCookies] reads back what [setCookie] writes.  For a Cookie
    header made of pairs as [setCookie] writes them (name and value
    URI-encoded, around an equals sign) joined by [; ], and on which the
    host's coders do their work, the result holds these cookies, assigned
    in order: its own properties are the names of the cookies other than
    [__proto__], a cookie named [__proto__] stores nothing, and for a
    repeated name the last pair wins. *)
Theorem parseCookies_reads_header
    (headers : gmap string string) (cookies : list (string * string)) :
  headers !! "cookie" = Some (cookie_header host cookies) ->
  well_encoded host cookies = true ->
  parseCookies host headers = jar cookies
  /\ (forall k, k <> "__proto__" ->
                (is_Some (parseCookies host headers !! k)
                 <-> In k (map fst cookies)))
  /\ parseCookies host headers !! "__proto__" = None
  /\ forall before after k v,
       cookies = before ++ (k, v) :: after ->
       k <> "__proto__" ->
       ~ In k (map fst after) ->
       parseCookies host headers !! k = Some v.
Proof.
  intros Hh Hw.
  pose proof (parseCookies_jar headers cookies Hh Hw) as E.
  split; [exact E|]. rewrite E. split; [|split].
  - intros k Hk. apply jar_names. exact Hk.
  - apply jar_no_proto.
  - intros before after k v -> Hp Hk. now apply jar_last.
Qed.

End Cookies.

(** On the reference host: a header with three cookies, two of them named
    [theme]; the session cookie is found and the later [theme] wins. *)
Lemma parseCookies_reads_header_witness :
  let cookies := [("theme", "light"); ("vibe_access", "a.b-c_d");
                  ("theme", "dark mode; v=2")] in
  let headers : gmap string string :=
    <["cookie" := cookie_header Demo.host cookies]> ∅ in
  cookie_header Demo.host cookies
  = "theme=light; vibe_access=a.b-c_d; theme=dark%20mode%3B%20v%3D2"
  /\ parseCookies Demo.host headers !! "vibe_access" = Some "a.b-c_d"
  /\ parseCookies Demo.host headers !! "theme" = Some "dark mode; v=2".
Proof.
  cbv zeta. split; [vm_compute; reflexivity|].
  split.
  - refine (proj2 (proj2 (proj2 (parseCookies_reads_header Demo.host
                                   _ _ _ _)))
              [("theme", "light")] [("theme", "dark mode; v=2")] _ _ eq_refl
              _ _).
    + apply lookup_insert_eq.
    + vm_compute. reflexivity.
    + discriminate.
    + cbn. intuition discriminate.
  - refine (proj2 (proj2 (proj2 (parseCookies_reads_header Demo.host
                                   _ _ _ _)))
              [("theme", "light"); ("vibe_access", "a.b-c_d")] [] _ _ eq_refl
              _ _).
    + apply lookup_insert_eq.
    + vm_compute. reflexivity.
    + discriminate.
    + cbn. tauto.
Defined.

(** On the reference host: a value with equals signs of its own. *)
Lemma cookie_value_keeps_equals_signs_witness :
  parse_pair Demo.host ∅ "token=YWJj=="
  = <["token" := "YWJj=="]> ∅
  /\ parse_pair Demo.host ∅ "flag" = ∅.
Proof.
  split.
  - refine (proj1 (proj2 (cookie_value_keeps_equals_signs Demo.host ∅
                            "token" "YWJj==")) _ _ _ _).
    + repeat constructor.
    + reflexivity.
    + reflexivity.
    + reflexivity.
  - refine (proj1 (cookie_value_keeps_equals_signs Demo.host ∅ "flag" "") _).
    repeat constructor.
Defined.

(* ===================================================================== *)
(** * The session, from the exchange to [GET /auth/me] *)
(* ===================================================================== *)

Section Session.

Context (host : Host) (net : Network).

Lemma compact_truthy (p : VibeAccessPayload) (secret : string) :
  Js.truthy (compact host p secret) = true.
Proof.
  unfold compact, signing_input. rewrite !append_assoc.
  destruct (Base64.base64UrlEncode (header_bytes host)); reflexivity.
Qed.

Lemma session_response_headers env origin token :
  resp_headers (session_response host env origin token)
  = cors_headers origin
    ++ [("Set-Cookie",
         String.append (cookie_pair host (VIBE_COOKIE_NAME env) token)
                       (session_cookie_attributes env))].
Proof.
  unfold session_response, setCookie, session_cookie_attributes, cookie_pair.
  cbn [resp_headers domain maxAge path httpOnly secure sameSite
       Js.truthy_opt Js.show_opt].
  cbv [from_option id]. cbn [Js.truthy].
  change (pretty 600%Z) with "600".
  do 2 f_equal. f_equal.
  destruct (Js.truthy (VIBE_COOKIE_DOMAIN env));
    rewrite !append_assoc; reflexivity.
Qed.

(** The session cookie of a request whose client holds [cookies]. *)
Lemma session_cookie_held request env cookies p secret :
  req_headers request !! "cookie" = Some (cookie_header host cookies) ->
  well_encoded host cookies = true ->
  jar cookies !! VIBE_COOKIE_NAME env = Some (compact host p secret) ->
  session_cookie host request env = Some (compact host p secret).
Proof.
  intros Hh Hw Hj. unfold session_cookie.
  rewrite (parseCookies_jar host _ _ Hh Hw), Hj. now rewrite compact_truthy.
Qed.

(** X10 -- The session issued by the exchange opens [GET /auth/me].  For an
    active user, [issue_session] answers 204 with, after the CORS headers, a
    single Set-Cookie header: the cookie name and the token, URI-encoded,
    with Domain (when configured), Max-Age=600, Path=/, HttpOnly, Secure and
    SameSite=None.  A later request whose Cookie header carries that cookie,
    possibly among others, is answered by [handleMe] with the user id, the
    email and the roles of the stored row as long as the clock has not passed
    the issue second + 600, and with 401 NO_SESSION, "Token expired",
    afterwards.  The hypotheses on the host say that [JSON.parse] reads back
    what [JSON.stringify] wrote for the header and this payload. *)
Theorem issued_session_opens_me
    (env : SSOEnv) (origin : option string) (mail : string)
    (c : UserColumns) (h : JoseHeader) (w : World) :
  sso_users (VIBE_DB w) !! mail = Some c ->
  col_status c <> "suspended" ->
  hmac_importKey host (Js.TextEncoder_encode (VIBE_ACCESS_SECRET env)) = true ->
  JSON_parse_header host (header_bytes host) = Some h ->
  h_alg h = Some "HS256" ->
  let signed :=
    full_payload
      {| in_iss := VIBE_ISS env; in_aud := VIBE_AUD env;
         in_sub := col_user_id c; in_email := mail;
         in_roles := col_roles c |} (now w / 1000) 600 in
  JSON_parse_vibe host (payload_bytes host signed) = Some signed ->
  let token := compact host signed (VIBE_ACCESS_SECRET env) in
  exists r,
    issue_session host env origin mail w
    = (Ok r, logged (EvSelectUser mail) w)
    /\ resp_status r = 204%Z
    /\ resp_headers r
       = cors_headers origin
         ++ [("Set-Cookie",
              String.append (cookie_pair host (VIBE_COOKIE_NAME env) token)
                            (session_cookie_attributes env))]
    /\ forall request cookies w2,
         req_headers request !! "cookie" = Some (cookie_header host cookies) ->
         well_encoded host cookies = true ->
         jar cookies !! VIBE_COOKIE_NAME env = Some token ->
         ((now w2 / 1000 <= now w / 1000 + 600)%Z ->
          handleMe host request env w2
          = (Ok {| resp_status := 200;
                   resp_headers := [("Content-Type", "application/json")];
                   resp_body := MeBody (col_user_id c) mail (col_roles c) |},
             w2))
         /\ ((now w / 1000 + 600 < now w2 / 1000)%Z ->
             handleMe host request env w2
             = (Ok (errorResponse "NO_SESSION" "Invalid session" 401
                      (Some "Token expired") None), w2)).
Proof.
  intros Hu Hs Hk Hh Halg signed Hp token.
  exists (session_response host env origin token). split.
  { rewrite (issue_session_active host env origin mail w c Hu Hs).
    rewrite sign_total by exact Hk. reflexivity. }
  split; [reflexivity|].
  split; [apply session_response_headers|].
  intros request cookies w2 Hc Hw Hj.
  pose proof (session_cookie_held request env cookies signed _ Hc Hw Hj) as Hsc.
  fold token in Hsc.
  unfold handleMe. rewrite Hsc. unfold try_catch, bind.
  unfold token.
  rewrite (verify_compact host signed _ h w2 Hk Hh Halg Hp).
  change (va_exp signed) with (Some (now w / 1000 + 600)%Z).
  cbn [Js.less_than].
  split; intros Ht.
  - apply Z.ltb_ge in Ht. rewrite Ht. reflexivity.
  - apply Z.ltb_lt in Ht. rewrite Ht. reflexivity.
Qed.

(** X11 -- [GET /auth/me] is read-only and has two outcomes.  For every
    request [handleMe] returns a response and leaves the world exactly as it
    was (no database access, no network call): either 200 with the subject,
    email and roles of the payload [verifyVibeAccessHS256] accepted for the
    session cookie, or 401 NO_SESSION. *)
Theorem me_is_read_only (request : Request) (env : SSOEnv) (w : World) :
  exists r,
    handleMe host request env w = (Ok r, w)
    /\ ((exists token p,
           session_cookie host request env = Some token
           /\ verifyVibeAccessHS256 host token (VIBE_ACCESS_SECRET env) w
              = (Ok p, w)
           /\ r = me_response p)
        \/ (resp_status r = 401%Z /\ resp_code r = Some "NO_SESSION")).
Proof.
  unfold handleMe.
  destruct (session_cookie host request env) as [token|].
  - unfold try_catch, bind.
    destruct (verifyVibeAccessHS256 host token (VIBE_ACCESS_SECRET env) w)
      as [[p|msg] w1] eqn:Ev;
      pose proof (preserves_verifyVibe host unchanged token
                    (VIBE_ACCESS_SECRET env) _ _ _ Ev) as ->.
    + eexists. split; [reflexivity|]. left. exists token, p. auto.
    + eexists. split; [reflexivity|]. right. auto.
  - eexists. split; [reflexivity|]. right. auto.
Qed.

(** X12 -- Soundness of the session verifier.  [verifyVibeAccessHS256]
    accepts a token only if it has exactly three dot-separated parts, its
    header decodes to the algorithm HS256, its third part decodes to the
    HMAC, under the given secret, of the first two parts joined by a dot, its
    second part decodes to the payload returned, and that payload's expiry,
    when it has one, is not before the current second; and it changes
    nothing.  A payload without [exp] is not refused for its age. *)
Theorem session_verifier_sound
    (token secret : string) (w w' : World) (p : VibeAccessPayload) :
  verifyVibeAccessHS256 host token secret w = (Ok p, w') ->
  w' = w
  /\ exists h64 p64 s64 header payloadJson,
       parts token = Some (h64, p64, s64)
       /\ decode_header host token = Some header
       /\ h_alg header = Some "HS256"
       /\ Base64.base64UrlDecode s64
          = Some (hmac_sha256 host (Js.TextEncoder_encode secret)
                    (Js.TextEncoder_encode
                       (String.append h64 (String "." p64))))
       /\ Base64.base64UrlDecode p64 = Some payloadJson
       /\ JSON_parse_vibe host payloadJson = Some p
       /\ forall expiry, va_exp p = Some expiry ->
                         (now w / 1000 <= expiry)%Z.
Proof.
  intros H.
  pose proof (preserves_verifyVibe host unchanged token secret _ _ _ H) as ->.
  split; [reflexivity|]. revert H.
  unfold verifyVibeAccessHS256, decode_header, parts.
  destruct (Js.split "." token) as [|h64 [|p64 [|s64 [|]]]];
    try (intros H; discriminate H).
  unfold bind, base64UrlDecode, or_throw, importHmacKey, Date_now, ret, throw.
  destruct (Base64.base64UrlDecode h64) as [hb|]; [|discriminate].
  destruct (JSON_parse_header host hb) as [header|]; [|discriminate].
  destruct (bool_decide (h_alg header = Some "HS256")) eqn:Ealg;
    [|discriminate]. cbn [negb].
  apply bool_decide_eq_true_1 in Ealg.
  destruct (hmac_importKey host (Js.TextEncoder_encode secret));
    [|discriminate].
  destruct (Base64.base64UrlDecode s64) as [sig|] eqn:Es; [|discriminate].
  destruct (bool_decide (sig = _)) eqn:Esig; [|discriminate]. cbn [negb].
  apply bool_decide_eq_true_1 in Esig.
  destruct (Base64.base64UrlDecode p64) as [pb|] eqn:Ep; [|discriminate].
  destruct (JSON_parse_vibe host pb) as [payload|] eqn:Ev; [|discriminate].
  destruct (Js.less_than (va_exp payload) (now w / 1000)%Z) eqn:Et;
    [discriminate|].
  intros H; inversion H; subst.
  exists h64, p64, s64, header, pb. repeat split; auto.
  intros expiry He. rewrite He in Et. cbn in Et. now apply Z.ltb_ge in Et.
Qed.

Lemma decode_header_compact (p : VibeAccessPayload) (secret : string) :
  decode_header host (compact host p secret)
  = JSON_parse_header host (header_bytes host).
Proof.
  unfold decode_header, compact, signing_input.
  rewrite split_compact. now rewrite base64Url_roundtrip.
Qed.

Lemma verifyVibe_other_alg token secret w header :
  decode_header host token = Some header ->
  h_alg header <> Some "HS256" ->
  verifyVibeAccessHS256 host token secret w
  = (Throw (String.append "Unsupported algorithm: "
              (Js.show_opt (h_alg header))), w).
Proof.
  unfold verifyVibeAccessHS256, decode_header.
  destruct (Js.split "." token) as [|h64 [|p64 [|s64 [|]]]];
    try discriminate.
  unfold bind, base64UrlDecode, or_throw, ret, throw.
  destruct (Base64.base64UrlDecode h64) as [hb|]; [|discriminate].
  intros -> Halg. now rewrite bool_decide_eq_false_2 by exact Halg.
Qed.

Lemma verifyFlexi_other_alg token url iss aud w header :
  decode_header host token = Some header ->
  h_alg header <> Some "RS256" ->
  verifyFlexiJWT_RS256 host net token url iss aud w
  = (Throw (String.append "Unsupported algorithm: "
              (Js.show_opt (h_alg header))), w).
Proof.
  unfold verifyFlexiJWT_RS256, decode_header.
  destruct (Js.split "." token) as [|h64 [|p64 [|s64 [|]]]];
    try discriminate.
  unfold bind, base64UrlDecode, or_throw, ret, throw.
  destruct (Base64.base64UrlDecode h64) as [hb|]; [|discriminate].
  intros -> Halg. now rewrite bool_decide_eq_false_2 by exact Halg.
Qed.

(** X13 -- The two kinds of token are not interchangeable.  A token whose
    header names another algorithm than HS256 is refused by the session
    verifier, and one whose header names another algorithm than RS256 by the
    assertion verifier, both with "Unsupported algorithm: ..." and before any
    key is imported or fetched.  So a token with an HS256 header, such as a
    session token, posted to the exchange endpoint as the assertion is
    answered 401 JWT_INVALID with the world untouched. *)
Theorem tokens_are_not_interchangeable
    (token : string) (header : JoseHeader) (w : World) :
  decode_header host token = Some header ->
  (h_alg header <> Some "HS256" ->
   forall secret,
     verifyVibeAccessHS256 host token secret w
     = (Throw (String.append "Unsupported algorithm: "
                 (Js.show_opt (h_alg header))), w))
  /\ (h_alg header <> Some "RS256" ->
      forall url iss aud,
        verifyFlexiJWT_RS256 host net token url iss aud w
        = (Throw (String.append "Unsupported algorithm: "
                    (Js.show_opt (h_alg header))), w))
  /\ (h_alg header = Some "HS256" ->
      forall request env mail,
        req_body request = BodyJsonObject (Some token) (Some mail) ->
        Js.truthy token = true -> Js.truthy mail = true ->
        handleVibeAccess host net request env w
        = (Ok (errorResponse "JWT_INVALID" "Invalid JWT" 401
                 (Some "Unsupported algorithm: HS256") (origin_of request)),
           w)).
Proof.
  intros Hd. split; [|split].
  - intros Halg secret. now apply verifyVibe_other_alg.
  - intros Halg url iss aud. now apply verifyFlexi_other_alg.
  - intros Halg request env mail Hb Ht Hm.
    rewrite (handleVibeAccess_object host net request env w token mail Hb Ht Hm).
    rewrite (verifyFlexi_other_alg token _ _ _ w header Hd)
      by (rewrite Halg; discriminate).
    now rewrite Halg.
Qed.

End Session.

(** On the reference host: the session issued to [a@b.com] at second
    1700000000 opens [GET /auth/me] five minutes later, among the other
    cookies of the client, and no longer does after ten minutes. *)
Lemma issued_session_opens_me_witness :
  let token :=
    compact Demo.host (full_payload Demo.identity 1700000000 600) "s3cret" in
  let request :=
    Demo.get_protected "/auth/me"
      (Some (cookie_header Demo.host
               [("theme", "dark"); ("vibe_access", token)])) in
  handleMe Demo.host request Demo.env (at_time 1700000300000 Demo.world0)
  = (Ok {| resp_status := 200;
           resp_headers := [("Content-Type", "application/json")];
           resp_body := MeBody "u1" "a@b.com" "viewer" |},
     at_time 1700000300000 Demo.world0)
  /\ handleMe Demo.host request Demo.env (at_time 1700000601000 Demo.world0)
     = (Ok (errorResponse "NO_SESSION" "Invalid session" 401
              (Some "Token expired") None),
        at_time 1700000601000 Demo.world0).
Proof.
  cbv zeta.
  destruct (issued_session_opens_me Demo.host Demo.env None "a@b.com"
              {| col_user_id := "u1"; col_status := "active";
                 col_roles := "viewer"; col_updated_at := 0 |}
              {| h_alg := Some "HS256"; h_kid := None |} Demo.world0)
    as (r & _ & _ & _ & Hme).
  - vm_compute. reflexivity.
  - cbn. discriminate.
  - reflexivity.
  - vm_compute. reflexivity.
  - reflexivity.
  - vm_compute. reflexivity.
  - split.
    + refine (proj1 (Hme _ [("theme", "dark"); ("vibe_access", _)]
                       (at_time 1700000300000 Demo.world0) _ _ _) _).
      * apply lookup_insert_eq.
      * vm_compute. reflexivity.
      * vm_compute. reflexivity.
      * vm_compute. discriminate.
    + refine (proj2 (Hme _ [("theme", "dark"); ("vibe_access", _)]
                       (at_time 1700000601000 Demo.world0) _ _ _) _).
      * apply lookup_insert_eq.
      * vm_compute. reflexivity.
      * vm_compute. reflexivity.
      * vm_compute. reflexivity.
Defined.

(** On the reference host: what the acceptance of an issued token says. *)
Lemma session_verifier_sound_witness :
  let signed := full_payload Demo.identity 1700000000 600 in
  let token := compact Demo.host signed "s3cret" in
  exists h64 p64 s64 header payloadJson,
    parts token = Some (h64, p64, s64)
    /\ decode_header Demo.host token = Some header
    /\ h_alg header = Some "HS256"
    /\ Base64.base64UrlDecode s64
       = Some (Demo.checksum (Js.TextEncoder_encode "s3cret")
                 (Js.TextEncoder_encode (String.append h64 (String "." p64))))
    /\ Base64.base64UrlDecode p64 = Some payloadJson
    /\ Demo.parse_vibe payloadJson = Some signed
    /\ forall expiry, va_exp signed = Some expiry ->
                      (1700000300 <= expiry)%Z.
Proof.
  cbv zeta.
  exact (proj2 (session_verifier_sound Demo.host
                  (compact Demo.host
                     (full_payload Demo.identity 1700000000 600) "s3cret")
                  "s3cret" (at_time 1700000300000 Demo.world0)
                  (at_time 1700000300000 Demo.world0)
                  (full_payload Demo.identity 1700000000 600)
                  ltac:(vm_compute; reflexivity))).
Defined.

(** On the reference host: a correctly signed token whose payload has no
    [exp] is accepted at every time. *)
Lemma session_without_expiry_is_accepted (t : Z) :
  let p := {| va_iss := "vibe-edge"; va_aud := "vibe-app"; va_sub := "u1";
              va_email := "a@b.com"; va_roles := "viewer";
              va_exp := None; va_iat := 1700000000%Z |} in
  verifyVibeAccessHS256 Demo.host (compact Demo.host p "s3cret") "s3cret"
    (at_time t Demo.world0)
  = (Ok p, at_time t Demo.world0).
Proof. vm_compute. reflexivity. Qed.

(** On the reference host: the RS256 assertion of the scenario is no
    session token, and a session token posted as an assertion is refused
    before any key is fetched. *)
Lemma tokens_are_not_interchangeable_witness :
  let token :=
    compact Demo.host (full_payload Demo.identity 1700000000 600) "s3cret" in
  verifyVibeAccessHS256 Demo.host Demo.assertion_n1 "s3cret" Demo.world0
  = (Throw "Unsupported algorithm: RS256", Demo.world0)
  /\ handleVibeAccess Demo.host Demo.net (Demo.post_exchange token "a@b.com")
       Demo.env Demo.world0
     = (Ok (errorResponse "JWT_INVALID" "Invalid JWT" 401
              (Some "Unsupported algorithm: HS256") None), Demo.world0).
Proof.
  cbv zeta. split.
  - refine (proj1 (tokens_are_not_interchangeable Demo.host Demo.net
                     Demo.assertion_n1 (Demo.rs256 (Some "k1")) Demo.world0 _)
              _ "s3cret").
    + vm_compute. reflexivity.
    + discriminate.
  - refine (proj2 (proj2 (tokens_are_not_interchangeable Demo.host Demo.net
                            _ {| h_alg := Some "HS256"; h_kid := None |}
                            Demo.world0 _))
              eq_refl (Demo.post_exchange _ "a@b.com") Demo.env "a@b.com"
              eq_refl _ eq_refl).
    + vm_compute. reflexivity.
    + vm_compute. reflexivity.
Defined.

(* ===================================================================== *)
(** * The key-set cache ([getFlexiJWKS]) *)
(* ===================================================================== *)

Section KeySetCache.

Context (net : Network).

Lemma getFlexiJWKS_hit url w data expires :
  jwksCache w = Some (data, expires) -> (now w < expires)%Z ->
  getFlexiJWKS net url w = (Ok data, w).
Proof.
  intros Hc Ht. unfold getFlexiJWKS, bind, Date_now, get_jwksCache, ret.
  rewrite Hc. apply Z.ltb_lt in Ht. now rewrite Ht.
Qed.

(** Every outcome of [getFlexiJWKS]: a hit, a refresh, or a failed fetch. *)
Lemma getFlexiJWKS_cases url w o w1 :
  getFlexiJWKS net url w = (o, w1) ->
  (w1 = w /\ exists data expires,
      jwksCache w = Some (data, expires) /\ (now w < expires)%Z /\ o = Ok data)
  \/ (exists jwks st, o = Ok jwks /\ w1 = refreshed url jwks w
                      /\ net_jwks net url = HttpReply st (Some jwks)
                      /\ response_ok st = true)
  \/ (exists msg, o = Throw msg /\ w1 = logged (EvFetchJWKS url) w).
Proof.
  unfold getFlexiJWKS, bind, Date_now, get_jwksCache, emit, set_jwksCache,
    or_throw, ret, throw.
  assert (R : forall o w1,
             (match net_jwks net url with
              | NetworkError msg => (Throw msg, logged (EvFetchJWKS url) w)
              | HttpReply st json =>
                  if negb (response_ok st)
                  then (Throw (String.append "Failed to fetch JWKS: " (pretty st)),
                        logged (EvFetchJWKS url) w)
                  else match json with
                       | Some j => (Ok j, refreshed url j w)
                       | None => (Throw "SyntaxError", logged (EvFetchJWKS url) w)
                       end
              end) = (o, w1) ->
             (exists jwks st, o = Ok jwks /\ w1 = refreshed url jwks w
                              /\ net_jwks net url = HttpReply st (Some jwks)
                              /\ response_ok st = true)
             \/ (exists msg, o = Throw msg /\ w1 = logged (EvFetchJWKS url) w)).
  { intros o' w'. destruct (net_jwks net url) as [msg|st [j|]];
      [| destruct (response_ok st) eqn:Est; cbn [negb]
       | destruct (response_ok st) eqn:Est; cbn [negb]];
      intros E; inversion E; subst; eauto 10. }
  destruct (jwksCache w) as [[data expires]|] eqn:Ec.
  - destruct (now w <? expires)%Z eqn:Et.
    + intros E; inversion E; subst. left. split; [reflexivity|].
      exists data, expires. apply Z.ltb_lt in Et. auto.
    + intros E. right. apply R.
      destruct (net_jwks net url) as [msg|st [j|]]; cbn in E |- *;
        try exact E; destruct (response_ok st); exact E.
  - intros E. right. apply R.
    destruct (net_jwks net url) as [msg|st [j|]]; cbn in E |- *;
      try exact E; destruct (response_ok st); exact E.
Qed.

(** X14 -- The key-set cache of [getFlexiJWKS].  (1) While the cached entry
    has not expired, the call returns it without any network call, whatever
    URL is asked for.  (2) A call that changed the world did fetch; it stores
    the key set with an expiry ten minutes after the time of that call, so
    every call made before that moment, for any URL, is served the same key
    set from the cache.  (3) A call that fails did attempt the fetch and
    leaves the cache as it was. *)
Theorem key_set_cache (url : string) (w : World) :
  (forall data expires,
     jwksCache w = Some (data, expires) -> (now w < expires)%Z ->
     getFlexiJWKS net url w = (Ok data, w))
  /\ (forall jwks w1,
        getFlexiJWKS net url w = (Ok jwks, w1) -> w1 <> w ->
        w1 = refreshed url jwks w
        /\ forall url2 w2,
             jwksCache w2 = jwksCache w1 ->
             (now w2 < now w + 10 * 60 * 1000)%Z ->
             getFlexiJWKS net url2 w2 = (Ok jwks, w2))
  /\ (forall msg w1,
        getFlexiJWKS net url w = (Throw msg, w1) ->
        w1 = logged (EvFetchJWKS url) w).
Proof.
  split; [|split].
  - intros data expires. apply getFlexiJWKS_hit.
  - intros jwks w1 E Hne.
    destruct (getFlexiJWKS_cases _ _ _ _ E)
      as [[-> _]|[(j & st & Ho & -> & _)|(msg & Ho & _)]];
      [congruence| |discriminate].
    injection Ho as <-. split; [reflexivity|].
    intros url2 w2 Hc Ht.
    now apply getFlexiJWKS_hit with (expires := (now w + 10 * 60 * 1000)%Z).
  - intros msg w1 E.
    destruct (getFlexiJWKS_cases _ _ _ _ E)
      as [(_ & d & e & _ & _ & Ho)|[(j & st & Ho & _)|(m & _ & ->)]];
      [discriminate|discriminate|reflexivity].
Qed.

End KeySetCache.

(** On the reference network: the key set fetched at second 1700000000 is
    served from the cache nine minutes later, whatever the URL asked for. *)
Lemma key_set_cache_witness :
  let jwks := {| keys := [Demo.key1; Demo.key2] |} in
  let w1 := refreshed "https://flexi.example/jwks" jwks Demo.world0 in
  getFlexiJWKS Demo.net "https://flexi.example/jwks" Demo.world0 = (Ok jwks, w1)
  /\ getFlexiJWKS Demo.net "https://elsewhere.example/keys"
       (at_time 1700000540000 w1)
     = (Ok jwks, at_time 1700000540000 w1).
Proof.
  cbv zeta.
  assert (E : getFlexiJWKS Demo.net "https://flexi.example/jwks" Demo.world0
              = (Ok {| keys := [Demo.key1; Demo.key2] |},
                 refreshed "https://flexi.example/jwks"
                   {| keys := [Demo.key1; Demo.key2] |} Demo.world0))
    by reflexivity.
  split; [exact E|].
  refine (proj2 (proj1 (proj2 (key_set_cache Demo.net
                                 "https://flexi.example/jwks" Demo.world0))
                   _ _ E _) _ _ _ _).
  - discriminate.
  - reflexivity.
  - vm_compute. reflexivity.
Defined.

(* ===================================================================== *)
(** * Routing, the origin guard and the protected routes *)
(* ===================================================================== *)

Section Routing.

Context (host : Host) (net : Network).

Lemma origin_allowed_In (o : string) :
  origin_allowed o = true <-> In o ALLOWED_ORIGINS.
Proof.
  unfold origin_allowed. rewrite existsb_exists. split.
  - intros (x & Hx & E). apply String.eqb_eq in E. now subst.
  - intros H. exists o. split; [exact H | apply String.eqb_refl].
Qed.

Lemma allowed_truthy (o : string) : In o ALLOWED_ORIGINS -> Js.truthy o = true.
Proof. cbn. intros H. repeat destruct H as [<-|H]; try reflexivity. destruct H. Qed.

Lemma fetch_guarded request env w :
  req_pathname request <> "/migrate" ->
  req_pathname request <> "/auth/health" ->
  forall r, handleCORS request = Some r ->
  fetch host net request env w = (Ok r, w).
Proof.
  intros H1 H2 r Hc. unfold fetch.
  apply String.eqb_neq in H1. apply String.eqb_neq in H2.
  rewrite H1, H2, Hc. reflexivity.
Qed.

(** X15 -- The origin guard of [fetch].  On every path but [/migrate] and
    [/auth/health], a request with a non-empty Origin header that is not one
    of [ALLOWED_ORIGINS] is answered 403 FORBIDDEN, and an OPTIONS request
    from an allowed origin is answered 204 with the CORS headers.  In both
    cases no route handler runs: the world is untouched. *)
Theorem origin_guard (request : Request) (env : SSOEnv) (w : World)
    (origin : string) :
  header_origin request = Some origin ->
  Js.truthy origin = true ->
  req_pathname request <> "/migrate" ->
  req_pathname request <> "/auth/health" ->
  (~ In origin ALLOWED_ORIGINS ->
   fetch host net request env w
   = (Ok (errorResponse "FORBIDDEN" "Invalid origin" 403 None None), w))
  /\ (In origin ALLOWED_ORIGINS -> req_method request = "OPTIONS" ->
      fetch host net request env w = (Ok (preflight_response origin), w)).
Proof.
  intros Ho Ht H1 H2. split.
  - intros Hn. apply fetch_guarded; try assumption.
    unfold handleCORS. rewrite Ho, Ht. cbn [negb].
    destruct (origin_allowed origin) eqn:E; [|reflexivity].
    now apply origin_allowed_In in E.
  - intros Hin Hm. apply fetch_guarded; try assumption.
    unfold handleCORS. rewrite Ho, Ht. cbn [negb].
    apply origin_allowed_In in Hin. rewrite Hin, Hm. reflexivity.
Qed.

(** X16 -- The two operational endpoints skip the origin guard.  Whatever
    its headers, [GET /auth/health] is answered 200 [{ok: true}], and
    [GET /migrate] is answered 403 FORBIDDEN unless [ALLOW_MIGRATE] is
    exactly ['true']; the world is untouched. *)
Theorem operational_endpoints_skip_origin_guard
    (request : Request) (env : SSOEnv) (w : World) :
  req_method request = "GET" ->
  (req_pathname request = "/auth/health" ->
   fetch host net request env w = (Ok handleHealth, w))
  /\ (req_pathname request = "/migrate" ->
      ALLOW_MIGRATE env <> Some "true" ->
      fetch host net request env w
      = (Ok (errorResponse "FORBIDDEN" "Migrations disabled" 403
               (Some "Set ALLOW_MIGRATE=true to enable") None), w)).
Proof.
  intros Hm. split.
  - intros Hp. unfold fetch. rewrite Hp, Hm. reflexivity.
  - intros Hp Ha. unfold fetch. rewrite Hp, Hm. cbn.
    unfold handleMigrate. now rewrite bool_decide_eq_false_2 by exact Ha.
Qed.

(** X22 -- Requests that match nothing get 404.  A request that passes the
    origin guard, is none of the five fixed routes under its method, and
    whose path does not start with the protected prefix is answered 404
    "Not Found" with the world untouched; so a fixed route under another
    method is not found rather than refused. *)
Theorem unmatched_requests_are_not_found
    (request : Request) (env : SSOEnv) (w : World) :
  handleCORS request = None ->
  ~ In (req_pathname request, req_method request) fixed_routes ->
  Js.startsWith (protected_prefix env) (req_pathname request) = false ->
  fetch host net request env w
  = (Ok {| resp_status := 404; resp_headers := [];
           resp_body := TextBody "Not Found" |}, w).
Proof.
  intros Hc Hr Hp. unfold fetch. rewrite Hc.
  assert (R : forall route method,
             In (route, method) fixed_routes ->
             String.eqb (req_pathname request) route
             && String.eqb (req_method request) method = false).
  { intros route method Hin.
    destruct (String.eqb (req_pathname request) route) eqn:E1;
      [|reflexivity].
    destruct (String.eqb (req_method request) method) eqn:E2;
      [|reflexivity].
    apply String.eqb_eq in E1, E2. subst. contradiction. }
  rewrite !R by (cbn; tauto).
  unfold protected_prefix in Hp. rewrite Hp.
  destruct (_ && _); reflexivity.
Qed.

End Routing.

(** On the reference host: a POST from a foreign origin is refused, a
    preflight from an allowed origin is answered. *)
Lemma origin_guard_witness :
  fetch Demo.host Demo.net
    (Scenario.request "POST" "/auth/vibe-access"
       [("origin", "https://evil.example");
        ("content-type", "application/json")])
    Demo.env Demo.world0
  = (Ok (errorResponse "FORBIDDEN" "Invalid origin" 403 None None),
     Demo.world0)
  /\ fetch Demo.host Demo.net
       (Scenario.request "OPTIONS" "/auth/vibe-access"
          [("origin", "https://app.flexifunnels.com")])
       Demo.env Demo.world0
     = (Ok (preflight_response "https://app.flexifunnels.com"), Demo.world0).
Proof.
  split.
  - refine (proj1 (origin_guard Demo.host Demo.net _ Demo.env Demo.world0
                     "https://evil.example" _ _ _ _) _).
    + vm_compute. reflexivity.
    + reflexivity.
    + discriminate.
    + discriminate.
    + cbn. intuition discriminate.
  - refine (proj2 (origin_guard Demo.host Demo.net _ Demo.env Demo.world0
                     "https://app.flexifunnels.com" _ _ _ _) _ _).
    + vm_compute. reflexivity.
    + reflexivity.
    + discriminate.
    + discriminate.
    + cbn. tauto.
    + reflexivity.
Defined.

(** On the reference host: the two operational endpoints, called from a
    foreign origin. *)
Lemma operational_endpoints_skip_origin_guard_witness :
  fetch Demo.host Demo.net
    (Scenario.request "GET" "/auth/health" [("origin", "https://evil.example")])
    Demo.env Demo.world0
  = (Ok handleHealth, Demo.world0)
  /\ fetch Demo.host Demo.net
       (Scenario.request "GET" "/migrate" [("origin", "https://evil.example")])
       Demo.env Demo.world0
     = (Ok (errorResponse "FORBIDDEN" "Migrations disabled" 403
              (Some "Set ALLOW_MIGRATE=true to enable") None), Demo.world0).
Proof.
  split.
  - refine (proj1 (operational_endpoints_skip_origin_guard Demo.host Demo.net
                     _ Demo.env Demo.world0 _) _); reflexivity.
  - refine (proj2 (operational_endpoints_skip_origin_guard Demo.host Demo.net
                     _ Demo.env Demo.world0 _) _ _);
      [reflexivity | reflexivity | discriminate].
Defined.

(** On the reference host: the exchange path under GET is not found. *)
Lemma unmatched_requests_are_not_found_witness :
  fetch Demo.host Demo.net (Scenario.request "GET" "/auth/vibe-access" [])
    Demo.env Demo.world0
  = (Ok {| resp_status := 404; resp_headers := [];
           resp_body := TextBody "Not Found" |}, Demo.world0).
Proof.
  refine (unmatched_requests_are_not_found Demo.host Demo.net _ Demo.env
            Demo.world0 _ _ _).
  - reflexivity.
  - cbn. intuition discriminate.
  - vm_compute. reflexivity.
Defined.

Section ProtectedRoutes.

Context (host : Host) (net : Network).

(** The gateway on a verified session: hand-off or proxy, inside the
    [catch]. *)
Lemma handleProtected_verified request env w token p :
  session_cookie host request env = Some token ->
  verifyVibeAccessHS256 host token (VIBE_ACCESS_SECRET env) w = (Ok p, w) ->
  handleProtected host net request env w
  = match (if hands_off request env then handoff host net request env p
           else proxy net request env p) w with
    | (Ok r, w') => (Ok r, w')
    | (Throw msg, w') =>
        (Ok (errorResponse "NO_SESSION" "Unauthorized" 401 (Some msg) None), w')
    end.
Proof.
  intros Hc Hv. unfold handleProtected. rewrite Hc.
  unfold try_catch, bind. rewrite Hv. fold (hands_off request env).
  destruct (hands_off request env);
    match goal with |- context [match ?m w with _ => _ end] =>
      destruct (m w) as [[r|msg] w'] end; reflexivity.
Qed.

Lemma handleProtected_proxied request env w token p :
  session_cookie host request env = Some token ->
  verifyVibeAccessHS256 host token (VIBE_ACCESS_SECRET env) w = (Ok p, w) ->
  hands_off request env = false ->
  handleProtected host net request env w
  = (Ok (match net_proxy net (proxied_request request env p) with
         | inr response => response
         | inl msg =>
             errorResponse "NO_SESSION" "Unauthorized" 401 (Some msg) None
         end),
     logged (EvUpstream (req_method request)
               (px_url (proxied_request request env p))) w).
Proof.
  intros Hc Hv Hh.
  rewrite (handleProtected_verified request env w token p Hc Hv), Hh.
  unfold proxied_request, proxy, bind, emit, ret, throw, logged.
  cbn [px_url]. destruct (net_proxy net _); reflexivity.
Qed.

(** X19 -- The proxied request carries the verified identity.  For a
    verified session and any request that is not the hand-off request, the
    gateway forwards the request upstream, with the same method, path, query
    and body, and with the headers [x-user-id], [x-user-email] and
    [x-user-roles] set from the verified payload, whatever the client sent
    under these names; every other header, the Cookie header included, is
    forwarded as it came.  The upstream response is returned as it is, and an
    exception of the call is answered 401 NO_SESSION. *)
Theorem proxy_carries_verified_identity
    (request : Request) (env : SSOEnv) (w : World)
    (token : string) (p : VibeAccessPayload) :
  session_cookie host request env = Some token ->
  verifyVibeAccessHS256 host token (VIBE_ACCESS_SECRET env) w = (Ok p, w) ->
  hands_off request env = false ->
  let px := proxied_request request env p in
  handleProtected host net request env w
  = (Ok (match net_proxy net px with
         | inr response => response
         | inl msg =>
             errorResponse "NO_SESSION" "Unauthorized" 401 (Some msg) None
         end),
     logged (EvUpstream (req_method request) (px_url px)) w)
  /\ px_headers px !! "x-user-id" = Some (va_sub p)
  /\ px_headers px !! "x-user-email" = Some (va_email p)
  /\ px_headers px !! "x-user-roles" = Some (va_roles p)
  /\ (forall name,
        ~ In name ["x-user-id"; "x-user-email"; "x-user-roles"] ->
        px_headers px !! name = req_headers request !! name)
  /\ px_method px = req_method request
  /\ px_body px = req_body request.
Proof.
  intros Hc Hv Hh px. split.
  - now apply handleProtected_proxied with (token := token).
  - unfold px, proxied_request. cbn [px_headers px_method px_body].
    repeat split.
    + rewrite !lookup_insert_ne by discriminate. apply lookup_insert_eq.
    + rewrite lookup_insert_ne by discriminate. apply lookup_insert_eq.
    + apply lookup_insert_eq.
    + intros name Hn. cbn in Hn.
      rewrite !lookup_insert_ne by (intros E; apply Hn; auto). reflexivity.
Qed.

(** X18 -- The hand-off.  For a verified session and a GET on the protected
    prefix itself (with or without a trailing slash), the gateway makes
    exactly one upstream call: a POST to the hand-off endpoint carrying the
    verified identity, never the client's request.  It redirects (302) to the
    sso-complete URL with the access token and the path iff the hand-off
    answered 2xx with [success] and a non-empty access token; otherwise it
    answers 500 SSO_HANDOFF_FAILED, or 401 NO_SESSION when the call was
    rejected or its 2xx answer was not JSON. *)
Theorem handoff_outcomes
    (request : Request) (env : SSOEnv) (w : World)
    (token : string) (p : VibeAccessPayload) :
  session_cookie host request env = Some token ->
  verifyVibeAccessHS256 host token (VIBE_ACCESS_SECRET env) w = (Ok p, w) ->
  hands_off request env = true ->
  exists r,
    handleProtected host net request env w
    = (Ok r, logged (EvUpstream "POST" (handoff_url env)) w)
    /\ match handoff_token net env p with
       | Some accessToken => r = complete_response host request env accessToken
       | None =>
           (resp_status r = 500%Z /\ resp_code r = Some "SSO_HANDOFF_FAILED")
           \/ (resp_status r = 401%Z /\ resp_code r = Some "NO_SESSION"
               /\ forall st data,
                    handoff_reply net env p <> HttpReply st (Some data))
       end.
Proof.
  intros Hc Hv Hh.
  rewrite (handleProtected_verified request env w token p Hc Hv), Hh.
  unfold handoff_token, handoff_reply, handoff, handoff_url, bind, emit,
    or_throw, ret, throw, logged.
  cbn [fst snd].
  destruct (net_handoff net _ _) as [msg|st [data|]].
  - eexists. split; [reflexivity|]. right. cbn. repeat split. discriminate.
  - destruct (response_ok st); cbn [andb].
    + destruct (hd_data data) as [session|].
      * destruct (hd_success data); cbn [negb orb andb].
        -- destruct (Js.truthy (hs_accessToken session)); cbn [negb];
             eexists; (split; [reflexivity|]); [reflexivity|].
           left. cbn. auto.
        -- eexists. split; [reflexivity|]. left. cbn. auto.
      * eexists. split; [reflexivity|]. left. cbn. auto.
    + destruct (hd_data data); eexists; (split; [reflexivity|]);
        left; cbn; auto.
  - destruct (response_ok st).
    + eexists. split; [reflexivity|]. right. cbn. repeat split. discriminate.
    + eexists. split; [reflexivity|]. left. cbn. auto.
Qed.

(** X23 -- With no protected prefix configured, [fetch] routes the paths
    under the default [/app/] to the gateway, but the gateway's test for the
    hand-off request compares the path with the configured, empty prefix:
    no request is handed off, the request of a verified session is always
    proxied. *)
Theorem empty_prefix_never_hands_off
    (request : Request) (env : SSOEnv) (w : World)
    (token : string) (p : VibeAccessPayload) :
  PROTECTED_PREFIX env = "" ->
  Js.startsWith "/app/" (req_pathname request) = true ->
  handleCORS request = None ->
  session_cookie host request env = Some token ->
  verifyVibeAccessHS256 host token (VIBE_ACCESS_SECRET env) w = (Ok p, w) ->
  hands_off request env = false
  /\ fetch host net request env w
     = (Ok (match net_proxy net (proxied_request request env p) with
            | inr response => response
            | inl msg =>
                errorResponse "NO_SESSION" "Unauthorized" 401 (Some msg) None
            end),
        logged (EvUpstream (req_method request)
                  (px_url (proxied_request request env p))) w).
Proof.
  intros Hp Hs Hcors Hc Hv.
  assert (R : forall route,
             Js.startsWith "/app/" route = false ->
             String.eqb (req_pathname request) route = false).
  { intros route Hr. apply String.eqb_neq. intros E. congruence. }
  assert (Hh : hands_off request env = false).
  { unfold hands_off. rewrite Hp. cbn [String.append].
    rewrite !R by reflexivity. reflexivity. }
  split; [exact Hh|].
  rewrite <- (handleProtected_proxied request env w token p Hc Hv Hh).
  unfold fetch. rewrite Hcors, Hp. cbn [Js.truthy].
  rewrite !R by reflexivity. cbn [andb negb]. now rewrite Hs.
Qed.

End ProtectedRoutes.

(** On the reference host: a client with a valid session that claims to be
    [admin] is forwarded as the user of its session, [u1]. *)
Lemma proxy_carries_verified_identity_witness :
  let request :=
    Scenario.request "POST" "/app/orders"
      [Scenario.session_header; ("x-user-id", "admin")] in
  let px := proxied_request request Demo.env
              (full_payload Demo.identity 1700000000 600) in
  req_headers request !! "x-user-id" = Some "admin"
  /\ px_headers px !! "x-user-id" = Some "u1"
  /\ handleProtected Demo.host Demo.net request Demo.env Demo.world0
     = (Ok {| resp_status := 200; resp_headers := [];
              resp_body := UpstreamBody "upstream" |},
        logged (EvUpstream "POST" "https://vibe.example/app/orders")
          Demo.world0).
Proof.
  cbv zeta. split; [vm_compute; reflexivity|].
  destruct (proxy_carries_verified_identity Demo.host Demo.net
              (Scenario.request "POST" "/app/orders"
                 [Scenario.session_header; ("x-user-id", "admin")])
              Demo.env Demo.world0 Scenario.session_token
              (full_payload Demo.identity 1700000000 600))
    as (H & Hid & _).
  - vm_compute. reflexivity.
  - vm_compute. reflexivity.
  - reflexivity.
  - split; [exact Hid | exact H].
Defined.

(** On the reference host: the first GET on the prefix is redirected to the
    sso-complete URL with the upstream's access token. *)
Lemma handoff_outcomes_witness :
  handleProtected Demo.host Demo.net
    (Scenario.request "GET" "/app/" [Scenario.session_header])
    Demo.env Demo.world0
  = (Ok {| resp_status := 302;
           resp_headers :=
             [("Location",
               "https://vibe.example/api/auth/sso-complete?token=upstream-token&redirect=%2Fapp%2F")];
           resp_body := NoBody |},
     logged (EvUpstream "POST" "https://vibe.example/api/auth/sso-handoff")
       Demo.world0).
Proof.
  destruct (handoff_outcomes Demo.host Demo.net
              (Scenario.request "GET" "/app/" [Scenario.session_header])
              Demo.env Demo.world0 Scenario.session_token
              (full_payload Demo.identity 1700000000 600))
    as (r & H & Hr).
  - vm_compute. reflexivity.
  - vm_compute. reflexivity.
  - reflexivity.
  - rewrite H. cbn in Hr. rewrite Hr. vm_compute. reflexivity.
Defined.

(** On the reference host with no prefix configured: the same GET is
    proxied. *)
Lemma empty_prefix_never_hands_off_witness :
  fetch Demo.host Demo.net
    (Scenario.request "GET" "/app/" [Scenario.session_header])
    Scenario.env_no_prefix Demo.world0
  = (Ok {| resp_status := 200; resp_headers := [];
           resp_body := UpstreamBody "upstream" |},
     logged (EvUpstream "GET" "https://vibe.example/app/") Demo.world0).
Proof.
  refine (proj2 (empty_prefix_never_hands_off Demo.host Demo.net
                   (Scenario.request "GET" "/app/" [Scenario.session_header])
                   Scenario.env_no_prefix Demo.world0 Scenario.session_token
                   (full_payload Demo.identity 1700000000 600) _ _ _ _ _)).
  - reflexivity.
  - vm_compute. reflexivity.
  - reflexivity.
  - vm_compute. reflexivity.
  - vm_compute. reflexivity.
Defined.

(* ===================================================================== *)
(** * Answers of the exchange endpoint *)
(* ===================================================================== *)

Section ExchangeAnswers.

Context (host : Host) (net : Network).

Lemma issue_session_answer env origin mail w o w' :
  issue_session host env origin mail w = (o, w') ->
  match o with
  | Ok r => exchange_answer host env origin r
  | Throw _ => True
  end.
Proof.
  destruct (sso_users (VIBE_DB w) !! mail) as [c|] eqn:Eu.
  - destruct (decide (col_status c = "suspended")) as [Hs|Hs].
    + rewrite (issue_session_suspended host env _ mail _ c Eu Hs).
      intros E; inversion E; subst. left. eauto 10.
    + rewrite (issue_session_active host env _ mail _ c Eu Hs).
      destruct (signVibeAccessHS256 _ _ _ _ _) as [[tok|msg] w1];
        intros E; inversion E; subst; [right; eauto | exact I].
  - rewrite (issue_session_unknown host env _ mail _ Eu).
    intros E; inversion E; subst. left. eauto 10.
Qed.

Lemma exchange_answers env origin mail p w o w' :
  exchange host env origin mail p w = (o, w') ->
  match o with
  | Ok r => exchange_answer host env origin r
  | Throw _ => True
  end.
Proof.
  unfold exchange.
  destruct (negb (String.eqb _ _)).
  - intros E; inversion E; subst. left. eauto 10.
  - unfold bind.
    destruct ((if Js.truthy_opt (fj_jti p)
               then markJtiSeen (Js.show_opt (fj_jti p)) else ret true) w)
      as [[isNew|msg] w1].
    + destruct isNew; cbn [negb].
      * apply issue_session_answer.
      * intros E; inversion E; subst. left. eauto 10.
    + intros E; inversion E; subst. exact I.
Qed.

(** The exchange endpoint always answers, and with an [exchange_answer]. *)
Lemma handleVibeAccess_answer request env w :
  exists r w',
    handleVibeAccess host net request env w = (Ok r, w')
    /\ exchange_answer host env (origin_of request) r.
Proof.
  destruct (req_body request) as [raw| |jwt mail] eqn:Eb.
  - unfold handleVibeAccess. rewrite Eb. eexists _, _.
    split; [reflexivity|]. left. eauto 10.
  - unfold handleVibeAccess. rewrite Eb. eexists _, _.
    split; [reflexivity|]. left. eauto 10.
  - destruct (Js.truthy_opt jwt) eqn:Ej.
    + destruct (Js.truthy_opt mail) eqn:Em.
      * destruct jwt as [jwt|]; [|discriminate].
        destruct mail as [mail|]; [|discriminate].
        rewrite (handleVibeAccess_object host net request env w jwt mail
                   Eb Ej Em).
        destruct (verifyFlexiJWT_RS256 _ _ _ _ _ _ _) as [[p|msg] w1].
        -- destruct (exchange host env (origin_of request) mail p w1)
             as [[r|msg] w2] eqn:Ex.
           ++ eexists _, _. split; [reflexivity|].
              exact (exchange_answers _ _ _ _ _ _ _ Ex).
           ++ eexists _, _. split; [reflexivity|]. left. eauto 10.
        -- eexists _, _. split; [reflexivity|]. left. eauto 10.
      * unfold handleVibeAccess. rewrite Eb, Ej, Em. eexists _, _.
        split; [reflexivity|]. left. eauto 10.
    + unfold handleVibeAccess. rewrite Eb, Ej. eexists _, _.
      split; [reflexivity|]. left. eauto 10.
Qed.

Lemma cors_headers_origin request :
  cors_headers (origin_of request)
  = match header_origin request with
    | Some o =>
        if origin_allowed o
        then [("Access-Control-Allow-Origin", o);
              ("Access-Control-Allow-Credentials", "true")]
        else []
    | None => []
    end.
Proof.
  unfold origin_of, cors_headers.
  destruct (header_origin request) as [o|]; [|reflexivity].
  destruct (Js.truthy o) eqn:Et; [now rewrite Et|].
  destruct o; [|discriminate]. reflexivity.
Qed.

(** X17 -- CORS headers of the exchange endpoint.  [handleVibeAccess] always
    answers.  Its response carries an Access-Control-Allow-Origin header only
    for a request whose Origin is one of [ALLOWED_ORIGINS], and then the
    header names exactly that origin; conversely every response to such a
    request, error or success, carries that header together with
    Access-Control-Allow-Credentials: true. *)
Theorem exchange_cors_headers (request : Request) (env : SSOEnv) (w : World) :
  exists r w',
    handleVibeAccess host net request env w = (Ok r, w')
    /\ (forall value,
          In ("Access-Control-Allow-Origin", value) (resp_headers r) ->
          header_origin request = Some value /\ In value ALLOWED_ORIGINS)
    /\ (forall origin,
          header_origin request = Some origin -> In origin ALLOWED_ORIGINS ->
          In ("Access-Control-Allow-Origin", origin) (resp_headers r)
          /\ In ("Access-Control-Allow-Credentials", "true") (resp_headers r)).
Proof.
  destruct (handleVibeAccess_answer request env w) as (r & w' & E & Hr).
  exists r, w'. split; [exact E|].
  assert (Hh : exists before after,
             resp_headers r = before ++ cors_headers (origin_of request) ++ after
             /\ forall name v, In (name, v) (before ++ after) ->
                               name = "Content-Type" \/ name = "Set-Cookie").
  { destruct Hr as [(c & e & s & m & ->)|(tok & ->)].
    - exists [("Content-Type", "application/json")], []. split.
      + cbn. now rewrite app_nil_r.
      + cbn. intros name v [H|[]]. inversion H. auto.
    - exists [], [("Set-Cookie",
                   String.append
                     (cookie_pair host (VIBE_COOKIE_NAME env) tok)
                     (session_cookie_attributes env))]. split.
      + now rewrite session_response_headers.
      + cbn. intros name v [H|[]]. inversion H. auto. }
  destruct Hh as (before & after & -> & Hother).
  rewrite cors_headers_origin. split.
  - intros value Hin. rewrite !in_app_iff in Hin.
    assert (Hc : In ("Access-Control-Allow-Origin", value)
                   match header_origin request with
                   | Some o =>
                       if origin_allowed o
                       then [("Access-Control-Allow-Origin", o);
                             ("Access-Control-Allow-Credentials", "true")]
                       else []
                   | None => []
                   end).
    { destruct Hin as [H|[H|H]]; [|exact H|].
      - destruct (Hother _ _ (proj2 (in_app_iff _ _ _) (or_introl H)));
          discriminate.
      - destruct (Hother _ _ (proj2 (in_app_iff _ _ _) (or_intror H)));
          discriminate. }
    destruct (header_origin request) as [o|]; [|destruct Hc].
    destruct (origin_allowed o) eqn:Ea; [|destruct Hc].
    destruct Hc as [H|[H|[]]]; inversion H; subst.
    split; [reflexivity | now apply origin_allowed_In].
  - intros origin Ho Hin. rewrite Ho.
    apply origin_allowed_In in Hin. rewrite Hin.
    rewrite !in_app_iff. cbn. auto 10.
Qed.

(** X20 -- Bodies the exchange endpoint refuses before any verification: a
    body that is not JSON (400 INVALID_BODY, "Invalid JSON body"); a JSON
    body in which [jwt] or [email] is missing or empty (400 INVALID_BODY,
    "Missing jwt or email"); and the JSON body [null], whose destructuring
    throws (500 INTERNAL_ERROR).  In each case the world is untouched. *)
Theorem exchange_rejects_bad_bodies
    (request : Request) (env : SSOEnv) (w : World) :
  (forall raw, req_body request = BodyNotJson raw ->
     handleVibeAccess host net request env w
     = (Ok (errorResponse "INVALID_BODY" "Invalid JSON body" 400
              (Some "Request body must be valid JSON") (origin_of request)),
        w))
  /\ (forall jwt mail,
        req_body request = BodyJsonObject jwt mail ->
        Js.truthy_opt jwt = false \/ Js.truthy_opt mail = false ->
        handleVibeAccess host net request env w
        = (Ok (errorResponse "INVALID_BODY" "Missing jwt or email" 400
                 (Some "Both jwt and email fields are required")
                 (origin_of request)), w))
  /\ (req_body request = BodyJsonNull ->
      exists message',
        handleVibeAccess host net request env w
        = (Ok (errorResponse "INTERNAL_ERROR" "Internal server error" 500
                 (Some message') (origin_of request)), w)).
Proof.
  split; [|split].
  - intros raw Hb. unfold handleVibeAccess. now rewrite Hb.
  - intros jwt mail Hb Hf. unfold handleVibeAccess. rewrite Hb.
    destruct Hf as [-> | ->]; [reflexivity|].
    now rewrite orb_true_r.
  - intros Hb. unfold handleVibeAccess. rewrite Hb. eexists. reflexivity.
Qed.

Lemma answers_ret {A} (a : A) : answers (ret a).
Proof. intros w. eexists _, _. reflexivity. Qed.

Lemma answers_try_catch {A} (m : M A) (h : string -> M A) :
  (forall msg, answers (h msg)) -> answers (try_catch m h).
Proof.
  intros Hh w. unfold try_catch.
  destruct (m w) as [[a|msg] w1]; [eexists _, _; reflexivity | apply Hh].
Qed.

(** X21 -- No exception escapes [fetch] on the routes whose work is done
    inside a [try] block.  For every request other than [POST /auth/logout],
    whatever the body parser, the verifiers, the key-set endpoint, a
    conflicting insert into the replay table or the upstream application
    throw, [fetch] returns a response.  (The logout route builds its
    response outside any [try] block and is left out.) *)
Theorem fetch_always_answers (request : Request) (env : SSOEnv) :
  ~ (req_pathname request = "/auth/logout" /\ req_method request = "POST") ->
  answers (fetch host net request env).
Proof.
  intros Hroute.
  assert (Hv : answers (handleVibeAccess host net request env)).
  { apply answers_try_catch. intros msg. apply answers_ret. }
  assert (Hme : answers (handleMe host request env)).
  { apply answers_try_catch. intros msg. apply answers_ret. }
  assert (Hmig : answers (handleMigrate env)).
  { unfold handleMigrate. destruct (negb _); [apply answers_ret|].
    apply answers_try_catch. intros msg. apply answers_ret. }
  assert (Hp : answers (handleProtected host net request env)).
  { unfold handleProtected.
    destruct (session_cookie host request env); [|apply answers_ret].
    apply answers_try_catch. intros msg. apply answers_ret. }
  assert (Hl : String.eqb (req_pathname request) "/auth/logout"
               && String.eqb (req_method request) "POST" = false).
  { apply not_true_is_false. intros E.
    apply andb_true_iff in E as [E1 E2].
    apply String.eqb_eq in E1, E2. now apply Hroute. }
  unfold fetch. cbv zeta. rewrite Hl. clear Hl Hroute.
  repeat match goal with
         | |- answers (if ?b then _ else _) => destruct b
         | |- answers (match ?x with Some _ => _ | None => _ end) => destruct x
         | |- answers (ret _) => apply answers_ret
         end; assumption.
Qed.

End ExchangeAnswers.

(** On the reference host: an exchange whose token is not a token at all,
    and a gateway request whose cookie is not a session token, are both
    answered. *)
Lemma fetch_always_answers_witness :
  (exists r w',
      fetch Demo.host Demo.net (Demo.post_exchange "no-token" "a@b.com")
        Demo.env Demo.world0 = (Ok r, w'))
  /\ (exists r w',
        fetch Demo.host Demo.net
          (Scenario.request "GET" "/app/files"
             [("cookie", "vibe_access=no-token")])
          Demo.env Demo.world0 = (Ok r, w')).
Proof.
  split.
  - apply (fetch_always_answers Demo.host Demo.net
             (Demo.post_exchange "no-token" "a@b.com") Demo.env).
    intros [H _]. discriminate H.
  - apply (fetch_always_answers Demo.host Demo.net
             (Scenario.request "GET" "/app/files"
                [("cookie", "vibe_access=no-token")]) Demo.env).
    intros [H _]. discriminate H.
Defined.

(* ===================================================================== *)
(** * Logout, and an outage of the key-set endpoint *)
(* ===================================================================== *)

Section Logout.

Context (host : Host) (net : Network).

Lemma handleLogout_response request env :
  handleLogout host request env
  = {| resp_status := 200;
       resp_headers :=
         [("Set-Cookie",
           String.append (cookie_pair host (VIBE_COOKIE_NAME env) "")
                         (cleared_cookie_attributes env))];
       resp_body := SuccessBody "Logged out" |}.
Proof.
  unfold handleLogout, clearCookie, setCookie, cleared_cookie_attributes,
    cookie_pair.
  cbn [domain maxAge path httpOnly secure sameSite Js.truthy_opt Js.show_opt].
  cbv [from_option id]. cbn [Js.truthy app].
  change (pretty 0%Z) with "0".
  do 3 f_equal.
  destruct (Js.truthy (VIBE_COOKIE_DOMAIN env));
    rewrite !append_assoc; reflexivity.
Qed.

(** X24 -- Logout.  [POST /auth/logout] needs no session: it answers 200
    with a single Set-Cookie header that empties the session cookie
    (Max-Age=0, same name, same domain) and touches nothing.  A client that
    then sends the emptied cookie has no session: the gateway and
    [/auth/me] answer 401 NO_SESSION without verifying anything. *)
Theorem logout_ends_session (request : Request) (env : SSOEnv) (w : World) :
  req_pathname request = "/auth/logout" ->
  req_method request = "POST" ->
  handleCORS request = None ->
  fetch host net request env w
  = (Ok {| resp_status := 200;
           resp_headers :=
             [("Set-Cookie",
               String.append (cookie_pair host (VIBE_COOKIE_NAME env) "")
                             (cleared_cookie_attributes env))];
           resp_body := SuccessBody "Logged out" |}, w)
  /\ forall next cookies w2,
       req_headers next !! "cookie" = Some (cookie_header host cookies) ->
       well_encoded host cookies = true ->
       jar cookies !! VIBE_COOKIE_NAME env = Some "" ->
       handleProtected host net next env w2
       = (Ok (errorResponse "NO_SESSION" "Unauthorized" 401
                (Some "No session cookie found") None), w2)
       /\ handleMe host next env w2
          = (Ok (errorResponse "NO_SESSION" "No session found" 401
                   (Some "Vibe access cookie not found") None), w2).
Proof.
  intros Hp Hm Hc. split.
  - unfold fetch. rewrite Hp, Hm, Hc. cbn.
    now rewrite handleLogout_response.
  - intros next cookies w2 Hh Hw Hj.
    assert (Hs : session_cookie host next env = None).
    { unfold session_cookie.
      now rewrite (parseCookies_jar host _ _ Hh Hw), Hj. }
    unfold handleProtected, handleMe. rewrite Hs. split; reflexivity.
Qed.

End Logout.

(** On the reference host: the Set-Cookie header of a logout, and
    [/auth/me] for a client sending the emptied cookie. *)
Lemma logout_ends_session_witness :
  fetch Demo.host Demo.net
    (Scenario.request "POST" "/auth/logout" [Scenario.session_header])
    Demo.env Demo.world0
  = (Ok {| resp_status := 200;
           resp_headers :=
             [("Set-Cookie",
               "vibe_access=; Domain=.vibe.example; Max-Age=0; Path=/; HttpOnly; Secure; SameSite=Lax")];
           resp_body := SuccessBody "Logged out" |}, Demo.world0)
  /\ handleMe Demo.host
       (Scenario.request "GET" "/auth/me" [("cookie", "vibe_access=")])
       Demo.env Demo.world0
     = (Ok (errorResponse "NO_SESSION" "No session found" 401
              (Some "Vibe access cookie not found") None), Demo.world0).
Proof.
  destruct (logout_ends_session Demo.host Demo.net
              (Scenario.request "POST" "/auth/logout" [Scenario.session_header])
              Demo.env Demo.world0 eq_refl eq_refl eq_refl) as [H Hnext].
  split; [exact H|].
  refine (proj2 (Hnext (Scenario.request "GET" "/auth/me"
                          [("cookie", "vibe_access=")])
                   [("vibe_access", "")] Demo.world0 _ _ _)).
  - vm_compute. reflexivity.
  - vm_compute. reflexivity.
  - vm_compute. reflexivity.
Defined.

Section KeySetOutage.

Context (host : Host) (net : Network).

Lemma verifyFlexi_key_set_failure token url iss aud w header p msg w1 :
  decode_header host token = Some header ->
  h_alg header = Some "RS256" ->
  decode_claims host token = Some p ->
  check_claims p iss aud (now w / 1000) w = (Ok tt, w) ->
  getFlexiJWKS net url w = (Throw msg, w1) ->
  verifyFlexiJWT_RS256 host net token url iss aud w = (Throw msg, w1).
Proof.
  unfold verifyFlexiJWT_RS256, decode_header, decode_claims.
  destruct (Js.split "." token) as [|h64 [|p64 [|s64 [|]]]];
    try discriminate.
  unfold bind, base64UrlDecode, or_throw, Date_now, ret, throw.
  destruct (Base64.base64UrlDecode h64) as [hb|]; [|discriminate].
  intros -> Halg. rewrite Halg.
  rewrite bool_decide_eq_true_2 by reflexivity. cbn [negb].
  destruct (Base64.base64UrlDecode p64) as [pb|]; [|discriminate].
  intros -> Hc Hj. now rewrite Hc, Hj.
Qed.

(** X25 -- An outage of the key-set endpoint is reported as an invalid
    assertion.  For an assertion whose header and claims pass, if the key
    set cannot be obtained the exchange answers 401 JWT_INVALID with the
    error of the fetch as its message.  The fetch was attempted and nothing
    else changed: the nonce is not recorded, so the same assertion can be
    presented again. *)
Theorem key_set_outage_is_invalid_jwt
    (request : Request) (env : SSOEnv) (w w1 : World)
    (jwt mail msg : string) (header : JoseHeader) (p : FlexiJWTPayload) :
  req_body request = BodyJsonObject (Some jwt) (Some mail) ->
  Js.truthy jwt = true -> Js.truthy mail = true ->
  decode_header host jwt = Some header ->
  h_alg header = Some "RS256" ->
  decode_claims host jwt = Some p ->
  check_claims p (FLEXI_ISS env) (FLEXI_AUD env) (now w / 1000) w = (Ok tt, w) ->
  getFlexiJWKS net (FLEXI_JWKS_URL env) w = (Throw msg, w1) ->
  handleVibeAccess host net request env w
  = (Ok (errorResponse "JWT_INVALID" "Invalid JWT" 401 (Some msg)
           (origin_of request)),
     logged (EvFetchJWKS (FLEXI_JWKS_URL env)) w)
  /\ w1 = logged (EvFetchJWKS (FLEXI_JWKS_URL env)) w.
Proof.
  intros Hb Hj Hm Hh Halg Hd Hc Hk.
  assert (E : w1 = logged (EvFetchJWKS (FLEXI_JWKS_URL env)) w).
  { destruct (getFlexiJWKS_cases net _ _ _ _ Hk)
      as [(_ & d & e & _ & _ & Ho)|[(j & st & Ho & _)|(m & _ & ->)]];
      [discriminate|discriminate|reflexivity]. }
  split; [|exact E].
  rewrite (handleVibeAccess_object host net request env w jwt mail Hb Hj Hm).
  rewrite (verifyFlexi_key_set_failure jwt _ _ _ w header p msg w1
             Hh Halg Hd Hc Hk).
  now rewrite E.
Qed.

End KeySetOutage.

(** On the reference host with the key-set endpoint answering 503: the
    scenario's assertion is answered 401 JWT_INVALID. *)
Lemma key_set_outage_is_invalid_jwt_witness :
  handleVibeAccess Demo.host Scenario.net_jwks_down
    (Demo.post_exchange Demo.assertion_n1 "a@b.com") Demo.env Demo.world0
  = (Ok (errorResponse "JWT_INVALID" "Invalid JWT" 401
           (Some "Failed to fetch JWKS: 503") None),
     logged (EvFetchJWKS "https://flexi.example/jwks") Demo.world0).
Proof.
  refine (proj1 (key_set_outage_is_invalid_jwt Demo.host Scenario.net_jwks_down
                   (Demo.post_exchange Demo.assertion_n1 "a@b.com") Demo.env
                   Demo.world0
                   (logged (EvFetchJWKS "https://flexi.example/jwks")
                      Demo.world0)
                   Demo.assertion_n1 "a@b.com" "Failed to fetch JWKS: 503"
                   (Demo.rs256 (Some "k1"))
                   (Demo.claims "a@b.com" (Some 1700000600%Z) (Some "n1"))
                   eq_refl _ eq_refl _ eq_refl _ _ _)).
  - vm_compute. reflexivity.
  - vm_compute. reflexivity.
  - vm_compute. reflexivity.
  - vm_compute. reflexivity.
  - vm_compute. reflexivity.
Defined.

(* ===================================================================== *)
(** * What an accepted assertion guarantees *)
(* ===================================================================== *)

Section AssertionSoundness.

Context (host : Host) (net : Network).

Lemma check_claims_passed p iss aud t w :
  check_claims p iss aud t w = (Ok tt, w) ->
  fj_iss p = Some iss
  /\ fj_aud p = Some aud
  /\ (forall e, fj_exp p = Some e -> e = 0 \/ t <= e)%Z
  /\ (forall n, fj_nbf p = Some n -> n = 0 \/ n <= t)%Z
  /\ Js.truthy_opt (fj_email p) = true.
Proof.
  unfold check_claims, ret, throw.
  destruct (bool_decide (fj_iss p = Some iss)) eqn:Ei; [|discriminate].
  destruct (bool_decide (fj_aud p = Some aud)) eqn:Ea; [|discriminate].
  cbn [negb].
  destruct (Js.truthy_num (fj_exp p) && (default 0 (fj_exp p) <? t)%Z)
    eqn:Ee; [discriminate|].
  destruct (Js.truthy_num (fj_nbf p) && (t <? default 0 (fj_nbf p))%Z)
    eqn:En; [discriminate|].
  destruct (Js.truthy_opt (fj_email p)) eqn:Em; [|discriminate].
  intros _.
  apply bool_decide_eq_true_1 in Ei. apply bool_decide_eq_true_1 in Ea.
  repeat split; auto.
  - intros e He. rewrite He in Ee. cbn in Ee.
    destruct (Z.eqb_spec e 0); [now left|right].
    cbn in Ee. apply Z.ltb_ge in Ee. exact Ee.
  - intros n Hn. rewrite Hn in En. cbn in En.
    destruct (Z.eqb_spec n 0); [now left|right].
    cbn in En. apply Z.ltb_ge in En. exact En.
Qed.

Lemma select_key_member header jwks jwk :
  select_key header jwks = Some jwk -> In jwk (keys jwks).
Proof.
  unfold select_key. destruct (Js.truthy_opt (h_kid header)).
  - intros H. now apply find_some in H.
  - destruct (keys jwks) as [|k ks]; [discriminate|].
    cbn. intros H. injection H as ->. now left.
Qed.

(** X26 -- Soundness of the assertion verifier.  [verifyFlexiJWT_RS256]
    returns claims only if the issuer and the audience are the expected
    ones; the expiry, unless absent or 0, is not before the current second;
    the not-before, unless absent or 0, is not after it; the email is
    non-empty; the header names RS256; and the signature over the first two
    parts verifies under a key that is a member of the key set obtained,
    carrying the header's key-id when that is non-empty. *)
Theorem assertion_verifier_sound
    (token url iss aud : string) (w w' : World) (p : FlexiJWTPayload) :
  verifyFlexiJWT_RS256 host net token url iss aud w = (Ok p, w') ->
  fj_iss p = Some iss
  /\ fj_aud p = Some aud
  /\ (forall e, fj_exp p = Some e -> e = 0 \/ now w / 1000 <= e)%Z
  /\ (forall n, fj_nbf p = Some n -> n = 0 \/ n <= now w / 1000)%Z
  /\ Js.truthy_opt (fj_email p) = true
  /\ exists h64 p64 s64 header jwks jwk signature w1,
       parts token = Some (h64, p64, s64)
       /\ decode_header host token = Some header
       /\ h_alg header = Some "RS256"
       /\ decode_claims host token = Some p
       /\ getFlexiJWKS net url w = (Ok jwks, w1)
       /\ In jwk (keys jwks)
       /\ (forall kid, h_kid header = Some kid -> Js.truthy kid = true ->
                       jwk_kid jwk = Some kid)
       /\ Base64.base64UrlDecode s64 = Some signature
       /\ rsa_verify host (key_data jwk) signature
            (Js.TextEncoder_encode (String.append h64 (String "." p64)))
          = true.
Proof.
  intros H.
  apply verifyFlexi_ok in H
    as (header & jwks & jwk & w1 & h64 & p64 & s64 & sig
        & Hparts & Hh & Halg & Hd & Hc & Hj & Hk & Hi & Hs & Hv & ->).
  destruct (check_claims_passed _ _ _ _ _ Hc) as (A & B & C & D & E).
  repeat (split; [assumption|]).
  exists h64, p64, s64, header, jwks, jwk, sig, w1.
  repeat (split; [assumption|]).
  split; [now apply select_key_member with (header := header)|].
  split; [|split; assumption].
  intros kid Hkid Ht. unfold select_key in Hk. rewrite Hkid in Hk.
  cbn [Js.truthy_opt] in Hk. rewrite Ht in Hk.
  apply find_some in Hk as [_ Hk]. now apply bool_decide_eq_true_1 in Hk.
Qed.

End AssertionSoundness.

(** On the reference host: what the acceptance of the scenario's assertion
    says about its claims. *)
Lemma assertion_verifier_sound_witness :
  let p := Demo.claims "a@b.com" (Some 1700000600%Z) (Some "n1") in
  fj_iss p = Some "flexi"
  /\ fj_aud p = Some "vibe-handoff"
  /\ (forall e, fj_exp p = Some e -> e = 0 \/ 1700000000 <= e)%Z.
Proof.
  cbv zeta.
  destruct (assertion_verifier_sound Demo.host Demo.net Demo.assertion_n1
              "https://flexi.example/jwks" "flexi" "vibe-handoff"
              Demo.world0 _ (Demo.claims "a@b.com" (Some 1700000600%Z)
                               (Some "n1"))
              ltac:(vm_compute; reflexivity))
    as (A & B & C & _).
  repeat split; assumption.
Defined.
